(** * img2track: the track image of a Brother KH-930 knitting machine

    A shallow embedding of [img2track.py] (BCD/nibble codec, track memory
    model, directory manager, pattern allocator, bitmap encoder and sector
    writer) together with the properties of the program that its
    specification states.

    Python integers are [Z]; a [bytearray] is a [list Z] whose elements the
    constructor checks to lie in [0, 256); a [str] is a [list ascii].
    Exceptions are values of [exn]; code that mutates [self.data] lives in
    the state-and-exception monad [M], which keeps the buffer as it was at
    the moment an exception was raised. *)

From Stdlib Require Import ZArith Lia Ascii String.
From stdpp Require Import base tactics list.

Local Open Scope Z_scope.

(** ** Exceptions and results *)

Inductive exn : Set :=
| Error        (* class Error(Exception): recoverable, reported to the user *)
| BadError     (* class BadError(Exception): reported to the developer *)
| Exception    (* a bare Exception, raised by two_bytes *)
| IndexError
| TypeError
| ValueError.

Inductive result (A : Type) : Type :=
| Ok (a : A)
| Raise (e : exn).
Arguments Ok {A} a.
Arguments Raise {A} e.

Definition rbind {A B} (r : result A) (f : A → result B) : result B :=
  match r with Ok a => f a | Raise e => Raise e end.

(** ** Python sequences *)

Module Py.

Definition len {A} (l : list A) : Z := Z.of_nat (length l).

(** [l[i]]: a negative index counts from the end. *)
Definition index {A} (l : list A) (i : Z) : result A :=
  let j := if i <? 0 then i + len l else i in
  if j <? 0 then Raise IndexError
  else match l !! Z.to_nat j with
       | Some x => Ok x
       | None => Raise IndexError
       end.

(** Resolution of one bound of a slice against a sequence of length [n]. *)
Definition clamp (n i : Z) : Z :=
  if i <? 0 then Z.max 0 (i + n) else Z.min i n.

(** [l[a:b]] *)
Definition slice {A} (l : list A) (a b : Z) : list A :=
  let lo := clamp (len l) a in
  let hi := clamp (len l) b in
  take (Z.to_nat (hi - lo)) (drop (Z.to_nat lo) l).

(** [l[a:]] and [l[:b]] *)
Definition slice_from {A} (l : list A) (a : Z) : list A :=
  drop (Z.to_nat (clamp (len l) a)) l.
Definition slice_to {A} (l : list A) (b : Z) : list A :=
  take (Z.to_nat (clamp (len l) b)) l.

(** [l[a:b] = seq]: when the resolved upper bound lies below the lower
    one the slice is empty and [seq] is inserted at the lower bound. *)
Definition slice_assign {A} (l : list A) (a b : Z) (seq : list A) : list A :=
  let lo := clamp (len l) a in
  let hi := Z.max lo (clamp (len l) b) in
  take (Z.to_nat lo) l ++ seq ++ drop (Z.to_nat hi) l.

(** [n * [x]] and [n * 'c'] *)
Definition repeat {A} (n : Z) (x : A) : list A := replicate (Z.to_nat n) x.

Definition range_len (start stop step : Z) : Z :=
  if 0 <? step then (stop - start + step - 1) / step
  else (start - stop - step - 1) / (- step).

(** [range(start, stop, step)] *)
Definition range (start stop step : Z) : result (list Z) :=
  if step =? 0 then Raise ValueError
  else Ok (map (λ i : nat, start + Z.of_nat i * step)
               (seq 0 (Z.to_nat (range_len start stop step)))).

(** *** Number formatting *)

(** Digits of a non-negative [n], most significant first. *)
Fixpoint to_digits (fuel : nat) (base n : Z) (acc : list Z) : list Z :=
  match fuel with
  | O => n :: acc
  | S f => if n <? base then n :: acc
           else to_digits f base (n / base) (n mod base :: acc)
  end.

Definition digits (base n : Z) : list Z :=
  to_digits (Z.to_nat (Z.log2 n)) base n [].

(** '0'..'9', 'A'..'F' *)
Definition digit_char (d : Z) : ascii :=
  ascii_of_nat (Z.to_nat (if d <? 10 then 48 + d else 55 + d)).

Definition ord (c : ascii) : Z := Z.of_nat (nat_of_ascii c).

(** ['%0*d' % (width, n)] for [base = 10], ['%0*X' % (width, n)] for
    [base = 16]: the sign first, zeros up to [width], then the digits;
    a negative width left-justifies and pads with blanks on the right. *)
Definition format_0 (base width n : Z) : list ascii :=
  let sign := if n <? 0 then ["-"%char] else [] in
  let body := map digit_char (digits base (Z.abs n)) in
  let pad := Z.abs width - len sign - len body in
  if width <? 0 then sign ++ body ++ repeat pad " "%char
  else sign ++ repeat pad "0"%char ++ body.

(** Value of a digit character in [base], if it is one. *)
Definition char_digit (base : Z) (c : ascii) : option Z :=
  let o := ord c in
  let d := if (48 <=? o) && (o <=? 57) then o - 48
           else if (65 <=? o) && (o <=? 90) then o - 55
           else if (97 <=? o) && (o <=? 122) then o - 87
           else base in
  if d <? base then Some d else None.

Fixpoint parse_digits (base : Z) (s : list ascii) (acc : Z) : result Z :=
  match s with
  | [] => Ok acc
  | c :: s' => match char_digit base c with
               | Some d => parse_digits base s' (acc * base + d)
               | None => Raise ValueError
               end
  end.

(** [int(s, base)] on a string of digits. *)
Definition int (s : list ascii) (base : Z) : result Z :=
  match s with
  | [] => Raise ValueError
  | _ => parse_digits base s 0
  end.

Definition is_byte (b : Z) : bool := (0 <=? b) && (b <? 256).

(** [bytearray(l)] for a list of integers *)
Definition bytearray (l : list Z) : result (list Z) :=
  if forallb is_byte l then Ok l else Raise ValueError.

End Py.

(** ** BCD / nibble codec *)

(** [two_bytes(num)] *)
Definition two_bytes (num : Z) : result (list Z) :=
  if (0 <=? num) && (num <? Z.shiftl 1 16)
  then Py.bytearray [Z.shiftr num 8; Z.land num 255]
  else Raise Exception.

(** [to_bcd(num, width)] *)
Definition to_bcd (num width : Z) : list Z :=
  let s := Py.format_0 10 width num in
  map (λ digit, Py.ord digit - Py.ord "0"%char) s.

(** The comprehension of [pack_nibbles]:
    [[(nibbles[i] << 4) + nibbles[i + 1] for i in idxs]] *)
Fixpoint pack_pairs (nibbles : list Z) (idxs : list Z) : result (list Z) :=
  match idxs with
  | [] => Ok []
  | i :: idxs' =>
      rbind (Py.index nibbles i) (λ hi,
      rbind (Py.index nibbles (i + 1)) (λ lo,
      rbind (pack_pairs nibbles idxs') (λ rest,
      Ok ((Z.shiftl hi 4 + lo) :: rest))))
  end.

(** [pack_nibbles(nibbles)] *)
Definition pack_nibbles (nibbles : list Z) : result (list Z) :=
  let length := Py.len nibbles in
  let nibbles := Py.repeat (length mod 2) 0 ++ nibbles in
  rbind (Py.range 0 length 2) (λ idxs,
  rbind (pack_pairs nibbles idxs) Py.bytearray).

(** [program_info(offset, rows, stitches, pattern_num)] *)
Definition program_info (offset rows stitches pattern_num : Z) : result (list Z) :=
  let digits := to_bcd rows 3 ++ to_bcd stitches 3 ++ to_bcd pattern_num 4 in
  rbind (two_bytes offset) (λ w,
  rbind (pack_nibbles digits) (λ p,
  Ok (w ++ p))).

(** ** Track memory model *)

(** The buffer [self.data]; the other attributes set by [__init__] are
    constants. *)
Record Track : Type := { data : list Z }.

Definition initial_pattern_number : Z := 901.

Definition size : Z := 0x800.
Definition pattern_offset : Z := 0x0120.
Definition available_loc : Z := 0x700.
Definition pgm_info_end_loc : Z := 0x710.
Definition pgm_info_size : Z := 7.

(** Methods run in a state monad over the buffer that also carries the
    exception, so that the buffer left behind by a raise can be inspected. *)
Definition M (A : Type) : Type := Track → result A * Track.

Definition ret {A} (a : A) : M A := λ t, (Ok a, t).
Definition raise {A} (e : exn) : M A := λ t, (Raise e, t).
Definition lift {A} (r : result A) : M A := λ t, (r, t).
Definition bind {A B} (m : M A) (f : A → M B) : M B :=
  λ t, match m t with
       | (Ok a, t') => f a t'
       | (Raise e, t') => (Raise e, t')
       end.

Notation "'do' x ← m ; k" := (bind m (λ x, k))
  (at level 10, x name, m at level 100, k at level 200, only parsing).
Notation "'do' ' ( x , y ) ← m ; k" := (bind m (λ p, let '(x, y) := p in k))
  (at level 10, x name, y name, m at level 100, k at level 200, only parsing).

(** [self.data[a:b] = seq] *)
Definition assign_slice (a b : Z) (seq : list Z) : M unit :=
  λ t, (Ok tt, {| data := Py.slice_assign (data t) a b seq |}).

(** [self.data[i]] *)
Definition data_at (i : Z) : M Z := λ t, (Py.index (data t) i, t).

Definition set_bytes (location : Z) (seq : list Z) : M unit :=
  assign_slice location (location + Py.len seq) seq.

Definition get_word (loc : Z) : M Z :=
  do hi ← data_at loc;
  do lo ← data_at (loc + 1);
  ret (Z.shiftl hi 8 + lo).

Definition set_word (loc word : Z) : M unit :=
  do w ← lift (two_bytes word);
  assign_slice loc (loc + 2) w.

Definition available_offset : M Z := get_word available_loc.
Definition set_available (offset : Z) : M unit := set_word available_loc offset.

Definition pgm_info_end : M Z := get_word pgm_info_end_loc.
Definition set_pgm_info_end (offset : Z) : M unit :=
  set_word pgm_info_end_loc offset.

Definition free_mem : M Z :=
  do e ← pgm_info_end;
  do a ← available_offset;
  ret (e - a).

(** [('%02X' * count) % tuple(entry)] *)
Definition format_hex (count : Z) (entry : list Z) : result (list ascii) :=
  if Py.len entry =? count
  then Ok (concat (map (Py.format_0 16 2) entry))
  else Raise TypeError.

(** The decoding that [pat_num] applies to the bytes of an entry. *)
Definition entry_pat_num (entry : list Z) : result Z :=
  rbind (format_hex pgm_info_size entry) (λ nibbles,
  Py.int (Py.slice_from nibbles (-3)) 10).

Definition pat_num (loc : Z) : M Z :=
  λ t, (entry_pat_num (Py.slice (data t) loc (loc + pgm_info_size)), t).

Definition add_pgm_entry (pat_num : Z) : M unit :=
  do info ← lift (program_info 0 0 0 pat_num);
  do offset ← pgm_info_end;
  do _ ← set_bytes (- offset) info;
  set_pgm_info_end (offset - Py.len info).

(** The [for ... else] loop of [add_pattern]: the result is the pair of
    [loc] and [pattern_num] at the [break]. *)
Fixpoint find_empty (locs : list Z) (pattern_num : Z) : M (Z * Z) :=
  match locs with
  | [] => raise BadError
  | loc :: locs' =>
      do p ← pat_num loc;
      if negb (p =? pattern_num) then raise BadError
      else
        do w ← get_word loc;
        if w =? 0 then ret (loc, pattern_num)
        else find_empty locs' (pattern_num + 1)
  end.

Definition add_pattern (pattern : list Z) (nrows nstitches : Z) : M Z :=
  do free ← free_mem;
  if Py.len pattern >? free then raise Error
  else
    do e ← pgm_info_end;
    let info_end := size - e in
    do locs ← lift (Py.range 0 info_end pgm_info_size);
    do ' (loc, pattern_num) ← find_empty locs initial_pattern_number;
    do offset ← available_offset;
    do info ← lift (program_info offset nrows nstitches pattern_num);
    do _ ← set_bytes loc info;
    let offset := offset + Py.len pattern in
    do _ ← set_bytes (- offset) pattern;
    do _ ← set_available (offset + 1);
    do _ ← (if loc + Py.len info =? info_end
            then add_pgm_entry (pattern_num + 1)
            else ret tt);
    ret pattern_num.

(** [Track.set_selector(selector, position, copies)]; the nibbles composed
    from [position] and [copies] are not stored (the call that would store
    them is commented out in the source). *)
Definition set_selector (selector position copies : Z) : M unit :=
  if negb ((selector =? 1) || (selector =? 2)) then raise Exception
  else
    do two_bytes ← lift (pack_nibbles ([selector] ++ to_bcd 0 3));
    do _ ← set_bytes 0x7EA two_bytes;
    let nibbles := to_bcd position 3 ++ to_bcd copies 3 in
    let nibbles := nibbles ++ to_bcd position 3 in
    ret tt.

(** [Track.__init__], run on [bytearray(self.size)] *)
Definition Track_init : M unit :=
  do _ ← set_available pattern_offset;
  do _ ← set_pgm_info_end size;
  add_pgm_entry initial_pattern_number.

Definition blank : Track := {| data := Py.repeat size 0 |}.

Definition new_Track : Track := snd (Track_init blank).

(** ** Sector writer *)

Definition str (s : string) : list ascii := list_ascii_of_string s.

Section Write.

(** [os.path.join] belongs to the platform. *)
Variable path_join : list ascii → list ascii → list ascii.

(** [Track.write]: the files written, in order, each with its content,
    and the outcome of the call; [write_file] itself is taken to succeed. *)
Definition write (sector_path : list ascii) (track_num : Z) (t : Track)
  : result unit * list (list ascii * list Z) :=
  let sector_num := (track_num - 1) * 2 in
  let halfsize := size / 2 in
  let sector0path := path_join sector_path (Py.format_0 10 2 sector_num) in
  let sector1path := path_join sector_path (Py.format_0 10 2 (sector_num + 1)) in
  let dats := [ (sector0path ++ str ".dat", Py.slice_to (data t) halfsize);
                (sector1path ++ str ".dat", Py.slice_from (data t) halfsize) ] in
  match pack_nibbles (to_bcd track_num 2) with
  | Raise e => (Raise e, dats)
  | Ok packed =>
      let sector_id := packed ++ Py.repeat 11 0 in
      (Ok tt, dats ++ [ (sector0path ++ str ".id", sector_id);
                        (sector1path ++ str ".id", sector_id) ])
  end.

End Write.

(** ** Image encoder *)

Fixpoint rmap {A B} (f : A → result B) (l : list A) : result (list B) :=
  match l with
  | [] => Ok []
  | x :: l' => rbind (f x) (λ y, rbind (rmap f l') (λ ys, Ok (y :: ys)))
  end.

(** The part of [encode_image] that follows [img.getdata()]: [imgdata] is
    the pixel sequence of the final image, row after row, and [nrows],
    [nstitches] are its dimensions.  What precedes (opening, resizing and
    converting the image) belongs to the imaging library. *)
Definition encode_bitmap (imgdata : list Z) (nrows nstitches : Z)
  : result (list Z * Z * Z) :=
  let imgbits := map (λ pixel, if pixel >? 0 then "0"%char else "1"%char) imgdata in
  let rowpadding := Py.repeat ((- nstitches) mod 4) "0"%char in
  rbind (Py.range 0 (Py.len imgbits) nstitches) (λ irows,
  let bits :=
    fold_left (λ bits irow,
                 bits ++ rowpadding ++ Py.slice imgbits irow (irow + nstitches))
              irows [] in
  let bits := Py.repeat ((- Py.len bits) mod 8) "0"%char ++ bits in
  rbind (Py.range 0 (Py.len bits) 8) (λ idxs,
  rbind (rmap (λ i, Py.int (Py.slice bits i (i + 8)) 2) idxs) (λ imgbytes,
  let memo := Py.repeat ((nrows + 1) / 2) 0 in
  rbind (Py.bytearray (imgbytes ++ memo)) (λ pattern,
  Ok (pattern, nrows, nstitches))))).

(** ** Hex dump *)

(** A format string, as its literal pieces and its [%0wX] directives. *)
Inductive directive : Type :=
| Lit (s : list ascii)
| Hex (width : Z).

(** [fmt % args]: every directive takes one argument, in order; too few or
    too many arguments raise [TypeError]. *)
Fixpoint format_percent (fmt : list directive) (args : list Z)
  : result (list ascii) :=
  match fmt with
  | [] => match args with
          | [] => Ok []
          | _ :: _ => Raise TypeError
          end
  | Lit s :: fmt' => rbind (format_percent fmt' args) (λ out, Ok (s ++ out))
  | Hex width :: fmt' =>
      match args with
      | [] => Raise TypeError
      | a :: args' =>
          rbind (format_percent fmt' args') (λ out,
          Ok (Py.format_0 16 width a ++ out))
      end
  end.

Definition newline : ascii := "010"%char.

(** [sep.join(lines)] *)
Fixpoint str_join (sep : list ascii) (lines : list (list ascii)) : list ascii :=
  match lines with
  | [] => []
  | [line] => line
  | line :: lines' => line ++ sep ++ str_join sep lines'
  end.

(** The line format of [print_data]:
    ['%03X:  ' + ('%02X ' * 4 + ' ') * 4] *)
Definition line_format : list directive :=
  [Hex 3; Lit (str ":  ")]
  ++ concat (replicate 4 (concat (replicate 4 [Hex 2; Lit (str " ")])
                          ++ [Lit (str " ")])).

(** [print_data(data)] *)
Definition print_data (data : list Z) : result (list ascii) :=
  rbind (Py.range 0 (Py.len data) 16) (λ idxs,
  rbind (rmap (λ i, format_percent line_format (i :: Py.slice data i (i + 16)))
              idxs) (λ lines,
  Ok (str_join [newline] lines))).

(** ** Front end *)

Definition version : list ascii := str "1.4b1".

(** [debug = 'a' in version] *)
Definition debug : bool := existsb (Ascii.eqb "a"%char) version.

Section Image2track.

(** [os.path.join] and the imaging library belong to the platform:
    [encode_image] stands for the whole call, from opening the image to the
    returned triple; the image file it saves on the way and the log are
    left out. *)
Variable path_join : list ascii → list ascii → list ascii.
Variable Stretch : Type.
Variable encode_image :
  list ascii → Stretch → Z → Z → result (list Z * Z * Z).

(** [image2track(img_path, sector_path, stretch, max_width)]: the outcome
    and the files written with [write_file], in order. *)
Definition image2track (img_path sector_path : list ascii) (stretch : Stretch)
    (max_width : Z)
  : result (Z * Z * Z) * list (list ascii * list Z) :=
  match Track_init blank with
  | (Raise e, _) => (Raise e, [])
  | (Ok _, track) =>
  match free_mem track with
  | (Raise e, _) => (Raise e, [])
  | (Ok free, track) =>
  let max_pattern_size := free - 1 in
  match encode_image img_path stretch max_pattern_size max_width with
  | Raise e => (Raise e, [])
  | Ok (pattern, nrows, nstitches) =>
  match add_pattern pattern nrows nstitches track with
  | (Raise e, _) => (Raise e, [])
  | (Ok pattern_num, track) =>
  match set_selector 2 (nstitches / 2) 1 track with
  | (Raise e, _) => (Raise e, [])
  | (Ok _, track) =>
  let files :=
    if debug then [(img_path ++ str ".dat", data track)] else [] in
  match write path_join sector_path 1 track with
  | (Raise e, written) => (Raise e, files ++ written)
  | (Ok _, written) => (Ok (pattern_num, nstitches, nrows), files ++ written)
  end end end end end end.

End Image2track.

(** ** Notions the specification uses *)

(** Number of decimal digits of a non-negative integer. *)
Fixpoint digitcount_fuel (fuel : nat) (n : Z) : Z :=
  match fuel with
  | O => 1
  | S f => if n <? 10 then 1 else 1 + digitcount_fuel f (n / 10)
  end.

Definition digitcount (n : Z) : Z := digitcount_fuel (Z.to_nat (Z.log2 n)) n.

(** Value of a digit sequence, most significant digit first. *)
Definition undigits (base : Z) (ds : list Z) : Z :=
  fold_left (λ a d, a * base + d) ds 0.

Definition hi_nibble (b : Z) : Z := Z.shiftr b 4.
Definition lo_nibble (b : Z) : Z := Z.land b 15.

(** A byte whose two nibbles are decimal digits. *)
Definition bcd_byte (b : Z) : Prop :=
  0 ≤ b < 256 ∧ hi_nibble b ≤ 9 ∧ lo_nibble b ≤ 9.

(** A 7-byte directory entry all of whose 14 nibbles are decimal digits. *)
Definition valid_bcd_entry (entry : list Z) : Prop :=
  Py.len entry = pgm_info_size ∧ Forall bcd_byte entry.

(** The structured decode of the pattern number that the specification
    proposes: the high and low nibbles of the last two bytes of the entry,
    read as a 4-digit number. *)
Definition structured_pat_num (entry : list Z) : result Z :=
  rbind (Py.index entry (-2)) (λ b5,
  rbind (Py.index entry (-1)) (λ b6,
  Ok (hi_nibble b5 * 1000 + lo_nibble b5 * 100
      + hi_nibble b6 * 10 + lo_nibble b6))).

(** All nibbles of a byte sequence, high nibble first. *)
Definition nibbles_of (bs : list Z) : list Z :=
  concat (map (λ b, [hi_nibble b; lo_nibble b]) bs).

(** The fields of a directory entry (§3 of the specification): 16-bit
    big-endian offset, then rows (3 digits), stitches (3 digits) and
    pattern number (4 digits), one decimal digit per nibble. *)
Definition decode_entry (entry : list Z) : Z * Z * Z * Z :=
  let ns := nibbles_of (drop 2 entry) in
  (undigits 256 (take 2 entry),
   undigits 10 (take 3 ns),
   undigits 10 (take 3 (drop 3 ns)),
   undigits 10 (drop 6 ns)).

(** [seq] written over [l] from position [pos] on, without change of
    length: what a slice assignment within bounds amounts to. *)
Definition patch (pos : Z) (seq l : list Z) : list Z :=
  take (Z.to_nat pos) l ++ seq ++ drop (Z.to_nat (pos + Py.len seq)) l.

(** The 16-bit big-endian word that [get_word] reads. *)
Definition word (l : list Z) (loc : Z) : result Z :=
  rbind (Py.index l loc) (λ hi,
  rbind (Py.index l (loc + 1)) (λ lo,
  Ok (Z.shiftl hi 8 + lo))).

(** *** The bitmap encoding in the words of the specification (§4.5) *)

(** Pixel intensity above 0 is bit 0, intensity 0 is bit 1. *)
Definition bit_of_pixel (pixel : Z) : bool := negb (pixel >? 0).

(** Zero bits in front of each row. *)
Definition row_padding (stitches : Z) : Z := (4 - stitches mod 4) mod 4.

Definition ceil_div (a b : Z) : Z := (a + b - 1) / b.

(** Eight bits as a byte, most significant bit first. *)
Definition byte_of_bits (bits : list bool) : Z := undigits 2 (map Z.b2z bits).

Fixpoint pack_bits (bits : list bool) : list Z :=
  match bits with
  | b7 :: b6 :: b5 :: b4 :: b3 :: b2 :: b1 :: b0 :: rest =>
      byte_of_bits [b7; b6; b5; b4; b3; b2; b1; b0] :: pack_bits rest
  | _ => []
  end.

(** Each row's bits in order, every row behind its padding. *)
Definition padded_rows (rows : list (list Z)) (stitches : Z) : list bool :=
  concat (map (λ row, replicate (Z.to_nat (row_padding stitches)) false
                      ++ map bit_of_pixel row) rows).

(** Pad on the left to a multiple of 8 bits, pack, append the memo. *)
Definition spec_encode (rows : list (list Z)) (stitches : Z) : list Z :=
  let bits := padded_rows rows stitches in
  let lead := (8 - Py.len bits mod 8) mod 8 in
  pack_bits (replicate (Z.to_nat lead) false ++ bits)
  ++ replicate (Z.to_nat (ceil_div (Py.len rows) 2)) 0.

(** The character of a bit in the bit string of [encode_image]. *)
Definition bit_char (b : bool) : ascii := if b then "1"%char else "0"%char.

(** [two_bytes] of a 16-bit value. *)
Definition be16 (w : Z) : list Z := [Z.shiftr w 8; Z.land w 255].

(** The layout of a track whose two boundary pointers are [A]
    ([available_offset]) and [P] ([pgm_info_end]): a 2048-byte buffer, the
    pattern region ending at [pattern_offset] or further from the end of the
    buffer, and a directory region made of whole entries. *)
Definition layout_ok (t : Track) (A P : Z) : Prop :=
  Py.len (data t) = size
  ∧ word (data t) available_loc = Ok A
  ∧ word (data t) pgm_info_end_loc = Ok P
  ∧ pattern_offset ≤ A
  ∧ P ≤ size
  ∧ (size - P) mod pgm_info_size = 0.

(** The buffer in the course of a successful [add_pattern] on a track with
    pointers [A] and [P]: after the entry [info] is written into the slot
    at [loc], after the pattern is stored, and after [available_offset] is
    advanced. *)
Definition stored_entry (t : Track) (loc : Z) (info : list Z) : list Z :=
  patch loc info (data t).

Definition stored_pattern (t : Track) (A : Z) (pattern : list Z) (loc : Z)
    (info : list Z) : list Z :=
  patch (size - (A + Py.len pattern)) pattern (stored_entry t loc info).

Definition stored_pointer (t : Track) (A : Z) (pattern : list Z) (loc : Z)
    (info : list Z) : list Z :=
  patch available_loc (be16 (A + Py.len pattern + 1))
        (stored_pattern t A pattern loc info).

(** The buffer after the call; [info0] is the new empty entry, written
    when the slot was the last one. *)
Definition stored (t : Track) (A P : Z) (pattern : list Z) (loc : Z)
    (info info0 : list Z) : list Z :=
  let d3 := stored_pointer t A pattern loc info in
  if loc + pgm_info_size =? size - P
  then patch pgm_info_end_loc (be16 (P - pgm_info_size))
             (patch (size - P) info0 d3)
  else d3.

(** The [i]-th entry of the directory. *)
Definition entry_at (t : Track) (i : Z) : list Z :=
  Py.slice (data t) (pgm_info_size * i) (pgm_info_size * i + pgm_info_size).

(** A directory of [n] filled entries numbered 901, 902, ... followed by
    exactly one empty entry, which carries the next pattern number. *)
Definition directory_ok (t : Track) (n : Z) : Prop :=
  0 ≤ n ≤ 99
  ∧ (∃ A, layout_ok t A (size - pgm_info_size * (n + 1)))
  ∧ (∀ i, 0 ≤ i < n →
          entry_pat_num (entry_at t i) = Ok (initial_pattern_number + i)
          ∧ ∃ w, word (data t) (pgm_info_size * i) = Ok w ∧ w ≠ 0)
  ∧ program_info 0 0 0 (initial_pattern_number + n) = Ok (entry_at t n).

(** A sequence of [add_pattern] calls, each given by its arguments. *)
Fixpoint add_patterns (calls : list (list Z * Z * Z)) : M (list Z) :=
  match calls with
  | [] => ret []
  | (pattern, nrows, nstitches) :: calls' =>
      do pn ← add_pattern pattern nrows nstitches;
      do pns ← add_patterns calls';
      ret (pn :: pns)
  end.

(** Nibbles taken two by two, the first of each pair in the high half. *)
Fixpoint pairs_spec (nibbles : list Z) : list Z :=
  match nibbles with
  | hi :: lo :: rest => (Z.shiftl hi 4 + lo) :: pairs_spec rest
  | _ => []
  end.

(** *** Reading a pattern back *)

(** The bits of a byte, most significant bit first. *)
Definition bits_of_byte (b : Z) : list bool :=
  map (Z.testbit b) [7; 6; 5; 4; 3; 2; 1; 0].

Definition unpack_bits (bs : list Z) : list bool :=
  concat (map bits_of_byte bs).

(** The first [k] rows of [n] elements each. *)
Fixpoint chunks {A} (n k : nat) (l : list A) : list (list A) :=
  match k with
  | O => []
  | S k' => take n l :: chunks n k' (drop n l)
  end.

(** The bitmap of a stored pattern, from its bytes and its dimensions:
    the bytes in front of the memo, without the leading bits that fill the
    first byte, cut into rows, each row without its padding. *)
Definition decode_bitmap (pattern : list Z) (nrows nstitches : Z)
  : list (list bool) :=
  let pad := row_padding nstitches in
  let nbits := nrows * (pad + nstitches) in
  let nbytes := ceil_div nbits 8 in
  let bits := drop (Z.to_nat (nbytes * 8 - nbits))
                   (unpack_bits (take (Z.to_nat nbytes) pattern)) in
  map (drop (Z.to_nat pad))
      (chunks (Z.to_nat (pad + nstitches)) (Z.to_nat nrows) bits).

(** *** Format strings *)

(** The number of arguments that a format string takes. *)
Fixpoint directives (fmt : list directive) : nat :=
  match fmt with
  | [] => O
  | Lit _ :: fmt' => directives fmt'
  | Hex _ :: fmt' => S (directives fmt')
  end.

(** The length of the output when no argument overflows its width. *)
Fixpoint format_width (fmt : list directive) : Z :=
  match fmt with
  | [] => 0
  | Lit s :: fmt' => Py.len s + format_width fmt'
  | Hex width :: fmt' => width + format_width fmt'
  end.

(** Every argument is printed in exactly the width of its directive. *)
Fixpoint fits_width (fmt : list directive) (args : list Z) : Prop :=
  match fmt, args with
  | Lit _ :: fmt', _ => fits_width fmt' args
  | Hex width :: fmt', a :: args' =>
      Py.len (Py.format_0 16 width a) = width ∧ fits_width fmt' args'
  | _, _ => True
  end.

(** A computation that cannot end in [Error]. *)
Definition pure_no_Error {A} (r : result A) : Prop := r ≠ Raise Error.
Definition no_Error {A} (m : M A) : Prop := ∀ t, fst (m t) ≠ Raise Error.

(** * Properties *)

Example to_bcd_901 : to_bcd 901 4 = [0; 9; 0; 1].
Proof. reflexivity. Qed.

Example to_bcd_wide : to_bcd 1000 3 = [1; 0; 0; 0].
Proof. reflexivity. Qed.

Example to_bcd_negative : to_bcd (-5) 3 = [-3; 0; 5].
Proof. reflexivity. Qed.

Example program_info_901 : program_info 0 0 0 901 = Ok [0; 0; 0; 0; 0; 9; 1].
Proof. reflexivity. Qed.

Example program_info_dims :
  program_info 288 12 34 902 = Ok [1; 32; 1; 32; 52; 9; 2].
Proof. reflexivity. Qed.

Example new_Track_ok : fst (Track_init blank) = Ok tt.
Proof. vm_compute. reflexivity. Qed.

Example new_Track_free : fst (free_mem new_Track) = Ok 1753.
Proof. vm_compute. reflexivity. Qed.

Example encode_4x2 :
  encode_bitmap [0;0;0;0; 0;0;0;0] 2 4 = Ok ([255; 0], 2, 4).
Proof. vm_compute. reflexivity. Qed.

Example encode_3x2 :
  encode_bitmap [0;255;0; 0;0;255] 2 3 = Ok ([0x56; 0], 2, 3).
Proof. vm_compute. reflexivity. Qed.

(** [lia] with quotients and remainders by constants. *)
Ltac div_lia := Z.to_euclidean_division_equations; lia.

(** ** Digits and formatting *)

Section Digits.

Variable base : Z.
Hypothesis base_ge_2 : 2 ≤ base.

Lemma to_digits_app fuel n acc :
  Py.to_digits fuel base n acc = Py.to_digits fuel base n [] ++ acc.
Proof.
  revert n acc. induction fuel as [|f IH]; intros n acc; simpl; [done|].
  destruct (n <? base); [done|].
  rewrite (IH _ (_ :: acc)), (IH _ [_]), <- app_assoc. done.
Qed.

Lemma div_base_lt fuel n :
  0 ≤ n < 2 ^ (Z.of_nat (S fuel) + 1) → 0 ≤ n / base < 2 ^ (Z.of_nat fuel + 1).
Proof using base_ge_2.
  intros [Hn Hlt]. split; [apply Z.div_pos; lia|].
  apply Z.div_lt_upper_bound; [lia|].
  replace (Z.of_nat (S fuel) + 1) with (Z.succ (Z.of_nat fuel + 1)) in Hlt by lia.
  rewrite Z.pow_succ_r in Hlt by lia.
  assert (0 < 2 ^ (Z.of_nat fuel + 1)) by (apply Z.pow_pos_nonneg; lia).
  nia.
Qed.

Lemma to_digits_range fuel n :
  0 ≤ n < 2 ^ (Z.of_nat fuel + 1) →
  Forall (λ d, 0 ≤ d < base) (Py.to_digits fuel base n []).
Proof using base_ge_2.
  revert n. induction fuel as [|f IH]; intros n Hn.
  - simpl in *. apply Forall_singleton. lia.
  - simpl. destruct (Z.ltb_spec n base) as [Hlt|Hge].
    + apply Forall_singleton. lia.
    + rewrite to_digits_app. apply Forall_app. split.
      * apply IH, div_base_lt, Hn.
      * apply Forall_singleton. apply Z.mod_pos_bound. lia.
Qed.

Lemma undigits_app ds1 ds2 :
  undigits base (ds1 ++ ds2)
  = fold_left (λ a d, a * base + d) ds2 (undigits base ds1).
Proof. unfold undigits. apply fold_left_app. Qed.

Lemma undigits_to_digits fuel n :
  0 ≤ n < 2 ^ (Z.of_nat fuel + 1) →
  undigits base (Py.to_digits fuel base n []) = n.
Proof using base_ge_2.
  revert n. induction fuel as [|f IH]; intros n Hn.
  - unfold undigits. simpl. lia.
  - simpl. destruct (Z.ltb_spec n base) as [Hlt|Hge].
    + unfold undigits. simpl. lia.
    + rewrite to_digits_app, undigits_app, IH by (apply div_base_lt, Hn).
      simpl. rewrite (Z.div_mod n base) at 3 by lia. lia.
Qed.

Lemma log2_fuel n : 0 ≤ n → 0 ≤ n < 2 ^ (Z.of_nat (Z.to_nat (Z.log2 n)) + 1).
Proof.
  intros Hn. split; [done|].
  rewrite Z2Nat.id by apply Z.log2_nonneg.
  destruct (Z.eq_dec n 0) as [->|Hne]; [done|].
  apply Z.log2_spec. lia.
Qed.

Lemma digits_range n : 0 ≤ n → Forall (λ d, 0 ≤ d < base) (Py.digits base n).
Proof using base_ge_2. intros Hn. apply to_digits_range, log2_fuel, Hn. Qed.

Lemma undigits_digits n : 0 ≤ n → undigits base (Py.digits base n) = n.
Proof using base_ge_2. intros Hn. apply undigits_to_digits, log2_fuel, Hn. Qed.

Lemma undigits_zeros k ds :
  undigits base (replicate k 0 ++ ds) = undigits base ds.
Proof.
  rewrite undigits_app. unfold undigits.
  induction k as [|k IH]; simpl; [done|]. exact IH.
Qed.

End Digits.

Lemma to_digits_length fuel n :
  Py.len (Py.to_digits fuel 10 n []) = digitcount_fuel fuel n.
Proof.
  unfold Py.len. revert n. induction fuel as [|f IH]; intros n; simpl; [done|].
  destruct (n <? 10); [done|].
  rewrite to_digits_app, length_app, Nat2Z.inj_add, IH. simpl. lia.
Qed.

Lemma digits_length n : Py.len (Py.digits 10 n) = digitcount n.
Proof. apply to_digits_length. Qed.

Lemma digitcount_fuel_pos fuel n : 1 ≤ digitcount_fuel fuel n.
Proof.
  revert n. induction fuel as [|f IH]; intros n; simpl; [lia|].
  destruct (n <? 10); [lia|]. specialize (IH (n / 10)). lia.
Qed.

(** [digitcount] is the usual digit count: [10^(c-1) ≤ n < 10^c]. *)
Lemma digitcount_fuel_spec fuel n :
  0 < n < 2 ^ (Z.of_nat fuel + 1) →
  10 ^ (digitcount_fuel fuel n - 1) ≤ n < 10 ^ digitcount_fuel fuel n.
Proof.
  revert n. induction fuel as [|f IH]; intros n Hn.
  - simpl in *. lia.
  - simpl. destruct (Z.ltb_spec n 10) as [Hlt|Hge]; [simpl; lia|].
    pose proof (digitcount_fuel_pos f (n / 10)) as Hpos.
    assert (Hdiv : 0 < n / 10 < 2 ^ (Z.of_nat f + 1)).
    { pose proof (div_base_lt 10 ltac:(lia) f n ltac:(lia)).
      assert (1 ≤ n / 10) by (apply Z.div_le_lower_bound; lia). lia. }
    specialize (IH _ Hdiv).
    replace (1 + digitcount_fuel f (n / 10) - 1)
      with (Z.succ (digitcount_fuel f (n / 10) - 1)) by lia.
    replace (1 + digitcount_fuel f (n / 10))
      with (Z.succ (digitcount_fuel f (n / 10))) by lia.
    rewrite !Z.pow_succ_r by lia.
    pose proof (Z.div_mod n 10 ltac:(lia)).
    pose proof (Z.mod_pos_bound n 10 ltac:(lia)). lia.
Qed.

Lemma digitcount_spec n :
  0 < n → 10 ^ (digitcount n - 1) ≤ n < 10 ^ digitcount n.
Proof.
  intros Hn. apply digitcount_fuel_spec.
  pose proof (log2_fuel n ltac:(lia)). lia.
Qed.

Example digitcount_0 : digitcount 0 = 1.
Proof. reflexivity. Qed.

(** ** Characters of digits *)

Ltac enum_digit d :=
  let H := fresh in
  assert (H : d = 0 ∨ d = 1 ∨ d = 2 ∨ d = 3 ∨ d = 4 ∨ d = 5 ∨ d = 6 ∨ d = 7
              ∨ d = 8 ∨ d = 9 ∨ d = 10 ∨ d = 11 ∨ d = 12 ∨ d = 13 ∨ d = 14
              ∨ d = 15) by lia;
  destruct_or!; subst d.

Lemma char_digit_digit_char base d :
  0 ≤ d < base → base ≤ 16 → Py.char_digit base (Py.digit_char d) = Some d.
Proof.
  intros Hd Hb. unfold Py.char_digit.
  enum_digit d;
    match goal with
    | |- context [Py.ord ?c] =>
        let o := eval vm_compute in (Py.ord c) in
        change (Py.ord c) with o
    end; simpl;
    match goal with
    | |- context [?x <? base] => destruct (Z.ltb_spec x base); [done|lia]
    end.
Qed.

Lemma ord_digit_char d :
  0 ≤ d ≤ 9 → Py.ord (Py.digit_char d) - Py.ord "0"%char = d.
Proof. intros Hd. enum_digit d; try lia; reflexivity. Qed.

Lemma parse_digits_map base ds acc :
  base ≤ 16 → Forall (λ d, 0 ≤ d < base) ds →
  Py.parse_digits base (map Py.digit_char ds) acc
  = Ok (fold_left (λ a d, a * base + d) ds acc).
Proof.
  intros Hb Hds. revert acc.
  induction Hds as [|d ds Hd _ IH]; intros acc; simpl; [done|].
  rewrite char_digit_digit_char by done. apply IH.
Qed.

Lemma int_digits base ds :
  base ≤ 16 → ds ≠ [] → Forall (λ d, 0 ≤ d < base) ds →
  Py.int (map Py.digit_char ds) base = Ok (undigits base ds).
Proof.
  intros Hb Hne Hds. unfold Py.int.
  pose proof (parse_digits_map base ds 0 Hb Hds) as Hp.
  destruct ds as [|d ds]; [done|]. exact Hp.
Qed.

Lemma digits_nonempty base n : Py.digits base n ≠ [].
Proof.
  unfold Py.digits. generalize (Z.to_nat (Z.log2 n)). intros fuel.
  destruct fuel as [|f]; simpl; [done|].
  destruct (n <? base); [done|].
  rewrite to_digits_app. intros H. apply app_eq_nil in H as [_ H]. done.
Qed.

(** ** to_bcd *)

Lemma map_ord_digit_char ds :
  Forall (λ d, 0 ≤ d < 10) ds →
  map (λ c, Py.ord c - Py.ord "0"%char) (map Py.digit_char ds) = ds.
Proof.
  induction 1 as [|d ds Hd _ IH]; simpl; [done|].
  rewrite IH. f_equal. apply ord_digit_char. lia.
Qed.

(** On non-negative arguments [to_bcd] is the digit sequence, with zeros in
    front up to the width. *)
Lemma to_bcd_digits n w :
  0 ≤ n → 0 ≤ w →
  to_bcd n w
  = replicate (Z.to_nat (w - Py.len (Py.digits 10 n))) 0 ++ Py.digits 10 n.
Proof.
  intros Hn Hw. unfold to_bcd, Py.format_0.
  destruct (Z.ltb_spec n 0) as [|_]; [lia|].
  destruct (Z.ltb_spec w 0) as [|_]; [lia|].
  rewrite Z.abs_eq, Z.abs_eq by done. simpl app.
  rewrite map_app, map_ord_digit_char by (apply digits_range; lia).
  f_equal. unfold Py.repeat, Py.len. rewrite length_map. simpl.
  rewrite Z.sub_0_r.
  generalize (Z.to_nat (w - Z.of_nat (length (Py.digits 10 n)))).
  intros k. induction k as [|k IH]; simpl; [done|]. by rewrite IH.
Qed.

Lemma to_bcd_props (n w : Z) :
  0 ≤ n → 0 ≤ w →
  Py.len (to_bcd n w) = Z.max w (digitcount n)
  ∧ Forall (λ d, 0 ≤ d ≤ 9) (to_bcd n w)
  ∧ Py.int (map Py.digit_char (to_bcd n w)) 10 = Ok n.
Proof.
  intros Hn Hw.
  pose proof (digits_range 10 ltac:(lia) n Hn) as Hrange.
  rewrite to_bcd_digits by done. split; [|split].
  - unfold Py.len. rewrite length_app, length_replicate, Nat2Z.inj_add.
    fold (Py.len (Py.digits 10 n)). rewrite digits_length.
    pose proof (digitcount_fuel_pos (Z.to_nat (Z.log2 n)) n).
    unfold digitcount in *. lia.
  - apply Forall_app. split.
    + apply Forall_replicate. lia.
    + eapply Forall_impl; [exact Hrange|]. simpl. lia.
  - rewrite int_digits.
    + by rewrite undigits_zeros, undigits_digits by lia.
    + lia.
    + intros H. apply app_eq_nil in H as [_ H]. by apply digits_nonempty in H.
    + apply Forall_app. split; [apply Forall_replicate; lia|exact Hrange].
Qed.

(** C10: for [n ≥ 0] and [w ≥ 0], [to_bcd n w] (a total function: nothing
    is raised and no digit is dropped) has exactly [max w (digitcount n)]
    elements, each a decimal digit, and joining them into a decimal string
    and parsing it gives [n] back.  In particular the length is
    [digitcount n] when [n] has more than [w] digits and [w] otherwise,
    the digits of [n] then standing behind zeros. *)
Theorem to_bcd_spec (n w : Z) :
  0 ≤ n → 0 ≤ w →
  Py.len (to_bcd n w) = Z.max w (digitcount n)
  ∧ Forall (λ d, 0 ≤ d ≤ 9) (to_bcd n w)
  ∧ Py.int (map Py.digit_char (to_bcd n w)) 10 = Ok n
  ∧ (w < digitcount n → Py.len (to_bcd n w) = digitcount n)
  ∧ (digitcount n ≤ w →
     Py.len (to_bcd n w) = w
     ∧ to_bcd n w = replicate (Z.to_nat (w - digitcount n)) 0 ++ Py.digits 10 n).
Proof.
  intros Hn Hw.
  destruct (to_bcd_props n w Hn Hw) as (Hlen & Hds & Hint).
  split; [exact Hlen|]. split; [exact Hds|]. split; [exact Hint|]. split.
  - intros Hlt. lia.
  - intros Hle. split; [lia|].
    rewrite to_bcd_digits, digits_length by done. done.
Qed.

Lemma to_bcd_spec_witness :
  Py.len (to_bcd 1000 3) = Z.max 3 (digitcount 1000)
  ∧ Forall (λ d, 0 ≤ d ≤ 9) (to_bcd 1000 3)
  ∧ Py.int (map Py.digit_char (to_bcd 1000 3)) 10 = Ok 1000
  ∧ (3 < digitcount 1000 → Py.len (to_bcd 1000 3) = digitcount 1000)
  ∧ (digitcount 1000 ≤ 3 →
     Py.len (to_bcd 1000 3) = 3
     ∧ to_bcd 1000 3
       = replicate (Z.to_nat (3 - digitcount 1000)) 0 ++ Py.digits 10 1000).
Proof. apply (to_bcd_spec 1000 3); lia. Defined.

(** ** Hexadecimal text of a byte, and [pat_num] *)

Lemma to_digits_small fuel base n acc :
  n < base → Py.to_digits fuel base n acc = n :: acc.
Proof.
  intros Hn. destruct fuel; simpl; [done|].
  destruct (Z.ltb_spec n base); [done|lia].
Qed.

Lemma digits_byte b :
  0 ≤ b < 256 →
  Py.digits 16 b = if b <? 16 then [b] else [b / 16; b mod 16].
Proof.
  intros Hb. unfold Py.digits.
  destruct (Z.ltb_spec b 16) as [Hlt|Hge].
  - by apply to_digits_small.
  - assert (Hlog : 4 ≤ Z.log2 b) by (apply Z.log2_le_pow2; simpl; lia).
    destruct (Z.to_nat (Z.log2 b)) as [|f] eqn:Hf; [lia|].
    simpl. destruct (Z.ltb_spec b 16); [lia|].
    apply to_digits_small. apply Z.div_lt_upper_bound; lia.
Qed.

Lemma nibbles_div_mod b :
  0 ≤ b → hi_nibble b = b / 16 ∧ lo_nibble b = b mod 16.
Proof.
  intros Hb. unfold hi_nibble, lo_nibble. split.
  - by rewrite Z.shiftr_div_pow2.
  - change 15 with (Z.ones 4). by rewrite Z.land_ones.
Qed.

(** ['%02X' % b] is the two nibbles of the byte, as hexadecimal digits. *)
Lemma format_hex_byte b :
  0 ≤ b < 256 →
  Py.format_0 16 2 b
  = [Py.digit_char (hi_nibble b); Py.digit_char (lo_nibble b)].
Proof.
  intros Hb. destruct (nibbles_div_mod b) as [-> ->]; [lia|].
  unfold Py.format_0. destruct (Z.ltb_spec b 0); [lia|].
  rewrite Z.abs_eq, digits_byte by lia.
  destruct (Z.ltb_spec b 16) as [Hlt|Hge]; simpl.
  - by rewrite Z.div_small, Z.mod_small by lia.
  - done.
Qed.

Lemma format_hex_entry b0 b1 b2 b3 b4 b5 b6 :
  Forall (λ b, 0 ≤ b < 256) [b0; b1; b2; b3; b4; b5; b6] →
  format_hex pgm_info_size [b0; b1; b2; b3; b4; b5; b6]
  = Ok (concat (map (λ b, [Py.digit_char (hi_nibble b);
                           Py.digit_char (lo_nibble b)])
                    [b0; b1; b2; b3; b4; b5; b6])).
Proof.
  intros Hall. unfold format_hex. simpl Z.eqb. cbv iota.
  do 2 f_equal. apply map_ext_in. intros b Hin.
  apply format_hex_byte. rewrite Forall_forall in Hall.
  apply Hall. by apply list_elem_of_In.
Qed.

Lemma list_len7 {A} (l : list A) :
  Py.len l = 7 → ∃ b0 b1 b2 b3 b4 b5 b6, l = [b0; b1; b2; b3; b4; b5; b6].
Proof.
  unfold Py.len. intros Hlen.
  do 7 (destruct l as [|? l]; [simpl in Hlen; lia|]).
  destruct l; [|simpl in Hlen; lia]. by repeat eexists.
Qed.

(** What [pat_num] reads from an entry of bytes: the last three nibbles,
    provided they are decimal digits. *)
Lemma entry_pat_num_bytes b0 b1 b2 b3 b4 b5 b6 :
  Forall (λ b, 0 ≤ b < 256) [b0; b1; b2; b3; b4; b5; b6] →
  lo_nibble b5 ≤ 9 → hi_nibble b6 ≤ 9 → lo_nibble b6 ≤ 9 →
  entry_pat_num [b0; b1; b2; b3; b4; b5; b6]
  = Ok (lo_nibble b5 * 100 + hi_nibble b6 * 10 + lo_nibble b6).
Proof.
  intros Hall H5 H6h H6l. unfold entry_pat_num.
  rewrite format_hex_entry by done. simpl rbind.
  assert (Hb5 : 0 ≤ b5 < 256 ∧ 0 ≤ b6 < 256).
  { rewrite !Forall_cons in Hall. tauto. }
  destruct (nibbles_div_mod b5) as [_ E5]; [lia|].
  destruct (nibbles_div_mod b6) as [E6h E6l]; [lia|].
  assert (0 ≤ lo_nibble b5) by (rewrite E5; apply Z.mod_pos_bound; lia).
  assert (0 ≤ hi_nibble b6) by (rewrite E6h; apply Z.div_pos; lia).
  assert (0 ≤ lo_nibble b6) by (rewrite E6l; apply Z.mod_pos_bound; lia).
  change (Py.int [Py.digit_char (lo_nibble b5); Py.digit_char (hi_nibble b6);
                  Py.digit_char (lo_nibble b6)] 10
          = Ok (lo_nibble b5 * 100 + hi_nibble b6 * 10 + lo_nibble b6)).
  unfold Py.int, Py.parse_digits.
  rewrite !char_digit_digit_char by lia. f_equal. lia.
Qed.

Ltac bcd_byte_tac :=
  unfold bcd_byte, hi_nibble, lo_nibble; repeat split;
  first [apply Z.leb_le | apply Z.ltb_lt]; vm_compute; reflexivity.

(** C8 (as the code has it): on an entry whose 14 nibbles are decimal
    digits, the hexadecimal-text decode of [pat_num] reads the last THREE
    nibbles: it yields the 4-digit structured decode of the last two bytes
    reduced modulo 1000, and therefore agrees with that decode exactly when
    the pattern number is below 1000 (high nibble of the sixth byte zero). *)
Theorem pat_num_structured (entry : list Z) :
  valid_bcd_entry entry →
  ∃ v, structured_pat_num entry = Ok v
       ∧ 0 ≤ v < 10000
       ∧ entry_pat_num entry = Ok (v mod 1000)
       ∧ (entry_pat_num entry = Ok v ↔ v < 1000).
Proof.
  intros [Hlen Hbcd].
  destruct (list_len7 entry Hlen) as (b0 & b1 & b2 & b3 & b4 & b5 & b6 & ->).
  assert (Hbytes : Forall (λ b, 0 ≤ b < 256) [b0; b1; b2; b3; b4; b5; b6]).
  { eapply Forall_impl; [exact Hbcd|]. intros b Hb. apply Hb. }
  rewrite !Forall_cons in Hbcd.
  destruct Hbcd as (_ & _ & _ & _ & _ & (R5 & H5h & H5l) & (R6 & H6h & H6l) & _).
  destruct (nibbles_div_mod b5) as [E5h E5l]; [lia|].
  destruct (nibbles_div_mod b6) as [E6h E6l]; [lia|].
  assert (0 ≤ hi_nibble b5) by (rewrite E5h; apply Z.div_pos; lia).
  assert (0 ≤ lo_nibble b5) by (rewrite E5l; apply Z.mod_pos_bound; lia).
  assert (0 ≤ hi_nibble b6) by (rewrite E6h; apply Z.div_pos; lia).
  assert (0 ≤ lo_nibble b6) by (rewrite E6l; apply Z.mod_pos_bound; lia).
  eexists. split; [reflexivity|].
  rewrite entry_pat_num_bytes by done.
  set (v := hi_nibble b5 * 1000 + lo_nibble b5 * 100
            + hi_nibble b6 * 10 + lo_nibble b6).
  set (r := lo_nibble b5 * 100 + hi_nibble b6 * 10 + lo_nibble b6).
  assert (Hv : v = hi_nibble b5 * 1000 + r) by (unfold v, r; lia).
  assert (Hr : 0 ≤ r < 1000) by (unfold r; lia).
  assert (Hmod : v mod 1000 = r).
  { rewrite Hv, Z.add_comm, Z.mod_add by lia. apply Z.mod_small, Hr. }
  split; [lia|]. split; [by rewrite Hmod|].
  split.
  - intros [= Heq]. lia.
  - intros Hlt. f_equal. rewrite <- Hmod. apply Z.mod_small. lia.
Qed.

Lemma pat_num_structured_witness :
  ∃ v, structured_pat_num [0; 0; 0; 0; 0; 9; 1] = Ok v
       ∧ 0 ≤ v < 10000
       ∧ entry_pat_num [0; 0; 0; 0; 0; 9; 1] = Ok (v mod 1000)
       ∧ (entry_pat_num [0; 0; 0; 0; 0; 9; 1] = Ok v ↔ v < 1000).
Proof.
  apply (pat_num_structured [0; 0; 0; 0; 0; 9; 1]).
  split; [reflexivity|].
  repeat (constructor; [bcd_byte_tac|]). constructor.
Defined.

(** C8 as stated fails: the entry that [program_info 0 0 0 1000] writes has
    decimal nibbles only, its structured 4-digit decode is 1000, and
    [pat_num] reads 0 from it. *)
Lemma pat_num_structured_counterexample :
  ¬ (∀ entry, valid_bcd_entry entry →
              entry_pat_num entry = structured_pat_num entry).
Proof.
  intros H. specialize (H [0; 0; 0; 0; 0; 16; 0]).
  assert (Hv : valid_bcd_entry [0; 0; 0; 0; 0; 16; 0]).
  { split; [reflexivity|]. repeat (constructor; [bcd_byte_tac|]). constructor. }
  specialize (H Hv). vm_compute in H. discriminate H.
Qed.

(** ** Fixed-width fields *)

Lemma digitcount_le n w :
  1 ≤ w → 0 ≤ n < 10 ^ w → digitcount n ≤ w.
Proof.
  intros Hw [Hn Hlt]. destruct (Z.eq_dec n 0) as [->|Hne]; [by simpl|].
  pose proof (digitcount_spec n ltac:(lia)) as [Hlo _].
  destruct (Z_le_gt_dec (digitcount n) w) as [|Hgt]; [done|].
  assert (10 ^ w ≤ 10 ^ (digitcount n - 1)) by (apply Z.pow_le_mono_r; lia).
  lia.
Qed.

(** A number that fits in [w] digits is rendered in exactly [w] digits. *)
Lemma to_bcd_fixed n w :
  1 ≤ w → 0 ≤ n < 10 ^ w →
  Py.len (to_bcd n w) = w
  ∧ Forall (λ d, 0 ≤ d ≤ 9) (to_bcd n w)
  ∧ undigits 10 (to_bcd n w) = n.
Proof.
  intros Hw Hn.
  destruct (to_bcd_props n w) as (Hlen & Hds & Hint); [lia..|].
  pose proof (digitcount_le n w Hw Hn).
  split; [lia|]. split; [done|].
  rewrite int_digits in Hint.
  - by injection Hint.
  - lia.
  - intros Hnil. rewrite Hnil in Hlen. unfold Py.len in Hlen. simpl in Hlen. lia.
  - eapply Forall_impl; [exact Hds|]. simpl. lia.
Qed.

Lemma to_bcd_2 n :
  0 ≤ n ≤ 99 → to_bcd n 2 = [n / 10; n mod 10].
Proof.
  intros Hn. destruct (to_bcd_fixed n 2) as (Hlen & Hds & Hval); [lia..|].
  unfold Py.len in Hlen.
  destruct (to_bcd n 2) as [|a [|b [|? ?]]]; simpl in Hlen; try lia.
  rewrite !Forall_cons in Hds. destruct Hds as (Ha & Hb & _).
  unfold undigits in Hval. simpl in Hval.
  assert (n / 10 = a ∧ n mod 10 = b) as [-> ->]; [|done].
  assert (n = a * 10 + b) as -> by lia. split.
  - rewrite Z.div_add_l, Z.div_small by lia. lia.
  - rewrite (Z.add_comm (a * 10)), Z.mod_add, Z.mod_small by lia. lia.
Qed.

Lemma bytearray_bytes l :
  Forall (λ b, 0 ≤ b < 256) l → Py.bytearray l = Ok l.
Proof.
  intros Hl. unfold Py.bytearray.
  replace (forallb Py.is_byte l) with true; [done|].
  symmetry. apply forallb_forall. intros b Hin.
  rewrite Forall_forall in Hl. specialize (Hl b). unfold Py.is_byte.
  rewrite <- list_elem_of_In in Hin. specialize (Hl Hin).
  apply andb_true_iff. split; [apply Z.leb_le|apply Z.ltb_lt]; lia.
Qed.

Lemma pack_nibbles_2 a b :
  pack_nibbles [a; b] = Py.bytearray [Z.shiftl a 4 + b].
Proof. reflexivity. Qed.

Lemma pack_nibbles_10 d0 d1 d2 d3 d4 d5 d6 d7 d8 d9 :
  pack_nibbles [d0; d1; d2; d3; d4; d5; d6; d7; d8; d9]
  = Py.bytearray [Z.shiftl d0 4 + d1; Z.shiftl d2 4 + d3; Z.shiftl d4 4 + d5;
                  Z.shiftl d6 4 + d7; Z.shiftl d8 4 + d9].
Proof. reflexivity. Qed.

(** ** Sector identifier files *)

(** C6 (as the code has it): for a track number [T] of at most two digits,
    [Track.write] succeeds and writes, after the two data files, the files
    [N.id] and [(N+1).id] with [N = (T-1)*2], each holding the same 12
    bytes: the nibble-packed two-digit BCD encoding of [T], then 11 zero
    bytes. *)
Theorem write_id_files
    (path_join : list ascii → list ascii → list ascii)
    (sector_path : list ascii) (T : Z) (t : Track) :
  0 ≤ T ≤ 99 →
  let N := (T - 1) * 2 in
  let sector_id := (16 * (T / 10) + T mod 10) :: replicate 11 0 in
  ∃ dat0 dat1,
    write path_join sector_path T t
    = (Ok tt,
       [ dat0; dat1;
         (path_join sector_path (Py.format_0 10 2 N) ++ str ".id", sector_id);
         (path_join sector_path (Py.format_0 10 2 (N + 1)) ++ str ".id",
          sector_id) ])
    ∧ Py.len sector_id = 12
    ∧ hi_nibble (16 * (T / 10) + T mod 10) = T / 10
    ∧ lo_nibble (16 * (T / 10) + T mod 10) = T mod 10.
Proof.
  intros HT N sector_id.
  assert (Hq : 0 ≤ T / 10 ≤ 9).
  { split; [apply Z.div_pos; lia|]. apply Z.lt_succ_r.
    apply Z.div_lt_upper_bound; lia. }
  assert (Hr : 0 ≤ T mod 10 < 10) by (apply Z.mod_pos_bound; lia).
  unfold write. rewrite to_bcd_2, pack_nibbles_2 by done.
  rewrite Z.shiftl_mul_pow2 by lia. change (2 ^ 4) with 16.
  rewrite bytearray_bytes by (apply Forall_singleton; lia).
  do 2 eexists. split; [|split].
  - subst sector_id N. simpl app. rewrite (Z.mul_comm 16). reflexivity.
  - reflexivity.
  - destruct (nibbles_div_mod (16 * (T / 10) + T mod 10)) as [-> ->]; [lia|].
    rewrite (Z.mul_comm 16). split.
    + rewrite Z.div_add_l, (Z.div_small (T mod 10)) by lia. lia.
    + rewrite (Z.add_comm (T / 10 * 16)), Z.mod_add by lia.
      apply Z.mod_small. lia.
Qed.

Lemma write_id_files_witness :
  ∃ dat0 dat1,
    write (λ dir name, dir ++ str "/" ++ name) (str "disc") 1 new_Track
    = (Ok tt,
       [ dat0; dat1;
         (str "disc/00.id", [1; 0; 0; 0; 0; 0; 0; 0; 0; 0; 0; 0]);
         (str "disc/01.id", [1; 0; 0; 0; 0; 0; 0; 0; 0; 0; 0; 0]) ])
    ∧ Py.len [1; 0; 0; 0; 0; 0; 0; 0; 0; 0; 0; 0] = 12
    ∧ hi_nibble 1 = 0
    ∧ lo_nibble 1 = 1.
Proof.
  apply (write_id_files (λ dir name, dir ++ str "/" ++ name) (str "disc") 1
           new_Track).
  lia.
Defined.

(** C6 as stated fails: for track 1 the identifier file [00.id] holds 12
    bytes, not 13. *)
Lemma write_id_files_counterexample :
  ∃ content,
    snd (write (λ dir name, dir ++ str "/" ++ name) (str "disc") 1 new_Track)
      !! 2%nat = Some (str "disc/00.id", content)
    ∧ content = [1; 0; 0; 0; 0; 0; 0; 0; 0; 0; 0; 0]
    ∧ Py.len content ≠ 13.
Proof.
  eexists. split; [vm_compute; reflexivity|]. split; [reflexivity|].
  vm_compute. discriminate.
Qed.

(** ** Slices and in-place writes *)

Lemma len_nonneg {A} (l : list A) : 0 ≤ Py.len l.
Proof. unfold Py.len. lia. Qed.

Lemma len_app {A} (l k : list A) : Py.len (l ++ k) = Py.len l + Py.len k.
Proof. unfold Py.len. rewrite length_app. lia. Qed.

Lemma index_lookup {A} (l : list A) (i : Z) :
  0 ≤ i →
  Py.index l i = match l !! Z.to_nat i with
                 | Some x => Ok x
                 | None => Raise IndexError
                 end.
Proof.
  intros Hi. unfold Py.index.
  destruct (Z.ltb_spec i 0); [lia|]. destruct (Z.ltb_spec i 0); [lia|]. done.
Qed.

Lemma index_ext {A} (l k : list A) (i j : Z) :
  0 ≤ i → 0 ≤ j → l !! Z.to_nat i = k !! Z.to_nat j →
  Py.index l i = Py.index k j.
Proof. intros Hi Hj Heq. by rewrite !index_lookup, Heq. Qed.

Lemma slice_assign_within (l : list Z) (a : Z) (seq : list Z) :
  0 ≤ a → a + Py.len seq ≤ Py.len l →
  Py.slice_assign l a (a + Py.len seq) seq = patch a seq l.
Proof.
  intros Ha Hb. pose proof (len_nonneg seq).
  unfold Py.slice_assign, patch, Py.clamp.
  destruct (Z.ltb_spec a 0); [lia|].
  destruct (Z.ltb_spec (a + Py.len seq) 0); [lia|].
  do 3 f_equal; lia.
Qed.

(** A negative location is resolved against the end of the buffer; the
    write keeps the length as long as it stops before the end. *)
Lemma slice_assign_from_end (l : list Z) (a : Z) (seq : list Z) :
  a < 0 → - Py.len l ≤ a → a + Py.len seq < 0 →
  Py.slice_assign l a (a + Py.len seq) seq = patch (Py.len l + a) seq l.
Proof.
  intros Ha Hlo Hb. pose proof (len_nonneg seq).
  unfold Py.slice_assign, patch, Py.clamp.
  destruct (Z.ltb_spec a 0); [|lia].
  destruct (Z.ltb_spec (a + Py.len seq) 0); [|lia].
  do 3 f_equal; lia.
Qed.

Section Patch.

Variables (pos : Z) (seq l : list Z).
Hypothesis pos_nonneg : 0 ≤ pos.
Hypothesis fits : pos + Py.len seq ≤ Py.len l.

Lemma len_patch : Py.len (patch pos seq l) = Py.len l.
Proof using pos_nonneg fits.
  unfold patch, Py.len in *.
  rewrite !length_app, length_take, length_drop. lia.
Qed.

Lemma lookup_patch_in (i : nat) :
  (i < length seq)%nat →
  patch pos seq l !! (Z.to_nat pos + i)%nat = seq !! i.
Proof using pos_nonneg fits.
  intros Hi. unfold patch, Py.len in *.
  rewrite lookup_app_r by (rewrite length_take; lia).
  rewrite length_take, lookup_app_l by lia. f_equal. lia.
Qed.

Lemma lookup_patch_out (i : nat) :
  (Z.of_nat i < pos ∨ pos + Py.len seq ≤ Z.of_nat i) →
  patch pos seq l !! i = l !! i.
Proof using pos_nonneg fits.
  intros Hi. unfold patch, Py.len in *. destruct Hi as [Hi|Hi].
  - rewrite lookup_app_l by (rewrite length_take; lia).
    apply lookup_take_lt. lia.
  - rewrite lookup_app_r by (rewrite length_take; lia).
    rewrite lookup_app_r by (rewrite length_take; lia).
    rewrite lookup_drop, length_take. f_equal. lia.
Qed.

Lemma index_patch_in (i : Z) :
  0 ≤ i < Py.len seq →
  Py.index (patch pos seq l) (pos + i) = Py.index seq i.
Proof using pos_nonneg fits.
  intros Hi. apply index_ext; [lia..|].
  replace (Z.to_nat (pos + i)) with (Z.to_nat pos + Z.to_nat i)%nat by lia.
  apply lookup_patch_in. unfold Py.len in Hi. lia.
Qed.

Lemma index_patch_out (i : Z) :
  0 ≤ i → i < pos ∨ pos + Py.len seq ≤ i →
  Py.index (patch pos seq l) i = Py.index l i.
Proof using pos_nonneg fits.
  intros Hi Hout. apply index_ext; [lia..|].
  apply lookup_patch_out. lia.
Qed.

Lemma word_patch_out (loc : Z) :
  0 ≤ loc → loc + 2 ≤ pos ∨ pos + Py.len seq ≤ loc →
  word (patch pos seq l) loc = word l loc.
Proof using pos_nonneg fits.
  intros Hloc Hout. unfold word.
  rewrite !index_patch_out by lia. done.
Qed.

Lemma slice_patch_out (a b : Z) :
  0 ≤ a ≤ b → b ≤ pos ∨ pos + Py.len seq ≤ a →
  Py.slice (patch pos seq l) a b = Py.slice l a b.
Proof using pos_nonneg fits.
  intros Ha Hout. unfold Py.slice. rewrite len_patch.
  set (lo := Py.clamp (Py.len l) a). set (hi := Py.clamp (Py.len l) b).
  assert (Hlo : lo = Z.min a (Py.len l)).
  { unfold lo, Py.clamp. destruct (Z.ltb_spec a 0); lia. }
  assert (Hhi : hi ≤ b).
  { unfold hi, Py.clamp. pose proof (len_nonneg l).
    destruct (Z.ltb_spec b 0); lia. }
  apply list_eq. intros i.
  destruct (decide (i < Z.to_nat (hi - lo))%nat) as [Hi|Hi].
  - rewrite !lookup_take_lt, !lookup_drop by done.
    apply lookup_patch_out. pose proof (len_nonneg seq). lia.
  - rewrite !lookup_take_ge by lia. done.
Qed.

Lemma slice_patch_in :
  Py.slice (patch pos seq l) pos (pos + Py.len seq) = seq.
Proof using pos_nonneg fits.
  unfold Py.slice. rewrite len_patch. pose proof (len_nonneg seq).
  unfold Py.clamp.
  destruct (Z.ltb_spec pos 0); [lia|].
  destruct (Z.ltb_spec (pos + Py.len seq) 0); [lia|].
  rewrite !Z.min_l by lia. unfold patch.
  rewrite drop_app_length' by (rewrite length_take; unfold Py.len in *; lia).
  apply take_app_length'. unfold Py.len. lia.
Qed.

End Patch.

(** ** set_bytes with a location counted from the end *)

Lemma set_bytes_run (location : Z) (seq : list Z) (t : Track) :
  set_bytes location seq t
  = (Ok tt,
     {| data := Py.slice_assign (data t) location (location + Py.len seq) seq |}).
Proof. reflexivity. Qed.

(** C7 (as the code has it): for a negative location [loc] with
    [|loc| ≤ 2048] and a byte sequence shorter than [|loc|],
    [set_bytes loc seq] writes [seq] so that the write STARTS [|loc|] bytes
    before the end of the 2048-byte buffer: [seq] occupies the positions
    [2048 - |loc|, 2048 - |loc| + len seq), every other byte is unchanged,
    and the buffer keeps its length. *)
Theorem set_bytes_from_end (loc : Z) (seq : list Z) (t : Track) :
  Py.len (data t) = size → loc < 0 → - size ≤ loc → Py.len seq < - loc →
  let start := size - Z.abs loc in
  let t' := snd (set_bytes loc seq t) in
  fst (set_bytes loc seq t) = Ok tt
  ∧ Py.len (data t') = size
  ∧ Py.slice (data t') start (start + Py.len seq) = seq
  ∧ (∀ i, 0 ≤ i < Py.len seq →
          Py.index (data t') (start + i) = Py.index seq i)
  ∧ (∀ j, 0 ≤ j < size → j < start ∨ start + Py.len seq ≤ j →
          Py.index (data t') j = Py.index (data t) j).
Proof.
  intros Hlen Hneg Hlo Hshort start t'.
  assert (Hstart : start = Py.len (data t) + loc) by (unfold start; lia).
  subst t'. rewrite set_bytes_run. simpl.
  rewrite slice_assign_from_end, <- Hstart by lia.
  assert (0 ≤ start) by lia.
  assert (start + Py.len seq ≤ Py.len (data t)) by lia.
  split; [done|]. split; [|split; [|split]].
  - by rewrite len_patch.
  - by apply slice_patch_in.
  - intros i Hi. by apply index_patch_in.
  - intros j Hj Hout. apply index_patch_out; lia.
Qed.

Lemma set_bytes_from_end_witness :
  let t' := snd (set_bytes (-4) [1; 2] blank) in
  fst (set_bytes (-4) [1; 2] blank) = Ok tt
  ∧ Py.len (data t') = size
  ∧ Py.slice (data t') (size - Z.abs (-4)) (size - Z.abs (-4) + Py.len [1; 2])
    = [1; 2]
  ∧ (∀ i, 0 ≤ i < Py.len [1; 2] →
          Py.index (data t') (size - Z.abs (-4) + i) = Py.index [1; 2] i)
  ∧ (∀ j, 0 ≤ j < size →
          j < size - Z.abs (-4) ∨ size - Z.abs (-4) + Py.len [1; 2] ≤ j →
          Py.index (data t') j = Py.index (data blank) j).
Proof.
  apply (set_bytes_from_end (-4) [1; 2] blank);
    [reflexivity | lia | unfold size; lia | unfold Py.len; simpl; lia].
Defined.

(** C7 as stated fails: writing two bytes at location -4 leaves position
    2048 - 4 - 2 = 2042 untouched; the bytes go to 2044 and 2045. *)
Lemma set_bytes_from_end_counterexample :
  ¬ (∀ loc seq t,
       Py.len (data t) = size → loc < 0 → - size ≤ loc →
       Py.len seq ≤ - loc →
       ∀ i, 0 ≤ i < Py.len seq →
            Py.index (data (snd (set_bytes loc seq t)))
                     (size - Z.abs loc - Py.len seq + i)
            = Py.index seq i).
Proof.
  intros H.
  specialize (H (-4) [1; 2] blank eq_refl ltac:(lia)).
  specialize (H ltac:(unfold size; lia) ltac:(unfold Py.len; simpl; lia)).
  specialize (H 0 ltac:(unfold Py.len; simpl; lia)).
  vm_compute in H. discriminate H.
Qed.

Example set_bytes_from_end_positions :
  let d := data (snd (set_bytes (-4) [1; 2] blank)) in
  Py.index d 2042 = Ok 0 ∧ Py.index d 2043 = Ok 0
  ∧ Py.index d 2044 = Ok 1 ∧ Py.index d 2045 = Ok 2.
Proof. vm_compute. done. Qed.

(** When the write would reach the very end of the buffer the upper bound
    of the slice is 0, the slice is empty, and the bytes are inserted. *)
Example set_bytes_reaching_end :
  Py.len (data (snd (set_bytes (-2) [1; 2] blank))) = size + 2.
Proof. vm_compute. reflexivity. Qed.

(** ** A freshly constructed Track *)

(** C2 (as the code has it): construction succeeds; right after it
    [free_mem()] is [0x800 - 7 - 0x120 = 1753] ([pgm_info_end] is
    [0x800 - 7], [available_offset] is [0x120], both measured from the end
    of the buffer), and the directory consists of one entry, which decodes
    to pattern number 901 with offset field 0. *)
Theorem new_Track_state :
  fst (Track_init blank) = Ok tt
  ∧ fst (available_offset new_Track) = Ok pattern_offset
  ∧ fst (pgm_info_end new_Track) = Ok (size - pgm_info_size)
  ∧ fst (free_mem new_Track) = Ok (0x800 - 7 - 0x120)
  ∧ fst (free_mem new_Track) = Ok 1753
  ∧ fst (pat_num 0 new_Track) = Ok 901
  ∧ fst (get_word 0 new_Track) = Ok 0
  ∧ decode_entry (Py.slice (data new_Track) 0 pgm_info_size) = (0, 0, 0, 901).
Proof. vm_compute. repeat split; reflexivity. Qed.

(** C2 as stated fails: [free_mem()] of a fresh Track is not [0x120 - 7]. *)
Lemma new_Track_state_counterexample :
  fst (free_mem new_Track) ≠ Ok (0x120 - 7).
Proof. vm_compute. discriminate. Qed.

(** ** Which exceptions can be raised *)

Lemma rbind_no_Error {A B} (r : result A) (f : A → result B) :
  pure_no_Error r → (∀ a, pure_no_Error (f a)) → pure_no_Error (rbind r f).
Proof.
  intros Hr Hf. destruct r as [a|e]; simpl; [apply Hf|].
  intros [= ->]. by apply Hr.
Qed.

Lemma bytearray_no_Error l : pure_no_Error (Py.bytearray l).
Proof. unfold Py.bytearray, pure_no_Error. by destruct (forallb _ _). Qed.

Lemma index_no_Error {A} (l : list A) i : pure_no_Error (Py.index l i).
Proof.
  unfold Py.index, pure_no_Error.
  destruct (_ <? 0); [done|]. by destruct (l !! _).
Qed.

Lemma range_no_Error a b c : pure_no_Error (Py.range a b c).
Proof. unfold Py.range, pure_no_Error. by destruct (c =? 0). Qed.

Lemma two_bytes_no_Error w : pure_no_Error (two_bytes w).
Proof.
  unfold two_bytes. destruct (_ && _); [apply bytearray_no_Error|done].
Qed.

Lemma pack_pairs_no_Error nibbles idxs : pure_no_Error (pack_pairs nibbles idxs).
Proof.
  induction idxs as [|i idxs IH]; simpl; [done|].
  apply rbind_no_Error; [apply index_no_Error|intros hi].
  apply rbind_no_Error; [apply index_no_Error|intros lo].
  apply rbind_no_Error; [exact IH|done].
Qed.

Lemma pack_nibbles_no_Error nibbles : pure_no_Error (pack_nibbles nibbles).
Proof.
  unfold pack_nibbles.
  apply rbind_no_Error; [apply range_no_Error|intros idxs].
  apply rbind_no_Error; [apply pack_pairs_no_Error|apply bytearray_no_Error].
Qed.

Lemma program_info_no_Error o r s p : pure_no_Error (program_info o r s p).
Proof.
  unfold program_info.
  apply rbind_no_Error; [apply two_bytes_no_Error|intros w].
  apply rbind_no_Error; [apply pack_nibbles_no_Error|done].
Qed.

Lemma int_no_Error s base : pure_no_Error (Py.int s base).
Proof.
  assert (H : ∀ s acc, pure_no_Error (Py.parse_digits base s acc)).
  { clear s. induction s as [|c s IH]; intros acc; simpl; [done|].
    destruct (Py.char_digit base c); [apply IH|done]. }
  unfold Py.int. destruct s; [done|apply H].
Qed.

Lemma entry_pat_num_no_Error entry : pure_no_Error (entry_pat_num entry).
Proof.
  unfold entry_pat_num. apply rbind_no_Error.
  - unfold format_hex. by destruct (_ =? _).
  - intros nibbles. apply int_no_Error.
Qed.

Lemma bind_no_Error {A B} (m : M A) (f : A → M B) :
  no_Error m → (∀ a, no_Error (f a)) → no_Error (bind m f).
Proof.
  intros Hm Hf t. unfold bind. specialize (Hm t).
  destruct (m t) as [[a|e] t']; simpl in *; [apply Hf|].
  intros [= ->]. by apply Hm.
Qed.

Lemma lift_no_Error {A} (r : result A) : pure_no_Error r → no_Error (lift r).
Proof. intros Hr t. exact Hr. Qed.

Lemma ret_no_Error {A} (a : A) : no_Error (ret a).
Proof. intros t. done. Qed.

Lemma assign_slice_no_Error a b seq : no_Error (assign_slice a b seq).
Proof. intros t. done. Qed.

Lemma get_word_no_Error loc : no_Error (get_word loc).
Proof.
  unfold get_word.
  apply bind_no_Error; [intros t; apply index_no_Error|intros hi].
  apply bind_no_Error; [intros t; apply index_no_Error|intros lo].
  apply ret_no_Error.
Qed.

Lemma set_word_no_Error loc w : no_Error (set_word loc w).
Proof.
  unfold set_word.
  apply bind_no_Error; [apply lift_no_Error, two_bytes_no_Error|intros bs].
  apply assign_slice_no_Error.
Qed.

Lemma free_mem_no_Error : no_Error free_mem.
Proof.
  unfold free_mem.
  apply bind_no_Error; [apply get_word_no_Error|intros e].
  apply bind_no_Error; [apply get_word_no_Error|intros a].
  apply ret_no_Error.
Qed.

Lemma add_pgm_entry_no_Error p : no_Error (add_pgm_entry p).
Proof.
  unfold add_pgm_entry.
  apply bind_no_Error; [apply lift_no_Error, program_info_no_Error|intros info].
  apply bind_no_Error; [apply get_word_no_Error|intros offset].
  apply bind_no_Error; [apply assign_slice_no_Error|intros _].
  apply set_word_no_Error.
Qed.

Lemma find_empty_no_Error locs p : no_Error (find_empty locs p).
Proof.
  revert p. induction locs as [|loc locs IH]; intros p; simpl; [done|].
  apply bind_no_Error; [intros t; apply entry_pat_num_no_Error|intros q].
  destruct (negb _); [done|].
  apply bind_no_Error; [apply get_word_no_Error|intros w].
  destruct (w =? 0); [apply ret_no_Error|apply IH].
Qed.

(** Reading leaves the buffer alone. *)
Lemma get_word_run loc t : get_word loc t = (word (data t) loc, t).
Proof.
  unfold get_word, word, bind, data_at, ret.
  destruct (Py.index (data t) loc); simpl; [|done].
  by destruct (Py.index (data t) (loc + 1)).
Qed.

Lemma free_mem_run t :
  free_mem t
  = (rbind (word (data t) pgm_info_end_loc) (λ e,
     rbind (word (data t) available_loc) (λ a, Ok (e - a))), t).
Proof.
  unfold free_mem, bind, pgm_info_end, available_offset.
  rewrite get_word_run. destruct (word (data t) pgm_info_end_loc); simpl; [|done].
  rewrite get_word_run. by destruct (word (data t) available_loc).
Qed.

(** ** The out-of-space error *)

(** The guard of [add_pattern], and what follows it. *)
Lemma add_pattern_guard (pattern : list Z) (nrows nstitches : Z) (t : Track) :
  ∃ body : M Z,
    no_Error body
    ∧ add_pattern pattern nrows nstitches t
      = match fst (free_mem t) with
        | Ok free => if Py.len pattern >? free then (Raise Error, t) else body t
        | Raise e => (Raise e, t)
        end.
Proof.
  eexists. split; cycle 1.
  - unfold add_pattern. unfold bind at 1. rewrite free_mem_run. simpl fst.
    destruct (rbind (word (data t) pgm_info_end_loc) _) as [free|e]; [|done].
    destruct (Py.len pattern >? free); reflexivity.
  - apply bind_no_Error; [apply get_word_no_Error|intros e].
    apply bind_no_Error; [apply lift_no_Error, range_no_Error|intros locs].
    apply bind_no_Error; [apply find_empty_no_Error|intros [loc pn]].
    apply bind_no_Error; [apply get_word_no_Error|intros offset].
    apply bind_no_Error;
      [apply lift_no_Error, program_info_no_Error|intros info].
    apply bind_no_Error; [apply assign_slice_no_Error|intros _].
    apply bind_no_Error; [apply assign_slice_no_Error|intros _].
    apply bind_no_Error; [apply set_word_no_Error|intros _].
    apply bind_no_Error; [|intros _; apply ret_no_Error].
    destruct (_ =? _); [apply add_pgm_entry_no_Error|apply ret_no_Error].
Qed.

(** C3: [add_pattern] raises [Error] exactly when [free_mem()] has a value
    and the length of the pattern exceeds it, and then the Track is the
    one it was called on: the whole buffer, hence [available_offset()] and
    [pgm_info_end()], is unchanged. *)
Theorem add_pattern_out_of_space (pattern : list Z) (nrows nstitches : Z) (t : Track) :
  (fst (add_pattern pattern nrows nstitches t) = Raise Error
   ↔ ∃ free, fst (free_mem t) = Ok free ∧ Py.len pattern > free)
  ∧ (fst (add_pattern pattern nrows nstitches t) = Raise Error →
     snd (add_pattern pattern nrows nstitches t) = t
     ∧ available_offset (snd (add_pattern pattern nrows nstitches t))
       = available_offset t
     ∧ pgm_info_end (snd (add_pattern pattern nrows nstitches t))
       = pgm_info_end t).
Proof.
  destruct (add_pattern_guard pattern nrows nstitches t) as (body & Hbody & ->).
  pose proof (free_mem_no_Error t) as Hfm.
  destruct (fst (free_mem t)) as [free|e].
  - destruct (Z.gtb_spec (Py.len pattern) free) as [Hgt|Hle]; simpl.
    + split; [|done]. split; [|done]. intros _. exists free. split; [done|lia].
    + split.
      * split; [intros Hb; by apply Hbody in Hb|].
        intros (free' & [= <-] & Hgt). lia.
      * intros Hb. by apply Hbody in Hb.
  - simpl. split.
    + split; [intros [= ->]; by destruct Hfm|].
      intros (free & Hf & _). discriminate Hf.
    + intros [= ->]. by destruct Hfm.
Qed.

Example add_pattern_too_long :
  add_pattern (replicate 1754 0) 1 1 new_Track = (Raise Error, new_Track).
Proof. vm_compute. reflexivity. Qed.

(** ** Words and directory entries *)

Lemma be16_bytes w :
  0 ≤ w < 65536 →
  Forall (λ b, 0 ≤ b < 256) (be16 w) ∧ Z.shiftl (Z.shiftr w 8) 8 + Z.land w 255 = w.
Proof.
  intros Hw. unfold be16.
  rewrite Z.shiftr_div_pow2, Z.shiftl_mul_pow2 by lia.
  change 255 with (Z.ones 8). rewrite Z.land_ones by lia.
  change (2 ^ 8) with 256.
  assert (0 ≤ w / 256 < 256).
  { split; [apply Z.div_pos; lia|apply Z.div_lt_upper_bound; lia]. }
  pose proof (Z.mod_pos_bound w 256 ltac:(lia)).
  split; [repeat constructor; lia|].
  rewrite (Z.div_mod w 256) at 3 by lia. lia.
Qed.

Lemma two_bytes_ok w : 0 ≤ w < 65536 → two_bytes w = Ok (be16 w).
Proof.
  intros Hw. unfold two_bytes. change (Z.shiftl 1 16) with 65536.
  destruct (Z.leb_spec 0 w); [|lia]. destruct (Z.ltb_spec w 65536); [|lia].
  simpl andb. cbv iota. apply bytearray_bytes, be16_bytes, Hw.
Qed.

Lemma len_be16 w : Py.len (be16 w) = 2.
Proof. reflexivity. Qed.

Lemma word_be16 w tl : 0 ≤ w < 65536 → word (be16 w ++ tl) 0 = Ok w.
Proof. intros Hw. unfold word, be16. simpl. f_equal. by apply be16_bytes. Qed.

Lemma word_patch_in pos w l :
  0 ≤ pos → pos + 2 ≤ Py.len l → 0 ≤ w < 65536 →
  word (patch pos (be16 w) l) pos = Ok w.
Proof.
  intros Hpos Hfit Hw. unfold word.
  pose proof (index_patch_in pos (be16 w) l Hpos Hfit) as Hin.
  rewrite <- (Z.add_0_r pos) at 2.
  rewrite (Hin 0), (Hin 1) by (unfold Py.len; simpl; lia).
  apply (word_be16 w []), Hw.
Qed.

Lemma nibbles_pack a b :
  0 ≤ a ≤ 9 → 0 ≤ b ≤ 9 →
  0 ≤ Z.shiftl a 4 + b < 256
  ∧ hi_nibble (Z.shiftl a 4 + b) = a ∧ lo_nibble (Z.shiftl a 4 + b) = b.
Proof.
  intros Ha Hb. rewrite Z.shiftl_mul_pow2 by lia. change (2 ^ 4) with 16.
  split; [lia|].
  destruct (nibbles_div_mod (a * 16 + b)) as [-> ->]; [lia|]. split.
  - rewrite Z.div_add_l, (Z.div_small b) by lia. lia.
  - rewrite (Z.add_comm (a * 16)), Z.mod_add by lia. apply Z.mod_small. lia.
Qed.

Lemma list_of_len {A} (l : list A) (n : nat) :
  Py.len l = Z.of_nat n → length l = n.
Proof. unfold Py.len. lia. Qed.

Lemma Forall_3 {A} (P : A → Prop) a b c :
  Forall P [a; b; c] → P a ∧ P b ∧ P c.
Proof. rewrite !Forall_cons. tauto. Qed.

(** The entry composed by [program_info] when every field fits. *)
Lemma program_info_ok offset rows stitches pn :
  0 ≤ offset < 65536 → 0 ≤ rows < 1000 → 0 ≤ stitches < 1000 →
  0 ≤ pn < 10000 →
  ∃ body,
    program_info offset rows stitches pn = Ok (be16 offset ++ body)
    ∧ Py.len (be16 offset ++ body) = pgm_info_size
    ∧ Forall (λ b, 0 ≤ b < 256) (be16 offset ++ body)
    ∧ decode_entry (be16 offset ++ body) = (offset, rows, stitches, pn)
    ∧ entry_pat_num (be16 offset ++ body) = Ok (pn mod 1000).
Proof.
  intros Ho Hr Hs Hp. unfold program_info.
  rewrite two_bytes_ok by done. simpl rbind.
  destruct (to_bcd_fixed rows 3) as (Lr & Dr & Vr); [lia..|].
  destruct (to_bcd_fixed stitches 3) as (Ls & Ds & Vs); [lia..|].
  destruct (to_bcd_fixed pn 4) as (Lp & Dp & Vp); [lia..|].
  apply (list_of_len _ 3) in Lr. apply (list_of_len _ 3) in Ls.
  apply (list_of_len _ 4) in Lp.
  destruct (to_bcd rows 3) as [|r1 [|r2 [|r3 [|? ?]]]]; try discriminate Lr.
  destruct (to_bcd stitches 3) as [|s1 [|s2 [|s3 [|? ?]]]]; try discriminate Ls.
  destruct (to_bcd pn 4) as [|p1 [|p2 [|p3 [|p4 [|? ?]]]]]; try discriminate Lp.
  clear Lr Ls Lp.
  apply Forall_3 in Dr as (R1 & R2 & R3). apply Forall_3 in Ds as (S1 & S2 & S3).
  apply Forall_cons in Dp as [P1 Dp]. apply Forall_3 in Dp as (P2 & P3 & P4).
  unfold undigits in Vr, Vs, Vp. simpl in Vr, Vs, Vp.
  change ([r1; r2; r3] ++ [s1; s2; s3] ++ [p1; p2; p3; p4])
    with [r1; r2; r3; s1; s2; s3; p1; p2; p3; p4].
  rewrite pack_nibbles_10.
  destruct (nibbles_pack r1 r2 R1 R2) as (B1 & H1 & L1).
  destruct (nibbles_pack r3 s1 R3 S1) as (B2 & H2 & L2).
  destruct (nibbles_pack s2 s3 S2 S3) as (B3 & H3 & L3).
  destruct (nibbles_pack p1 p2 P1 P2) as (B4 & H4 & L4).
  destruct (nibbles_pack p3 p4 P3 P4) as (B5 & H5 & L5).
  rewrite bytearray_bytes by (repeat constructor; lia).
  eexists. split; [reflexivity|].
  destruct (be16_bytes offset Ho) as [Hwb Hw].
  assert (Hall : Forall (λ b, 0 ≤ b < 256)
                   (be16 offset ++ [Z.shiftl r1 4 + r2; Z.shiftl r3 4 + s1;
                      Z.shiftl s2 4 + s3; Z.shiftl p1 4 + p2;
                      Z.shiftl p3 4 + p4])).
  { apply Forall_app. split; [done|]. repeat constructor; lia. }
  split; [reflexivity|]. split; [exact Hall|]. split.
  - unfold decode_entry, be16, nibbles_of, undigits. simpl.
    rewrite H1, L1, H2, L2, H3, L3, H4, L4, H5, L5.
    rewrite Z.shiftr_div_pow2 by lia.
    change 255 with (Z.ones 8). rewrite Z.land_ones by lia.
    change (2 ^ 8) with 256.
    pose proof (Z.div_mod offset 256 ltac:(lia)).
    repeat f_equal; lia.
  - unfold be16 in *. simpl app in *.
    rewrite entry_pat_num_bytes by (done || lia).
    rewrite L4, H5, L5. f_equal.
    assert (Hpn : pn = p1 * 1000 + (p2 * 100 + p3 * 10 + p4)) by lia.
    rewrite Hpn, (Z.add_comm (p1 * 1000)), Z.mod_add by lia.
    symmetry. apply Z.mod_small. lia.
Qed.

(** [pat_num] only ever yields a number of three digits. *)
Lemma char_digit_range base c d :
  0 ≤ base → Py.char_digit base c = Some d → 0 ≤ d < base.
Proof.
  unfold Py.char_digit. intros Hb.
  set (o := Py.ord c).
  destruct (Z.leb_spec 48 o), (Z.leb_spec o 57), (Z.leb_spec 65 o),
    (Z.leb_spec o 90), (Z.leb_spec 97 o), (Z.leb_spec o 122); simpl;
    match goal with
    | |- context [?x <? base] => destruct (Z.ltb_spec x base)
    end; intros [= <-]; lia.
Qed.

Lemma parse_digits_bound s acc v :
  0 ≤ acc → Py.parse_digits 10 s acc = Ok v →
  0 ≤ v < (acc + 1) * 10 ^ Py.len s.
Proof.
  revert acc. induction s as [|c s IH]; intros acc Hacc; simpl.
  - intros [= <-]. unfold Py.len. simpl. lia.
  - destruct (Py.char_digit 10 c) as [d|] eqn:Hc; [|done].
    apply char_digit_range in Hc; [|lia]. intros Hv.
    apply IH in Hv; [|lia].
    replace (Py.len (c :: s)) with (Z.succ (Py.len s))
      by (unfold Py.len; simpl; lia).
    rewrite Z.pow_succ_r by apply len_nonneg.
    assert (0 < 10 ^ Py.len s) by (apply Z.pow_pos_nonneg; [lia|apply len_nonneg]).
    nia.
Qed.

Lemma entry_pat_num_range entry v :
  entry_pat_num entry = Ok v → 0 ≤ v < 1000.
Proof.
  unfold entry_pat_num. destruct (format_hex _ _) as [nibbles|]; [|done].
  simpl. unfold Py.int.
  set (s := Py.slice_from nibbles (-3)).
  assert (Hlen : Py.len s ≤ 3).
  { unfold s, Py.slice_from, Py.clamp.
    destruct (Z.ltb_spec (-3) 0); [|lia].
    unfold Py.len. rewrite length_drop. lia. }
  destruct s as [|c s']; [done|]. intros Hv.
  apply parse_digits_bound in Hv; [|lia].
  assert (10 ^ Py.len (c :: s') ≤ 10 ^ 3).
  { apply Z.pow_le_mono_r; [lia|exact Hlen]. }
  lia.
Qed.

(** ** Running the methods *)

Lemma bind_ok {A B} (m : M A) (f : A → M B) t a t' :
  m t = (Ok a, t') → bind m f t = f a t'.
Proof. intros H. unfold bind. by rewrite H. Qed.

Lemma bind_raise {A B} (m : M A) (f : A → M B) t e t' :
  m t = (Raise e, t') → bind m f t = (Raise e, t').
Proof. intros H. unfold bind. by rewrite H. Qed.

Ltac step H := rewrite (bind_ok _ _ _ _ _ H); cbv beta iota zeta.

Lemma set_bytes_within u loc seq :
  0 ≤ loc → loc + Py.len seq ≤ Py.len (data u) →
  set_bytes loc seq u = (Ok tt, {| data := patch loc seq (data u) |}).
Proof. intros. by rewrite set_bytes_run, slice_assign_within. Qed.

Lemma set_bytes_end u loc seq :
  loc < 0 → - Py.len (data u) ≤ loc → loc + Py.len seq < 0 →
  set_bytes loc seq u
  = (Ok tt, {| data := patch (Py.len (data u) + loc) seq (data u) |}).
Proof. intros. by rewrite set_bytes_run, slice_assign_from_end. Qed.

Lemma set_word_within u loc w :
  0 ≤ loc → loc + 2 ≤ Py.len (data u) → 0 ≤ w < 65536 →
  set_word loc w u = (Ok tt, {| data := patch loc (be16 w) (data u) |}).
Proof.
  intros Hloc Hfit Hw. unfold set_word, bind, lift.
  rewrite two_bytes_ok by done. unfold assign_slice.
  change 2 with (Py.len (be16 w)). by rewrite slice_assign_within.
Qed.

Lemma pat_num_run loc t :
  pat_num loc t = (entry_pat_num (Py.slice (data t) loc (loc + pgm_info_size)), t).
Proof. reflexivity. Qed.

Lemma find_empty_state locs p t : snd (find_empty locs p t) = t.
Proof.
  revert p. induction locs as [|loc locs IH]; intros p; simpl; [done|].
  unfold bind. rewrite pat_num_run.
  destruct (entry_pat_num _) as [q|e]; [|done].
  destruct (negb (q =? p)); [done|].
  rewrite get_word_run. destruct (word (data t) loc) as [w|e]; [|done].
  destruct (w =? 0); [done|apply IH].
Qed.

Lemma find_empty_ok locs p t loc pn t' :
  find_empty locs p t = (Ok (loc, pn), t') →
  In loc locs
  ∧ entry_pat_num (Py.slice (data t) loc (loc + pgm_info_size)) = Ok pn
  ∧ word (data t) loc = Ok 0.
Proof.
  revert p. induction locs as [|l locs IH]; intros p; simpl; [done|].
  unfold bind, raise, ret. rewrite pat_num_run.
  destruct (entry_pat_num (Py.slice (data t) l _)) as [q|e] eqn:Hq;
    cbv beta iota; [|done].
  destruct (Z.eqb_spec q p) as [->|Hne]; cbv beta iota delta [negb]; [|done].
  rewrite get_word_run.
  destruct (word (data t) l) as [w|e] eqn:Hw; cbv beta iota; [|done].
  destruct (Z.eqb_spec w 0) as [->|Hw0]; cbv beta iota.
  - intros [= <- <- <-]. auto.
  - intros H. apply IH in H as (Hin & H1 & H2). auto.
Qed.

Lemma range_7 stop :
  ∃ locs, Py.range 0 stop pgm_info_size = Ok locs
          ∧ ∀ loc, In loc locs →
                   0 ≤ loc < stop ∧ loc mod pgm_info_size = 0.
Proof.
  eexists. split; [reflexivity|]. intros loc Hin.
  apply in_map_iff in Hin as (i & <- & Hi). apply in_seq in Hi.
  unfold Py.range_len, pgm_info_size in *.
  change (0 <? 7) with true in Hi. cbv iota in Hi.
  rewrite Z.add_0_l, Z.mod_mul by lia. split; [div_lia|done].
Qed.

Lemma add_pgm_entry_run u P pn info :
  Py.len (data u) = size → word (data u) pgm_info_end_loc = Ok P →
  pgm_info_size < P ≤ size →
  program_info 0 0 0 pn = Ok info → Py.len info = pgm_info_size →
  add_pgm_entry pn u
  = (Ok tt,
     {| data := patch pgm_info_end_loc (be16 (P - pgm_info_size))
                      (patch (size - P) info (data u)) |}).
Proof.
  unfold size, pgm_info_size, pgm_info_end_loc.
  intros Hlen Hword HP Hinfo Hinfolen. unfold add_pgm_entry.
  assert (Hli : lift (program_info 0 0 0 pn) u = (Ok info, u)).
  { unfold lift. by rewrite Hinfo. }
  step Hli.
  assert (HgetP : pgm_info_end u = (Ok P, u)).
  { unfold pgm_info_end. rewrite get_word_run. unfold pgm_info_end_loc.
    by rewrite Hword. }
  step HgetP.
  rewrite (bind_ok _ _ _ _ _
             (set_bytes_end u (- P) info ltac:(lia) ltac:(lia) ltac:(lia))).
  rewrite Hlen, Hinfolen. replace (0x800 + - P) with (0x800 - P) by lia.
  unfold set_pgm_info_end, pgm_info_end_loc.
  apply set_word_within; cbn [data]; rewrite ?len_patch; lia.
Qed.

Section AddPattern.

Variables (pattern : list Z) (nrows nstitches : Z) (t : Track) (A P : Z).

Hypothesis layout : layout_ok t A P.
Hypothesis rows_ok : 0 ≤ nrows < 1000.
Hypothesis stitches_ok : 0 ≤ nstitches < 1000.
Hypothesis fits : Py.len pattern ≤ P - A.

Lemma add_pattern_fits :
  ∃ locs,
    Py.range 0 (size - P) pgm_info_size = Ok locs
    ∧ ((∃ e, find_empty locs initial_pattern_number t = (Raise e, t)
             ∧ add_pattern pattern nrows nstitches t = (Raise e, t))
       ∨ (∃ loc pn info info0,
             find_empty locs initial_pattern_number t = (Ok (loc, pn), t)
             ∧ 0 ≤ loc ∧ loc + pgm_info_size ≤ size - P
             ∧ 0 ≤ pn < 1000
             ∧ program_info A nrows nstitches pn = Ok info
             ∧ program_info 0 0 0 (pn + 1) = Ok info0
             ∧ add_pattern pattern nrows nstitches t
               = (Ok pn, {| data := stored t A P pattern loc info info0 |}))).
Proof using layout rows_ok stitches_ok fits.
  destruct layout as (Hlen & HA & HP & HAlo & HPhi & Hmod).
  pose proof (len_nonneg pattern) as Hk.
  unfold size, pattern_offset, pgm_info_size, available_loc,
    pgm_info_end_loc in *.
  destruct (range_7 (0x800 - P)) as (locs & Hrange & Hlocs).
  exists locs. split; [exact Hrange|].
  assert (Hfree : free_mem t = (Ok (P - A), t)).
  { rewrite free_mem_run. unfold pgm_info_end_loc, available_loc.
    by rewrite HP, HA. }
  assert (HgetP : pgm_info_end t = (Ok P, t)).
  { unfold pgm_info_end. rewrite get_word_run. unfold pgm_info_end_loc.
    by rewrite HP. }
  assert (HgetA : available_offset t = (Ok A, t)).
  { unfold available_offset. rewrite get_word_run. unfold available_loc.
    by rewrite HA. }
  unfold add_pattern. step Hfree.
  destruct (Z.gtb_spec (Py.len pattern) (P - A)) as [|_]; [lia|].
  step HgetP. unfold size, pgm_info_size.
  assert (Hl : lift (Py.range 0 (0x800 - P) 7) t = (Ok locs, t)).
  { unfold lift. by rewrite <- Hrange. }
  step Hl.
  pose proof (find_empty_state locs initial_pattern_number t) as Hst.
  destruct (find_empty locs initial_pattern_number t) as [[[loc pn]|e] t1]
    eqn:Hfind; simpl in Hst; subst t1.
  2:{ left. exists e. split; [done|]. unfold bind. by rewrite Hfind. }
  right.
  destruct (find_empty_ok _ _ _ _ _ _ Hfind) as (Hin & Hpn & Hw0).
  apply Hlocs in Hin as [Hloc Hlocmod].
  apply entry_pat_num_range in Hpn.
  destruct (program_info_ok A nrows nstitches pn) as (body & Hinfo & Hinfolen & _);
    [lia..|].
  destruct (program_info_ok 0 0 0 (pn + 1)) as (body0 & Hinfo0 & Hinfo0len & _);
    [lia..|].
  set (info := be16 A ++ body) in *. set (info0 := be16 0 ++ body0) in *.
  unfold pgm_info_size in *.
  assert (Hslot : loc + 7 ≤ 0x800 - P) by div_lia.
  exists loc, pn, info, info0.
  split; [done|]. split; [lia|]. split; [lia|]. split; [lia|].
  split; [done|]. split; [done|].
  step Hfind. step HgetA.
  assert (Hli : lift (program_info A nrows nstitches pn) t = (Ok info, t)).
  { unfold lift. by rewrite Hinfo. }
  step Hli.
  rewrite (bind_ok _ _ _ _ _ (set_bytes_within t loc info ltac:(lia) ltac:(lia))).
  set (d1 := patch loc info (data t)).
  assert (Hd1 : Py.len d1 = 0x800) by (unfold d1; rewrite len_patch; lia).
  rewrite (bind_ok _ _ _ _ _
             (set_bytes_end {| data := d1 |} (- (A + Py.len pattern)) pattern
                ltac:(lia) ltac:(simpl; lia) ltac:(lia))).
  cbn [data]. rewrite Hd1.
  replace (0x800 + - (A + Py.len pattern)) with (0x800 - (A + Py.len pattern))
    by lia.
  set (d2 := patch (0x800 - (A + Py.len pattern)) pattern d1).
  assert (Hd2 : Py.len d2 = 0x800) by (unfold d2; rewrite len_patch; lia).
  rewrite (bind_ok _ _ _ _ _
             (set_word_within {| data := d2 |} 0x700 (A + Py.len pattern + 1)
                ltac:(lia) ltac:(simpl; lia) ltac:(lia))).
  cbn [data].
  set (d3 := patch 0x700 (be16 (A + Py.len pattern + 1)) d2).
  assert (Hd3 : Py.len d3 = 0x800)
    by (unfold d3; rewrite len_patch; rewrite ?len_be16; lia).
  rewrite Hinfolen.
  unfold stored, stored_pointer, stored_pattern, stored_entry, size,
    pgm_info_size, available_loc, pgm_info_end_loc.
  cbv zeta. fold d1 d2 d3.
  destruct (Z.eqb_spec (loc + 7) (0x800 - P)) as [Hlast|Hnot].
  - assert (Hword : word d3 0x710 = Ok P).
    { unfold d3. rewrite word_patch_out by (rewrite ?len_be16; lia).
      unfold d2. rewrite word_patch_out by lia.
      unfold d1. rewrite word_patch_out by lia. done. }
    rewrite (bind_ok _ _ _ _ _
               (add_pgm_entry_run {| data := d3 |} P (pn + 1) info0
                  Hd3 Hword ltac:(unfold pgm_info_size, size; lia)
                  Hinfo0 Hinfo0len)).
    reflexivity.
  - reflexivity.
Qed.

Section Stored.

Variables (loc : Z) (info info0 : list Z).
Hypothesis loc_nonneg : 0 ≤ loc.
Hypothesis slot : loc + pgm_info_size ≤ size - P.
Hypothesis info_len : Py.len info = pgm_info_size.
Hypothesis info0_len : Py.len info0 = pgm_info_size.

Local Abbreviation d1 := (stored_entry t loc info).
Local Abbreviation d2 := (stored_pattern t A pattern loc info).
Local Abbreviation d3 := (stored_pointer t A pattern loc info).

Lemma stored_steps :
  Py.len d1 = size ∧ Py.len d2 = size ∧ Py.len d3 = size
  ∧ 0 ≤ Py.len pattern ∧ A + Py.len pattern ≤ P
  ∧ pattern_offset ≤ A ∧ P ≤ size.
Proof using layout fits loc_nonneg slot info_len.
  destruct layout as (Hlen & HA & HP & HAlo & HPhi & Hmod).
  pose proof (len_nonneg pattern) as Hk.
  unfold size, pattern_offset, pgm_info_size, available_loc in *.
  assert (H1 : Py.len d1 = 0x800) by (unfold stored_entry; rewrite len_patch; lia).
  assert (H2 : Py.len d2 = 0x800)
    by (unfold stored_pattern, size; rewrite len_patch; lia).
  assert (H3 : Py.len d3 = 0x800)
    by (unfold stored_pointer, available_loc; rewrite len_patch;
        rewrite ?len_be16; lia).
  repeat split; lia.
Qed.

Lemma stored_len :
  Py.len (stored t A P pattern loc info info0) = size.
Proof using layout fits loc_nonneg slot info_len info0_len.
  destruct stored_steps as (H1 & H2 & H3 & Hk & Hfit & HAlo & HPhi).
  unfold stored. cbv zeta.
  unfold size, pattern_offset, pgm_info_size, pgm_info_end_loc in *.
  destruct (_ =? _); [|done].
  rewrite !len_patch; rewrite ?len_patch, ?len_be16; lia.
Qed.

Lemma stored_available :
  word (stored t A P pattern loc info info0) available_loc
  = Ok (A + Py.len pattern + 1).
Proof using layout fits loc_nonneg slot info_len info0_len.
  destruct stored_steps as (H1 & H2 & H3 & Hk & Hfit & HAlo & HPhi).
  unfold stored. cbv zeta.
  unfold size, pattern_offset, pgm_info_size, pgm_info_end_loc,
    available_loc in *.
  assert (Hw : word d3 0x700 = Ok (A + Py.len pattern + 1)).
  { unfold stored_pointer, available_loc. apply word_patch_in; lia. }
  destruct (_ =? _); [|done].
  rewrite !word_patch_out; rewrite ?len_patch, ?len_be16; try lia. done.
Qed.

Lemma stored_pgm_info_end :
  word (stored t A P pattern loc info info0) pgm_info_end_loc
  = Ok (if loc + pgm_info_size =? size - P then P - pgm_info_size else P).
Proof using layout fits loc_nonneg slot info_len info0_len.
  destruct stored_steps as (H1 & H2 & H3 & Hk & Hfit & HAlo & HPhi).
  destruct layout as (Hlen & HA & HP & _).
  unfold stored. cbv zeta.
  unfold size, pattern_offset, pgm_info_size, pgm_info_end_loc,
    available_loc in *.
  destruct (_ =? _).
  - apply word_patch_in; rewrite ?len_patch; lia.
  - unfold stored_pointer, available_loc.
    rewrite word_patch_out by (rewrite ?len_be16; lia).
    unfold stored_pattern, size. rewrite word_patch_out by lia.
    unfold stored_entry. rewrite word_patch_out by lia. done.
Qed.

(** Nothing below the end of the filled slot changes, but the slot. *)
Lemma stored_slice (a b : Z) (prior : list Z) :
  0 ≤ a ≤ b → b ≤ loc + pgm_info_size →
  Py.slice d1 a b = prior →
  Py.slice (stored t A P pattern loc info info0) a b = prior.
Proof using layout fits loc_nonneg slot info_len info0_len.
  destruct stored_steps as (H1 & H2 & H3 & Hk & Hfit & HAlo & HPhi).
  intros Hab Hb <-. unfold stored. cbv zeta.
  unfold size, pattern_offset, pgm_info_size, pgm_info_end_loc,
    available_loc in *.
  assert (Hd3 : Py.slice d3 a b = Py.slice d1 a b).
  { unfold stored_pointer, available_loc.
    rewrite slice_patch_out by (rewrite ?len_be16; lia).
    unfold stored_pattern, size. by rewrite slice_patch_out by lia. }
  destruct (_ =? _); [|done].
  rewrite !slice_patch_out; rewrite ?len_patch, ?len_be16; try lia. done.
Qed.

Lemma stored_slot :
  Py.slice (stored t A P pattern loc info info0) loc (loc + pgm_info_size)
  = info.
Proof using layout fits loc_nonneg slot info_len info0_len.
  destruct stored_steps as (H1 & H2 & H3 & Hk & Hfit & HAlo & HPhi).
  destruct layout as (Hlen & _).
  unfold size, pgm_info_size, pattern_offset in *.
  apply stored_slice; unfold pgm_info_size; [lia..|].
  unfold stored_entry. rewrite <- info_len at 1. apply slice_patch_in; lia.
Qed.

Lemma stored_before (a b : Z) :
  0 ≤ a ≤ b → b ≤ loc →
  Py.slice (stored t A P pattern loc info info0) a b
  = Py.slice (data t) a b.
Proof using layout fits loc_nonneg slot info_len info0_len.
  destruct stored_steps as (H1 & H2 & H3 & Hk & Hfit & HAlo & HPhi).
  destruct layout as (Hlen & _).
  unfold size, pgm_info_size, pattern_offset in *.
  intros Hab Hb. apply stored_slice; unfold pgm_info_size; [lia..|].
  unfold stored_entry. apply slice_patch_out; lia.
Qed.

Lemma stored_new_entry :
  loc + pgm_info_size = size - P →
  Py.slice (stored t A P pattern loc info info0) (size - P)
    (size - P + pgm_info_size)
  = info0.
Proof using layout fits loc_nonneg slot info_len info0_len.
  destruct stored_steps as (H1 & H2 & H3 & Hk & Hfit & HAlo & HPhi).
  intros Hlast. unfold stored. cbv zeta.
  destruct (Z.eqb_spec (loc + pgm_info_size) (size - P)) as [_|]; [|done].
  unfold size, pattern_offset, pgm_info_size, pgm_info_end_loc in *.
  rewrite slice_patch_out; rewrite ?len_patch, ?len_be16; try lia.
  rewrite <- info0_len at 1. apply slice_patch_in; lia.
Qed.

End Stored.

End AddPattern.

(** ** A successful add_pattern *)

Lemma free_mem_layout t A P :
  layout_ok t A P → free_mem t = (Ok (P - A), t).
Proof.
  intros (_ & HA & HP & _). rewrite free_mem_run. by rewrite HP, HA.
Qed.

Lemma new_Track_layout :
  layout_ok new_Track pattern_offset (size - pgm_info_size).
Proof.
  unfold layout_ok. repeat split; try (vm_compute; reflexivity).
  - unfold pattern_offset. lia.
  - unfold size, pgm_info_size. lia.
Qed.

(** C1 (as the code has it): on a track with a sound layout, a call of
    [add_pattern] that is accepted, for row and stitch counts of at most
    three digits, fills a directory slot that was empty, and reduces
    [free_mem()] by [k + 1] for the pattern and its slack byte and by 7
    more when the filled slot was the last one of the directory, because a
    new empty entry is appended then; the entry written decodes to the
    offset, to the given row and stitch counts and to the returned pattern
    number, which [pat_num] reads back. *)
Theorem add_pattern_accepted
    (pattern : list Z) (nrows nstitches : Z) (t : Track) (A P pn : Z) (t' : Track) :
  layout_ok t A P →
  0 ≤ nrows < 1000 → 0 ≤ nstitches < 1000 →
  add_pattern pattern nrows nstitches t = (Ok pn, t') →
  ∃ loc,
    0 ≤ loc ∧ loc + pgm_info_size ≤ size - P
    ∧ fst (get_word loc t) = Ok 0
    ∧ fst (pat_num loc t) = Ok pn
    ∧ fst (free_mem t) = Ok (P - A)
    ∧ Py.len pattern ≤ P - A
    ∧ fst (free_mem t')
      = Ok (P - A - (Py.len pattern + 1)
            - (if loc + pgm_info_size =? size - P then pgm_info_size else 0))
    ∧ decode_entry (Py.slice (data t') loc (loc + pgm_info_size))
      = (A, nrows, nstitches, pn)
    ∧ fst (pat_num loc t') = Ok pn.
Proof.
  intros Hlay Hr Hs Hrun.
  pose proof (free_mem_layout t A P Hlay) as Hfree.
  assert (Hfits : Py.len pattern ≤ P - A).
  { destruct (add_pattern_guard pattern nrows nstitches t) as (body & _ & Hg).
    rewrite Hfree in Hg. simpl in Hg.
    destruct (Z.gtb_spec (Py.len pattern) (P - A)) as [Hgt|]; [|lia].
    rewrite Hg in Hrun. discriminate Hrun. }
  destruct (add_pattern_fits pattern nrows nstitches t A P Hlay Hr Hs Hfits)
    as (locs & Hrange & [(e & _ & Hraise)|Hok]).
  { rewrite Hraise in Hrun. discriminate Hrun. }
  destruct Hok as (loc & pn' & info & info0 & Hfind & Hloc & Hslot & Hpn
                   & Hinfo & Hinfo0 & Hrun').
  rewrite Hrun' in Hrun. injection Hrun as -> <-.
  destruct (find_empty_ok _ _ _ _ _ _ Hfind) as (_ & Hpat & Hw0).
  assert (HA : 0 ≤ A < 65536).
  { destruct Hlay as (_ & _ & _ & HAlo & HPhi & _).
    pose proof (len_nonneg pattern). unfold pattern_offset, size in *. lia. }
  destruct (program_info_ok A nrows nstitches pn) as
    (body & Hinfo' & Hlen & _ & Hdec & Hpat'); [lia..|].
  rewrite Hinfo in Hinfo'. injection Hinfo' as ->.
  destruct (program_info_ok 0 0 0 (pn + 1)) as (body0 & Hinfo0' & Hlen0 & _);
    [lia..|].
  rewrite Hinfo0 in Hinfo0'. injection Hinfo0' as ->.
  exists loc. split; [done|]. split; [done|].
  split; [by rewrite get_word_run|]. split; [by rewrite pat_num_run|].
  split; [by rewrite Hfree|]. split; [done|].
  rewrite free_mem_run, pat_num_run. cbn [fst data].
  rewrite stored_pgm_info_end, stored_available, stored_slot by done.
  cbn [rbind]. split; [|split; [done|]].
  - f_equal. destruct (_ =? _); lia.
  - transitivity (Ok (A := Z) (pn mod 1000)); [exact Hpat'|].
    f_equal. apply Z.mod_small. lia.
Qed.

Lemma add_pattern_accepted_witness :
  ∃ loc,
    0 ≤ loc ∧ loc + pgm_info_size ≤ size - 2041
    ∧ fst (get_word loc new_Track) = Ok 0
    ∧ fst (pat_num loc new_Track) = Ok 901
    ∧ fst (free_mem new_Track) = Ok (2041 - 288)
    ∧ Py.len [1; 2; 3] ≤ 2041 - 288
    ∧ fst (free_mem (snd (add_pattern [1; 2; 3] 2 4 new_Track)))
      = Ok (2041 - 288 - (Py.len [1; 2; 3] + 1)
            - (if loc + pgm_info_size =? size - 2041 then pgm_info_size else 0))
    ∧ decode_entry
        (Py.slice (data (snd (add_pattern [1; 2; 3] 2 4 new_Track)))
                  loc (loc + pgm_info_size))
      = (288, 2, 4, 901)
    ∧ fst (pat_num loc (snd (add_pattern [1; 2; 3] 2 4 new_Track))) = Ok 901.
Proof.
  apply (add_pattern_accepted [1; 2; 3] 2 4 new_Track 288 2041 901
           (snd (add_pattern [1; 2; 3] 2 4 new_Track))).
  - unfold layout_ok. repeat split; try (vm_compute; reflexivity).
    + unfold pattern_offset. lia.
    + unfold size. lia.
  - lia.
  - lia.
  - vm_compute. reflexivity.
Defined.

(** C1 as stated fails: on a fresh Track an accepted pattern of [k = 0]
    bytes reduces [free_mem()] from 1753 to 1745, that is by [k + 8]. *)
Lemma add_pattern_accepted_counterexample :
  ¬ (∀ pattern nrows nstitches t pn t' free,
       add_pattern pattern nrows nstitches t = (Ok pn, t') →
       fst (free_mem t) = Ok free →
       fst (free_mem t') = Ok (free - (Py.len pattern + 1))).
Proof.
  intros H.
  specialize (H [] 0 0 new_Track 901 (snd (add_pattern [] 0 0 new_Track)) 1753).
  specialize (H ltac:(vm_compute; reflexivity) ltac:(vm_compute; reflexivity)).
  vm_compute in H. discriminate H.
Qed.

Example add_pattern_fresh_free :
  fst (free_mem (snd (add_pattern [] 0 0 new_Track))) = Ok (1753 - (0 + 8)).
Proof. vm_compute. reflexivity. Qed.

(** ** The image encoder *)

Lemma slice_app_middle {A} (pre mid post : list A) :
  Py.slice (pre ++ mid ++ post) (Py.len pre) (Py.len pre + Py.len mid) = mid.
Proof.
  unfold Py.slice, Py.clamp.
  pose proof (len_nonneg pre). pose proof (len_nonneg mid).
  pose proof (len_nonneg post).
  destruct (Z.ltb_spec (Py.len pre) 0); [lia|].
  destruct (Z.ltb_spec (Py.len pre + Py.len mid) 0); [lia|].
  rewrite !len_app, !Z.min_l by lia.
  rewrite drop_app_length' by (unfold Py.len; lia).
  apply take_app_length'. unfold Py.len. lia.
Qed.

Lemma range_multiple n step :
  0 < step → 0 ≤ n →
  Py.range 0 (n * step) step
  = Ok (map (λ i : nat, 0 + Z.of_nat i * step) (seq 0 (Z.to_nat n))).
Proof.
  intros Hstep Hn. unfold Py.range, Py.range_len.
  destruct (Z.eqb_spec step 0); [lia|]. destruct (Z.ltb_spec 0 step); [|lia].
  do 3 f_equal.
  replace (n * step - 0 + step - 1) with (n * step + (step - 1)) by lia.
  rewrite Z.div_add_l, Z.div_small by lia. lia.
Qed.

Lemma seq_shift_map {A} (f : nat → A) n :
  map f (seq 1 n) = map (λ i, f (S i)) (seq 0 n).
Proof. by rewrite <- seq_shift, map_map. Qed.

(** The row loop of [encode_image]: every row of the bit string gets the
    padding in front. *)
Lemma fold_rows (s : Z) (pad : list ascii) (crows : list (list ascii)) :
  Forall (λ r, Py.len r = s) crows →
  ∀ done acc,
    fold_left (λ bits irow,
                 bits ++ pad ++ Py.slice (done ++ concat crows) irow (irow + s))
              (map (λ i : nat, Py.len done + Z.of_nat i * s)
                   (seq 0 (length crows)))
              acc
    = acc ++ concat (map (λ r, pad ++ r) crows).
Proof.
  induction 1 as [|r rs Hr _ IH]; intros done acc; simpl.
  - by rewrite app_nil_r.
  - rewrite Z.add_0_r. rewrite <- Hr at 1. rewrite slice_app_middle.
    rewrite seq_shift_map.
    specialize (IH (done ++ r) (acc ++ pad ++ r)).
    rewrite <- app_assoc in IH.
    rewrite <- !app_assoc in IH. rewrite <- !app_assoc.
    rewrite <- IH. f_equal. apply map_ext. intros i.
    rewrite len_app, Hr. lia.
Qed.

Lemma bit_char_digit b : bit_char b = Py.digit_char (Z.b2z b).
Proof. by destruct b. Qed.

Lemma int_bits bits :
  bits ≠ [] → Py.int (map bit_char bits) 2 = Ok (byte_of_bits bits).
Proof.
  intros Hne. unfold byte_of_bits.
  rewrite <- int_digits.
  - f_equal. rewrite map_map. apply map_ext, bit_char_digit.
  - lia.
  - by destruct bits.
  - apply Forall_forall. intros d Hd. apply list_elem_of_In in Hd.
    apply in_map_iff in Hd as (b & <- & _). destruct b; simpl; lia.
Qed.

(** The byte loop of [encode_image] packs the bit string eight by eight. *)
Lemma rmap_chunks (m : nat) :
  ∀ (bs : list bool) (done : list ascii),
    length bs = (8 * m)%nat →
    rmap (λ i, Py.int (Py.slice (done ++ map bit_char bs) i (i + 8)) 2)
         (map (λ i : nat, Py.len done + Z.of_nat i * 8) (seq 0 m))
    = Ok (pack_bits bs).
Proof.
  induction m as [|m IH]; intros bs done Hlen.
  - destruct bs; [done|discriminate Hlen].
  - do 8 (destruct bs as [|? bs]; [simpl in Hlen; lia|]).
    change (seq 0 (S m)) with (0%nat :: seq 1 m).
    cbn [map rmap]. rewrite seq_shift_map.
    rewrite Z.add_0_r.
    match goal with
    | |- context [Py.slice (done ++ ?c7 :: ?c6 :: ?c5 :: ?c4 :: ?c3 :: ?c2
                                 :: ?c1 :: ?c0 :: ?rest) _ _] =>
        change (done ++ c7 :: c6 :: c5 :: c4 :: c3 :: c2 :: c1 :: c0 :: rest)
          with (done ++ [c7; c6; c5; c4; c3; c2; c1; c0] ++ rest);
        pose proof (slice_app_middle done [c7; c6; c5; c4; c3; c2; c1; c0] rest)
          as Hs
    end.
    change (Py.len [bit_char b; bit_char b0; bit_char b1; bit_char b2;
                    bit_char b3; bit_char b4; bit_char b5; bit_char b6])
      with 8 in Hs.
    rewrite Hs.
    change [bit_char b; bit_char b0; bit_char b1; bit_char b2;
            bit_char b3; bit_char b4; bit_char b5; bit_char b6]
      with (map bit_char [b; b0; b1; b2; b3; b4; b5; b6]).
    rewrite int_bits by done. cbn [rbind].
    specialize (IH bs (done ++ map bit_char [b; b0; b1; b2; b3; b4; b5; b6])).
    rewrite <- app_assoc in IH.
    assert (Hidx :
      map (λ i : nat, Py.len done + Z.of_nat (S i) * 8) (seq 0 m)
      = map (λ i : nat,
               Py.len (done ++ map bit_char [b; b0; b1; b2; b3; b4; b5; b6])
               + Z.of_nat i * 8) (seq 0 m)).
    { apply map_ext. intros i. rewrite len_app.
      change (Py.len (map bit_char [b; b0; b1; b2; b3; b4; b5; b6])) with 8.
      lia. }
    rewrite Hidx. cbn [map app] in IH. cbn [map app].
    rewrite IH by (simpl in Hlen; lia). done.
Qed.

Lemma undigits_bound base ds :
  1 ≤ base → Forall (λ d, 0 ≤ d < base) ds →
  0 ≤ undigits base ds < base ^ Py.len ds.
Proof.
  intros Hb Hds. unfold undigits.
  assert (H : ∀ acc, 0 ≤ acc →
            0 ≤ fold_left (λ a d, a * base + d) ds acc
            < (acc + 1) * base ^ Py.len ds).
  { induction Hds as [|d ds Hd _ IH]; intros acc Hacc.
    - unfold Py.len. simpl. lia.
    - simpl. specialize (IH (acc * base + d) ltac:(nia)).
      replace (Py.len (d :: ds)) with (Z.succ (Py.len ds))
        by (unfold Py.len; simpl; lia).
      rewrite Z.pow_succ_r by apply len_nonneg.
      assert (0 < base ^ Py.len ds)
        by (apply Z.pow_pos_nonneg; [lia|apply len_nonneg]).
      nia. }
  specialize (H 0 ltac:(lia)). lia.
Qed.

Lemma byte_of_bits_range b7 b6 b5 b4 b3 b2 b1 b0 :
  0 ≤ byte_of_bits [b7; b6; b5; b4; b3; b2; b1; b0] < 256.
Proof.
  unfold byte_of_bits.
  change 256 with (2 ^ Py.len (map Z.b2z [b7; b6; b5; b4; b3; b2; b1; b0])).
  apply undigits_bound; [lia|].
  apply Forall_forall. intros d Hd. apply list_elem_of_In in Hd.
  apply in_map_iff in Hd as (b & <- & _). destruct b; simpl; lia.
Qed.

Lemma pack_bits_spec (m : nat) :
  ∀ bs, length bs = (8 * m)%nat →
        length (pack_bits bs) = m ∧ Forall (λ b, 0 ≤ b < 256) (pack_bits bs).
Proof.
  induction m as [|m IH]; intros bs Hlen.
  - destruct bs; [|discriminate Hlen]. split; [done|constructor].
  - do 8 (destruct bs as [|? bs]; [simpl in Hlen; lia|]).
    destruct (IH bs) as [Hl Hb]; [simpl in Hlen; lia|].
    cbn [pack_bits]. split.
    + simpl. by rewrite Hl.
    + constructor; [apply byte_of_bits_range|exact Hb].
Qed.

Lemma padded_rows_len rows stitches :
  Forall (λ row, Py.len row = stitches) rows →
  Py.len (padded_rows rows stitches)
  = Py.len rows * (row_padding stitches + stitches).
Proof.
  assert (Hpad : 0 ≤ row_padding stitches).
  { unfold row_padding. apply Z.mod_pos_bound. lia. }
  unfold padded_rows. induction 1 as [|row rows Hrow _ IH].
  - done.
  - cbn [map concat]. rewrite !len_app, IH.
    unfold Py.len in *. rewrite length_replicate, length_map. simpl length.
    lia.
Qed.

Lemma map_bit_char_replicate k :
  map bit_char (replicate k false) = replicate k "0"%char.
Proof. induction k as [|k IH]; simpl; [done|]. by rewrite IH. Qed.

Lemma len_concat_uniform {A} (s : Z) (l : list (list A)) :
  Forall (λ r, Py.len r = s) l → Py.len (concat l) = Py.len l * s.
Proof.
  induction 1 as [|r rs Hr _ IH]; [done|].
  cbn [concat]. rewrite len_app, IH, Hr. unfold Py.len. simpl length. lia.
Qed.

(** The bit string of [encode_image] after the row loop. *)
Lemma encode_rows_bits rows stitches :
  Forall (λ row, Py.len row = stitches) rows →
  let imgbits :=
    map (λ pixel : Z, if pixel >? 0 then "0"%char else "1"%char) (concat rows) in
  Py.len imgbits = Py.len rows * stitches
  ∧ fold_left (λ bits irow,
                 bits ++ Py.repeat ((- stitches) mod 4) "0"%char
                      ++ Py.slice imgbits irow (irow + stitches))
              (map (λ i : nat, 0 + Z.of_nat i * stitches)
                   (seq 0 (Z.to_nat (Py.len rows))))
              []
    = map bit_char (padded_rows rows stitches).
Proof.
  intros Hrows imgbits.
  set (crows := map (map (λ pixel, bit_char (bit_of_pixel pixel))) rows).
  assert (Himg : imgbits = concat crows).
  { unfold imgbits, crows. rewrite concat_map. f_equal.
    apply map_ext. intros row. apply map_ext. intros pixel.
    unfold bit_of_pixel. by destruct (pixel >? 0). }
  assert (Hcrows : Forall (λ r, Py.len r = stitches) crows).
  { unfold crows. apply Forall_forall. intros r Hr.
    apply list_elem_of_In, in_map_iff in Hr as (row & <- & Hin).
    rewrite Forall_forall in Hrows. unfold Py.len. rewrite length_map.
    apply Hrows. by apply list_elem_of_In. }
  assert (Hn : length crows = length rows) by (unfold crows; apply length_map).
  assert (Hpadeq : (- stitches) mod 4 = row_padding stitches).
  { unfold row_padding. div_lia. }
  split.
  - rewrite Himg, (len_concat_uniform stitches) by done.
    unfold Py.len. by rewrite Hn.
  - rewrite Himg. unfold Py.len at 1. rewrite Nat2Z.id, <- Hn.
    pose proof (fold_rows stitches (Py.repeat ((- stitches) mod 4) "0"%char)
                  crows Hcrows [] []) as Hfold.
    cbn [app] in Hfold. change (Py.len []) with 0 in Hfold.
    rewrite Hfold. unfold padded_rows, crows.
    rewrite concat_map, !map_map. f_equal. apply map_ext. intros row.
    rewrite map_app, map_bit_char_replicate, map_map, Hpadeq. done.
Qed.

(** C9: for a bitmap given as rows of [stitches > 0] pixels each, the
    encoder returns the bytes that the specification describes (each row's
    bits behind [(4 - stitches mod 4) mod 4] zero bits, the whole padded on
    the left with zero bits to a multiple of 8, packed most significant bit
    first, then [ceil(rows / 2)] zero memo bytes) together with the row and
    stitch counts as they were; the output has
    [ceil(rows * (stitches + padding) / 8) + ceil(rows / 2)] bytes. *)
Theorem encode_bitmap_spec (rows : list (list Z)) (stitches : Z) :
  0 < stitches →
  Forall (λ row, Py.len row = stitches) rows →
  encode_bitmap (concat rows) (Py.len rows) stitches
  = Ok (spec_encode rows stitches, Py.len rows, stitches)
  ∧ Py.len (spec_encode rows stitches)
    = ceil_div (Py.len rows * (stitches + row_padding stitches)) 8
      + ceil_div (Py.len rows) 2.
Proof.
  intros Hst Hrows.
  pose proof (len_nonneg rows) as Hnrows.
  assert (Hpad : 0 ≤ row_padding stitches).
  { unfold row_padding. apply Z.mod_pos_bound. lia. }
  destruct (encode_rows_bits rows stitches Hrows) as [Himg Hbits].
  pose proof (padded_rows_len rows stitches Hrows) as HL.
  set (padded := padded_rows rows stitches) in *.
  set (lead := (8 - Py.len padded mod 8) mod 8).
  set (total := replicate (Z.to_nat lead) false ++ padded).
  assert (Hlead : 0 ≤ lead < 8) by (apply Z.mod_pos_bound; lia).
  assert (Hleadeq : (- Py.len (map bit_char padded)) mod 8 = lead).
  { unfold Py.len. rewrite length_map. fold (Py.len padded).
    unfold lead. div_lia. }
  assert (Htotal : Py.len total = Py.len padded + lead).
  { unfold total. rewrite len_app. unfold Py.len.
    rewrite length_replicate. lia. }
  set (m := (Py.len padded + lead) / 8).
  assert (Hm : Py.len total = m * 8 ∧ 0 ≤ m).
  { rewrite Htotal. pose proof (len_nonneg padded).
    unfold m, lead in *. div_lia. }
  destruct Hm as [Hm Hm0].
  destruct (pack_bits_spec (Z.to_nat m) total) as [Hplen Hpbytes].
  { unfold Py.len in Hm. lia. }
  assert (Hres : spec_encode rows stitches
                 = pack_bits total
                   ++ replicate (Z.to_nat (ceil_div (Py.len rows) 2)) 0).
  { reflexivity. }
  split.
  - unfold encode_bitmap. rewrite Himg, range_multiple by lia.
    cbn [rbind]. rewrite Hbits, Hleadeq.
    assert (Hbits' : Py.repeat lead "0"%char ++ map bit_char padded
                     = map bit_char total).
    { unfold total, Py.repeat. by rewrite map_app, map_bit_char_replicate. }
    rewrite Hbits'.
    assert (Hlen' : Py.len (map bit_char total) = m * 8).
    { unfold Py.len. rewrite length_map. exact Hm. }
    rewrite Hlen', range_multiple by lia. cbn [rbind].
    pose proof (rmap_chunks (Z.to_nat m) total []) as Hchunks.
    cbn [app] in Hchunks. change (Py.len []) with 0 in Hchunks.
    rewrite Hchunks by (unfold Py.len in Hm; lia). cbn [rbind].
    unfold Py.repeat.
    replace ((Py.len rows + 1) / 2) with (ceil_div (Py.len rows) 2)
      by (unfold ceil_div; f_equal; lia).
    rewrite bytearray_bytes.
    + cbn [rbind]. by rewrite Hres.
    + apply Forall_app. split; [exact Hpbytes|].
      apply Forall_replicate. lia.
  - rewrite Hres, len_app. unfold Py.len at 1 2.
    rewrite Hplen, length_replicate.
    assert (Hc2 : 0 ≤ ceil_div (Py.len rows) 2).
    { unfold ceil_div. apply Z.div_pos; lia. }
    rewrite !Z2Nat.id by lia. f_equal.
    unfold m, ceil_div, lead. rewrite HL.
    replace (Py.len rows * (stitches + row_padding stitches))
      with (Py.len rows * (row_padding stitches + stitches)) by lia.
    generalize (Py.len rows * (row_padding stitches + stitches)). intros L.
    div_lia.
Qed.

Lemma encode_bitmap_spec_witness :
  encode_bitmap (concat [[0; 255; 0]; [0; 0; 255]]) (Py.len [[0; 255; 0]; [0; 0; 255]]) 3
  = Ok (spec_encode [[0; 255; 0]; [0; 0; 255]] 3, Py.len [[0; 255; 0]; [0; 0; 255]], 3)
  ∧ Py.len (spec_encode [[0; 255; 0]; [0; 0; 255]] 3)
    = ceil_div (Py.len [[0; 255; 0]; [0; 0; 255]] * (3 + row_padding 3)) 8
      + ceil_div (Py.len [[0; 255; 0]; [0; 0; 255]]) 2.
Proof.
  apply (encode_bitmap_spec [[0; 255; 0]; [0; 0; 255]] 3); [lia|].
  repeat constructor.
Defined.

Example spec_encode_3x2 : spec_encode [[0; 255; 0]; [0; 0; 255]] 3 = [0x56; 0].
Proof. vm_compute. reflexivity. Qed.

(** ** The free-memory invariant at the boundary *)

(** C4 at its boundary case: on a fresh Track, [free_mem()] is 1753; a
    pattern of exactly 1753 bytes is accepted and pattern number 901 is
    returned, after which [free_mem()] is -8 and the new empty directory
    entry (bytes 7 to 13) lies over the first bytes of the pattern just
    stored.  The largest pattern that [image2track] asks for,
    [free_mem() - 1] bytes, leaves [free_mem()] at -7. *)
Theorem free_mem_boundary :
  let pattern := replicate 1753 255 in
  let t' := snd (add_pattern pattern 1 1 new_Track) in
  let t'' := snd (add_pattern (replicate 1752 255) 1 1 new_Track) in
  fst (free_mem new_Track) = Ok 1753
  ∧ Py.len pattern = 1753
  ∧ fst (add_pattern pattern 1 1 new_Track) = Ok 901
  ∧ fst (free_mem t') = Ok (-8)
  ∧ Py.slice (data t') 7 14 = [0; 0; 0; 0; 0; 9; 2]
  ∧ Py.slice (data t') 14 16 = [255; 255]
  ∧ fst (add_pattern (replicate 1752 255) 1 1 new_Track) = Ok 901
  ∧ fst (free_mem t'') = Ok (-7).
Proof. vm_compute. repeat split; reflexivity. Qed.

(** The invariant does survive a call that leaves room for the slack byte
    and for a new directory entry. *)
Lemma free_mem_preserved
    (pattern : list Z) (nrows nstitches : Z) (t : Track) (A P pn : Z) (t' : Track) :
  layout_ok t A P →
  0 ≤ nrows < 1000 → 0 ≤ nstitches < 1000 →
  Py.len pattern + 1 + pgm_info_size ≤ P - A →
  add_pattern pattern nrows nstitches t = (Ok pn, t') →
  ∃ free, fst (free_mem t') = Ok free ∧ 0 ≤ free.
Proof.
  intros Hlay Hr Hs Hroom Hrun.
  pose proof (free_mem_layout t A P Hlay) as Hfree.
  unfold pgm_info_size in Hroom.
  destruct (add_pattern_fits pattern nrows nstitches t A P Hlay Hr Hs)
    as (locs & Hrange & [(e & _ & Hraise)|Hok]); [lia| |].
  { rewrite Hraise in Hrun. discriminate Hrun. }
  destruct Hok as (loc & pn' & info & info0 & Hfind & Hloc & Hslot & Hpn
                   & Hinfo & Hinfo0 & Hrun').
  rewrite Hrun' in Hrun. injection Hrun as -> <-.
  assert (HA : 0 ≤ A < 65536).
  { destruct Hlay as (_ & _ & _ & HAlo & HPhi & _).
    pose proof (len_nonneg pattern).
    unfold pattern_offset, size, pgm_info_size in *. lia. }
  destruct (program_info_ok A nrows nstitches pn) as
    (body & Hinfo' & Hlen & _); [lia..|].
  rewrite Hinfo in Hinfo'. injection Hinfo' as ->.
  destruct (program_info_ok 0 0 0 (pn + 1)) as (body0 & Hinfo0' & Hlen0 & _);
    [lia..|].
  rewrite Hinfo0 in Hinfo0'. injection Hinfo0' as ->.
  eexists. rewrite free_mem_run. cbn [fst data].
  rewrite stored_pgm_info_end, stored_available by (done || lia).
  cbn [rbind]. split; [reflexivity|].
  unfold pgm_info_size in *. destruct (_ =? _); lia.
Qed.

(** ** Sequential pattern numbers *)

(** C5 at row count 1000: the call on a fresh Track is accepted and
    returns 901, but the entry written is 8 bytes long, so no new empty
    entry is appended: the directory still ends after its first entry
    ([pgm_info_end()] is unchanged), that entry has a non-zero offset
    field, and no entry with a zero offset field follows; the next call
    ends in [BadError]. *)
Theorem wide_row_count_breaks_directory :
  let t' := snd (add_pattern [] 1000 1 new_Track) in
  program_info 288 1000 1 901 = Ok [1; 32; 1; 0; 0; 1; 9; 1]
  ∧ fst (add_pattern [] 1000 1 new_Track) = Ok 901
  ∧ fst (pgm_info_end new_Track) = Ok 2041
  ∧ fst (pgm_info_end t') = Ok 2041
  ∧ fst (get_word 0 t') = Ok 288
  ∧ fst (add_pattern [] 1 1 t') = Raise BadError.
Proof. vm_compute. repeat split; reflexivity. Qed.


(** *** Within the width of the fields, the numbering is sequential *)

Lemma index_slice {A} (l : list A) (a b i : Z) :
  0 ≤ a → b ≤ Py.len l → 0 ≤ i < b - a →
  Py.index (Py.slice l a b) i = Py.index l (a + i).
Proof.
  intros Ha Hb Hi. apply index_ext; [lia..|].
  unfold Py.slice, Py.clamp.
  destruct (Z.ltb_spec a 0); [lia|]. destruct (Z.ltb_spec b 0); [lia|].
  rewrite !Z.min_l by lia.
  rewrite lookup_take_lt, lookup_drop by lia. f_equal. lia.
Qed.

Lemma word_slice (l : list Z) (a b : Z) :
  0 ≤ a → a + 2 ≤ b → b ≤ Py.len l →
  word (Py.slice l a b) 0 = word l a.
Proof.
  intros Ha Hab Hb. unfold word.
  rewrite !index_slice by lia. by rewrite Z.add_0_r.
Qed.

Lemma word_entry_at t i :
  Py.len (data t) = size → 0 ≤ i → pgm_info_size * i + pgm_info_size ≤ size →
  word (entry_at t i) 0 = word (data t) (pgm_info_size * i).
Proof.
  unfold entry_at, size, pgm_info_size. intros Hlen Hi Hfit.
  apply word_slice; lia.
Qed.

(** The scan walks over the filled entries. *)
Lemma find_empty_skip t (m : nat) :
  ∀ (k : nat) rest,
    (∀ i, Z.of_nat k ≤ i < Z.of_nat k + Z.of_nat m →
          entry_pat_num (entry_at t i) = Ok (initial_pattern_number + i)
          ∧ ∃ w, word (data t) (pgm_info_size * i) = Ok w ∧ w ≠ 0) →
    find_empty (map (λ i : nat, 0 + Z.of_nat i * pgm_info_size) (seq k m) ++ rest)
               (initial_pattern_number + Z.of_nat k) t
    = find_empty rest (initial_pattern_number + Z.of_nat k + Z.of_nat m) t.
Proof.
  induction m as [|m IH]; intros k rest Hfilled.
  - simpl. f_equal. lia.
  - cbn [seq map app find_empty].
    destruct (Hfilled (Z.of_nat k) ltac:(lia)) as (Hp & w & Hw & Hw0).
    unfold entry_at in Hp.
    replace (0 + Z.of_nat k * pgm_info_size) with (pgm_info_size * Z.of_nat k)
      by lia.
    assert (Hpn : pat_num (pgm_info_size * Z.of_nat k) t
                  = (Ok (initial_pattern_number + Z.of_nat k), t)).
    { by rewrite pat_num_run, Hp. }
    step Hpn. rewrite Z.eqb_refl. cbv beta iota delta [negb].
    assert (Hgw : get_word (pgm_info_size * Z.of_nat k) t = (Ok w, t)).
    { by rewrite get_word_run, Hw. }
    step Hgw. destruct (Z.eqb_spec w 0); [done|].
    replace (initial_pattern_number + Z.of_nat k + 1)
      with (initial_pattern_number + Z.of_nat (S k)) by lia.
    rewrite IH.
    + f_equal. lia.
    + intros i Hi. apply Hfilled. lia.
Qed.

(** On a directory of [n] filled entries the scan stops at entry [n]; it
    accepts that entry unless the pattern number has reached 1000. *)
Lemma find_empty_directory t n locs :
  directory_ok t n →
  Py.range 0 (pgm_info_size * (n + 1)) pgm_info_size = Ok locs →
  find_empty locs initial_pattern_number t
  = if n <? 99
    then (Ok (pgm_info_size * n, initial_pattern_number + n), t)
    else (Raise BadError, t).
Proof.
  intros (Hn & (A & Hlay) & Hfilled & Hempty) Hrange.
  destruct Hlay as (Hlen & _ & _ & _ & _ & _).
  rewrite (Z.mul_comm pgm_info_size), range_multiple in Hrange
    by (unfold pgm_info_size; lia).
  injection Hrange as <-.
  replace (Z.to_nat (n + 1)) with (Z.to_nat n + 1)%nat by lia.
  rewrite seq_app, map_app. cbn [seq map].
  pose proof (find_empty_skip t (Z.to_nat n) 0
                [0 + Z.of_nat (0 + Z.to_nat n) * pgm_info_size]) as Hskip.
  rewrite Z.add_0_r in Hskip. rewrite Hskip.
  2:{ intros i Hi. apply Hfilled. lia. }
  replace (0 + Z.of_nat (0 + Z.to_nat n) * pgm_info_size)
    with (pgm_info_size * n) by (unfold pgm_info_size; lia).
  replace (initial_pattern_number + Z.of_nat (Z.to_nat n))
    with (initial_pattern_number + n) by lia.
  unfold initial_pattern_number in *.
  destruct (program_info_ok 0 0 0 (901 + n)) as (body & Hinfo & _ & _ & _ & Hpat);
    [lia..|].
  rewrite Hempty in Hinfo. injection Hinfo as Hentry.
  cbn [find_empty].
  assert (Hpn : pat_num (pgm_info_size * n) t = (Ok ((901 + n) mod 1000), t)).
  { rewrite pat_num_run. fold (entry_at t n). rewrite Hentry.
    f_equal. exact Hpat. }
  step Hpn.
  destruct (Z.ltb_spec n 99) as [Hlt|Hge].
  - rewrite Z.mod_small by lia. rewrite Z.eqb_refl.
    cbv beta iota delta [negb].
    assert (Hgw : get_word (pgm_info_size * n) t = (Ok 0, t)).
    { rewrite get_word_run, <- word_entry_at, Hentry
        by (unfold size, pgm_info_size in *; lia).
      reflexivity. }
    step Hgw. done.
  - assert (n = 99) as -> by lia. done.
Qed.

(** One accepted call on a directory of [n] filled entries returns
    [901 + n] and leaves a directory of [n + 1] filled entries. *)
Lemma directory_step
    (pattern : list Z) (nrows nstitches : Z) (t : Track) (n pn : Z) (t' : Track) :
  directory_ok t n →
  0 ≤ nrows < 1000 → 0 ≤ nstitches < 1000 →
  add_pattern pattern nrows nstitches t = (Ok pn, t') →
  pn = initial_pattern_number + n ∧ directory_ok t' (n + 1).
Proof.
  intros Hdir Hr Hs Hrun.
  pose proof Hdir as (Hn & (A & Hlay) & Hfilled & Hempty).
  set (P := size - pgm_info_size * (n + 1)) in *.
  pose proof (free_mem_layout t A P Hlay) as Hfree.
  assert (Hfits : Py.len pattern ≤ P - A).
  { destruct (add_pattern_guard pattern nrows nstitches t) as (body & _ & Hg).
    rewrite Hfree in Hg. simpl in Hg.
    destruct (Z.gtb_spec (Py.len pattern) (P - A)) as [Hgt|]; [|lia].
    rewrite Hg in Hrun. discriminate Hrun. }
  destruct (add_pattern_fits pattern nrows nstitches t A P Hlay Hr Hs Hfits)
    as (locs & Hrange & Hcases).
  assert (HsP : size - P = pgm_info_size * (n + 1)) by (unfold P; lia).
  rewrite HsP in Hrange.
  pose proof (find_empty_directory t n locs Hdir Hrange) as Hscan.
  destruct Hcases as [(e & _ & Hraise)|Hok].
  { rewrite Hraise in Hrun. discriminate Hrun. }
  destruct Hok as (loc & pn' & info & info0 & Hfind & Hloc & Hslot & Hpn
                   & Hinfo & Hinfo0 & Hrun').
  rewrite Hrun' in Hrun. injection Hrun as -> <-.
  rewrite Hfind in Hscan.
  destruct (Z.ltb_spec n 99) as [Hlt|]; [|discriminate Hscan].
  injection Hscan as -> ->.
  split; [done|].
  pose proof (len_nonneg pattern) as Hk.
  pose proof Hlay as (Hlen & HwA & HwP & HAlo & HPhi & Hmod).
  assert (HA : 0 ≤ A < 65536).
  { unfold pattern_offset, size in *. lia. }
  unfold initial_pattern_number in *.
  destruct (program_info_ok A nrows nstitches (901 + n)) as
    (body & Hinfo' & Hilen & _ & _ & Hipat); [lia..|].
  rewrite Hinfo in Hinfo'. injection Hinfo' as ->.
  destruct (program_info_ok 0 0 0 (901 + n + 1)) as
    (body0 & Hinfo0' & Hi0len & _); [lia..|].
  rewrite Hinfo0 in Hinfo0'. injection Hinfo0' as ->.
  set (info := be16 A ++ body) in *. set (info0 := be16 0 ++ body0) in *.
  assert (Hlast : pgm_info_size * n + pgm_info_size = size - P) by lia.
  set (d' := stored t A P pattern (pgm_info_size * n) info info0).
  assert (Hlen' : Py.len d' = size) by (by apply stored_len).
  assert (Hbefore : ∀ i, 0 ≤ i < n →
            entry_at {| data := d' |} i = entry_at t i).
  { intros i Hi. unfold entry_at. cbn [data].
    apply stored_before; try done; unfold pgm_info_size; lia. }
  change (directory_ok {| data := d' |} (n + 1)).
  unfold directory_ok, initial_pattern_number. split; [lia|]. split; [|split].
  - exists (A + Py.len pattern + 1). unfold layout_ok. cbn [data].
    split; [done|]. split; [by apply stored_available|].
    split.
    { unfold d'. rewrite stored_pgm_info_end by done.
      destruct (Z.eqb_spec (pgm_info_size * n + pgm_info_size) (size - P));
        [|lia].
      f_equal. unfold P. lia. }
    unfold pattern_offset, size, pgm_info_size in *.
    split; [lia|]. split; [lia|].
    replace (2048 - (2048 - 7 * (n + 1 + 1))) with ((n + 2) * 7) by lia.
    apply Z.mod_mul. lia.
  - intros i Hi. destruct (Z.eq_dec i n) as [Heq|Hne]; [subst i|].
    + assert (Hslot' : entry_at {| data := d' |} n = info).
      { unfold entry_at. cbn [data]. by apply stored_slot. }
      rewrite Hslot'. split.
      * rewrite Hipat. f_equal. apply Z.mod_small. lia.
      * exists A. split; [|unfold pattern_offset in *; lia].
        cbn [data].
        rewrite <- (word_entry_at {| data := d' |}), Hslot'
          by (cbn [data]; unfold size, pgm_info_size in *; lia || done).
        apply word_be16, HA.
    + destruct (Hfilled i ltac:(lia)) as (Hp & w & Hw & Hw0).
      rewrite Hbefore by lia. split; [done|].
      exists w. split; [|done]. cbn [data].
      rewrite <- (word_entry_at {| data := d' |}), Hbefore, word_entry_at
        by (cbn [data]; unfold size, pgm_info_size in *; lia || done).
      done.
  - replace (901 + (n + 1)) with (901 + n + 1) by lia.
    rewrite Hinfo0. f_equal. symmetry. unfold entry_at. cbn [data].
    replace (pgm_info_size * (n + 1)) with (size - P) by lia.
    by apply stored_new_entry.
Qed.

Lemma new_Track_directory : directory_ok new_Track 0.
Proof.
  split; [lia|]. split; [|split].
  - exists pattern_offset. exact new_Track_layout.
  - intros i Hi. lia.
  - vm_compute. reflexivity.
Qed.

(** Calls whose row and stitch counts have at most three digits. *)
Lemma add_patterns_sequential (calls : list (list Z * Z * Z)) :
  Forall (λ '(_, nrows, nstitches), 0 ≤ nrows < 1000 ∧ 0 ≤ nstitches < 1000)
         calls →
  ∀ (t : Track) (n : Z) (pns : list Z) (t' : Track),
    directory_ok t n →
    add_patterns calls t = (Ok pns, t') →
    pns = map (λ i : nat, initial_pattern_number + n + Z.of_nat i)
              (seq 0 (length calls))
    ∧ directory_ok t' (n + Py.len calls).
Proof.
  induction 1 as [|[[pattern nrows] nstitches] calls [Hr Hs] _ IH];
    intros t n pns t' Hdir Hrun.
  - injection Hrun as <- <-. split; [done|].
    unfold Py.len. simpl. by rewrite Z.add_0_r.
  - cbn [add_patterns] in Hrun. unfold bind at 1 in Hrun.
    destruct (add_pattern pattern nrows nstitches t) as [[pn|e] t1] eqn:Hadd;
      [|discriminate Hrun].
    destruct (directory_step _ _ _ _ _ _ _ Hdir Hr Hs Hadd) as [-> Hdir1].
    unfold bind at 1 in Hrun.
    destruct (add_patterns calls t1) as [[pns1|e] t2] eqn:Hrest;
      [|discriminate Hrun].
    injection Hrun as <- <-.
    destruct (IH _ _ _ _ Hdir1 Hrest) as [-> Hdir2].
    split.
    + cbn [length seq map]. rewrite Z.add_0_r. f_equal.
      rewrite seq_shift_map. apply map_ext. intros i. lia.
    + replace (n + Py.len ((pattern, nrows, nstitches) :: calls))
        with (n + 1 + Py.len calls) by (unfold Py.len; simpl length; lia).
      exact Hdir2.
Qed.

(** X21: after [n] accepted calls on a fresh Track, all with row and stitch
    counts of at most three digits, the calls have returned 901, ...,
    900 + n, the directory region holds [n + 1] entries, the first [n] of
    them with a non-zero offset field and the pattern numbers 901, ...,
    900 + n in order, the last one empty. *)
Lemma fresh_Track_sequential (calls : list (list Z * Z * Z)) pns t' :
  Forall (λ '(_, nrows, nstitches), 0 ≤ nrows < 1000 ∧ 0 ≤ nstitches < 1000)
         calls →
  add_patterns calls new_Track = (Ok pns, t') →
  let n := Py.len calls in
  pns = map (λ i : nat, 901 + Z.of_nat i) (seq 0 (length calls))
  ∧ fst (pgm_info_end t') = Ok (size - pgm_info_size * (n + 1))
  ∧ (∀ i, 0 ≤ i < n →
          fst (pat_num (pgm_info_size * i) t') = Ok (901 + i)
          ∧ ∃ w, fst (get_word (pgm_info_size * i) t') = Ok w ∧ w ≠ 0)
  ∧ fst (get_word (pgm_info_size * n) t') = Ok 0
  ∧ decode_entry (entry_at t' n) = (0, 0, 0, 901 + n).
Proof.
  intros Hcalls Hrun n.
  destruct (add_patterns_sequential calls Hcalls _ 0 _ _ new_Track_directory Hrun)
    as [Hpns Hdir].
  rewrite Z.add_0_l in Hdir. fold n in Hdir.
  destruct Hdir as (Hn & (A & Hlay) & Hfilled & Hempty).
  pose proof Hlay as (Hlen & _ & HP & _).
  unfold initial_pattern_number in *.
  split; [rewrite Hpns; apply map_ext; intros i; lia|].
  split; [unfold pgm_info_end; by rewrite get_word_run, HP|].
  split.
  { intros i Hi. destruct (Hfilled i Hi) as (Hp & w & Hw & Hw0).
    rewrite pat_num_run, get_word_run. cbn [fst]. split; [exact Hp|].
    by exists w. }
  destruct (program_info_ok 0 0 0 (901 + n)) as
    (body & Hinfo & _ & _ & Hdec & _); [lia..|].
  rewrite Hempty in Hinfo. injection Hinfo as Hentry.
  split.
  - rewrite get_word_run. cbn [fst].
    rewrite <- word_entry_at, Hentry
      by (unfold size, pgm_info_size in *; lia || done).
    reflexivity.
  - rewrite Hentry. exact Hdec.
Qed.

Lemma fresh_Track_sequential_witness :
  let t' := snd (add_patterns [([1; 2], 1, 4); ([3], 2, 3)] new_Track) in
  let n := Py.len [([1; 2], 1, 4); ([3], 2, 3)] in
  [901; 902] = map (λ i : nat, 901 + Z.of_nat i) (seq 0 2)
  ∧ fst (pgm_info_end t') = Ok (size - pgm_info_size * (n + 1))
  ∧ (∀ i, 0 ≤ i < n →
          fst (pat_num (pgm_info_size * i) t') = Ok (901 + i)
          ∧ ∃ w, fst (get_word (pgm_info_size * i) t') = Ok w ∧ w ≠ 0)
  ∧ fst (get_word (pgm_info_size * n) t') = Ok 0
  ∧ decode_entry (entry_at t' n) = (0, 0, 0, 901 + n).
Proof.
  intros t'.
  apply (fresh_Track_sequential [([1; 2], 1, 4); ([3], 2, 3)] [901; 902] t').
  - repeat constructor; lia.
  - vm_compute. reflexivity.
Defined.

Example three_patterns :
  fst (add_patterns [([1; 2], 1, 4); ([], 0, 0); ([3], 999, 200)] new_Track)
  = Ok [901; 902; 903].
Proof. vm_compute. reflexivity. Qed.


(** * Further properties of the code *)

(** ** pack_nibbles on sequences of any length *)

Lemma index_app_at {A} (pre : list A) (x : A) (post : list A) :
  Py.index (pre ++ x :: post) (Py.len pre) = Ok x.
Proof.
  rewrite index_lookup by apply len_nonneg. unfold Py.len.
  rewrite Nat2Z.id, lookup_app_r, Nat.sub_diag by lia. done.
Qed.

Lemma pack_pairs_spec (m : nat) :
  ∀ (l pre : list Z),
    length l = (2 * m)%nat →
    pack_pairs (pre ++ l) (map (λ i : nat, Py.len pre + Z.of_nat i * 2) (seq 0 m))
    = Ok (pairs_spec l).
Proof.
  induction m as [|m IH]; intros l pre Hlen.
  - destruct l; [done|discriminate Hlen].
  - destruct l as [|hi [|lo l]]; [simpl in Hlen; lia..|].
    change (seq 0 (S m)) with (0%nat :: seq 1 m).
    cbn [map pack_pairs]. rewrite seq_shift_map, Z.add_0_r.
    rewrite index_app_at.
    replace (pre ++ hi :: lo :: l) with ((pre ++ [hi]) ++ lo :: l)
      by (by rewrite <- app_assoc).
    replace (Py.len pre + 1) with (Py.len (pre ++ [hi]))
      by (rewrite len_app; reflexivity).
    rewrite index_app_at. cbn [rbind].
    replace ((pre ++ [hi]) ++ lo :: l) with ((pre ++ [hi; lo]) ++ l)
      by (by rewrite <- !app_assoc).
    assert (Hidx :
      map (λ i : nat, Py.len pre + Z.of_nat (S i) * 2) (seq 0 m)
      = map (λ i : nat, Py.len (pre ++ [hi; lo]) + Z.of_nat i * 2) (seq 0 m)).
    { apply map_ext. intros i. rewrite len_app.
      change (Py.len [hi; lo]) with 2. lia. }
    rewrite Hidx, IH by (simpl in Hlen; lia). done.
Qed.

(** [pack_nibbles] is [bytearray] of the pairs, after a zero nibble put in
    front of a sequence of odd length. *)
Lemma pack_nibbles_eq (nibbles : list Z) :
  pack_nibbles nibbles
  = Py.bytearray (pairs_spec (Py.repeat (Py.len nibbles mod 2) 0 ++ nibbles)).
Proof.
  unfold pack_nibbles.
  set (L := Py.len nibbles). pose proof (len_nonneg nibbles) as HL. fold L in HL.
  set (padded := Py.repeat (L mod 2) 0 ++ nibbles).
  set (m := (L + 1) / 2).
  assert (Hm : 0 ≤ m ∧ Py.len padded = 2 * m).
  { unfold padded, Py.repeat. rewrite len_app. fold L. unfold Py.len at 1.
    rewrite length_replicate. unfold m. div_lia. }
  destruct Hm as [Hm0 Hpad].
  assert (Hrange : Py.range 0 L 2
            = Ok (map (λ i : nat, 0 + Z.of_nat i * 2) (seq 0 (Z.to_nat m)))).
  { unfold Py.range, Py.range_len. simpl Z.eqb. cbv iota.
    change (0 <? 2) with true. cbv iota.
    replace (L - 0 + 2 - 1) with (L + 1) by lia. done. }
  rewrite Hrange. cbn [rbind].
  pose proof (pack_pairs_spec (Z.to_nat m) padded []) as Hpairs.
  cbn [app] in Hpairs. change (Py.len []) with 0 in Hpairs.
  rewrite Hpairs by (unfold Py.len in Hpad; lia). done.
Qed.

Lemma nibbles_pack16 a b :
  0 ≤ a < 16 → 0 ≤ b < 16 →
  0 ≤ Z.shiftl a 4 + b < 256
  ∧ hi_nibble (Z.shiftl a 4 + b) = a ∧ lo_nibble (Z.shiftl a 4 + b) = b.
Proof.
  intros Ha Hb. rewrite Z.shiftl_mul_pow2 by lia. change (2 ^ 4) with 16.
  split; [lia|].
  destruct (nibbles_div_mod (a * 16 + b)) as [-> ->]; [lia|]. split.
  - rewrite Z.div_add_l, (Z.div_small b) by lia. lia.
  - rewrite (Z.add_comm (a * 16)), Z.mod_add by lia. apply Z.mod_small. lia.
Qed.

Lemma pairs_spec_nibbles (m : nat) :
  ∀ l, length l = (2 * m)%nat → Forall (λ d, 0 ≤ d < 16) l →
       length (pairs_spec l) = m
       ∧ Forall (λ b, 0 ≤ b < 256) (pairs_spec l)
       ∧ nibbles_of (pairs_spec l) = l.
Proof.
  induction m as [|m IH]; intros l Hlen Hl.
  - destruct l; [|discriminate Hlen]. repeat split. constructor.
  - destruct l as [|hi [|lo l]]; [simpl in Hlen; lia..|].
    apply Forall_cons in Hl as [Hhi Hl]. apply Forall_cons in Hl as [Hlo Hl].
    destruct (IH l) as (Hn & Hb & Hr); [simpl in Hlen; lia|done|].
    destruct (nibbles_pack16 hi lo Hhi Hlo) as (Hbyte & Hh & Hlw).
    cbn [pairs_spec]. split; [simpl; by rewrite Hn|]. split.
    + by constructor.
    + unfold nibbles_of in *. cbn [map concat app]. by rewrite Hh, Hlw, Hr.
Qed.

Lemma pack_nibbles_ok (nibbles : list Z) :
  Forall (λ d, 0 ≤ d < 16) nibbles →
  ∃ bytes,
    pack_nibbles nibbles = Ok bytes
    ∧ Py.len bytes = ceil_div (Py.len nibbles) 2
    ∧ Forall (λ b, 0 ≤ b < 256) bytes
    ∧ nibbles_of bytes = Py.repeat (Py.len nibbles mod 2) 0 ++ nibbles.
Proof.
  intros Hn. rewrite pack_nibbles_eq.
  set (L := Py.len nibbles). pose proof (len_nonneg nibbles) as HL. fold L in HL.
  set (padded := Py.repeat (L mod 2) 0 ++ nibbles).
  assert (Hlen : Py.len padded = 2 * ceil_div L 2 ∧ 0 ≤ ceil_div L 2).
  { unfold padded, Py.repeat, ceil_div. rewrite len_app. fold L.
    unfold Py.len at 1. rewrite length_replicate. div_lia. }
  destruct Hlen as [Hlen Hc].
  destruct (pairs_spec_nibbles (Z.to_nat (ceil_div L 2)) padded)
    as (Hm & Hb & Hr).
  { unfold Py.len in Hlen. lia. }
  { apply Forall_app. split; [apply Forall_replicate; lia|done]. }
  exists (pairs_spec padded). rewrite bytearray_bytes by done.
  split; [done|]. split; [unfold Py.len; lia|]. done.
Qed.

(** X1: on nibbles (values 0 to 15) [pack_nibbles] succeeds with
    [ceil(len / 2)] bytes, and unpacking the bytes, high nibble first, gives
    the nibbles back, behind one zero nibble when their number is odd. *)
Theorem pack_nibbles_round_trip (nibbles : list Z) :
  Forall (λ d, 0 ≤ d < 16) nibbles →
  ∃ bytes,
    pack_nibbles nibbles = Ok bytes
    ∧ Py.len bytes = ceil_div (Py.len nibbles) 2
    ∧ Forall (λ b, 0 ≤ b < 256) bytes
    ∧ nibbles_of bytes = Py.repeat (Py.len nibbles mod 2) 0 ++ nibbles.
Proof. exact (pack_nibbles_ok nibbles). Qed.

Lemma pack_nibbles_round_trip_witness :
  ∃ bytes,
    pack_nibbles [1; 10; 15] = Ok bytes
    ∧ Py.len bytes = ceil_div (Py.len [1; 10; 15]) 2
    ∧ Forall (λ b, 0 ≤ b < 256) bytes
    ∧ nibbles_of bytes = Py.repeat (Py.len [1; 10; 15] mod 2) 0 ++ [1; 10; 15].
Proof.
  apply (pack_nibbles_round_trip [1; 10; 15]).
  repeat constructor; lia.
Defined.

Example pack_nibbles_odd : pack_nibbles [1; 10; 15] = Ok [0x01; 0xAF].
Proof. reflexivity. Qed.

(** ** Words in the buffer *)

Lemma two_bytes_out_of_range w :
  ¬ (0 ≤ w < 65536) → two_bytes w = Raise Exception.
Proof.
  intros Hw. unfold two_bytes. change (Z.shiftl 1 16) with 65536.
  destruct (Z.leb_spec 0 w), (Z.ltb_spec w 65536); simpl; try done. lia.
Qed.

(** X2: [set_word] followed by [get_word] at the same location gives the
    word back, for a 16-bit word stored within the buffer; the buffer keeps
    its length and every byte but the two of the word.  A word outside of
    [0, 65536) makes [set_word] raise [Exception] and leaves the buffer as
    it was. *)
Theorem set_word_get_word (loc w : Z) (t : Track) :
  0 ≤ loc → loc + 2 ≤ Py.len (data t) →
  (0 ≤ w < 65536 →
   let t' := snd (set_word loc w t) in
   fst (set_word loc w t) = Ok tt
   ∧ get_word loc t' = (Ok w, t')
   ∧ Py.len (data t') = Py.len (data t)
   ∧ ∀ i, 0 ≤ i → i < loc ∨ loc + 2 ≤ i →
          Py.index (data t') i = Py.index (data t) i)
  ∧ (¬ (0 ≤ w < 65536) → set_word loc w t = (Raise Exception, t)).
Proof.
  intros Hloc Hfit. split.
  - intros Hw. rewrite set_word_within by done. cbn [fst snd].
    split; [done|]. rewrite get_word_run. cbn [data].
    rewrite word_patch_in by done.
    split; [done|]. split.
    + apply len_patch; rewrite ?len_be16; lia.
    + intros i Hi Hout. apply index_patch_out; rewrite ?len_be16; lia.
  - intros Hw. unfold set_word, bind, lift.
    by rewrite two_bytes_out_of_range.
Qed.

Lemma set_word_get_word_witness :
  (0 ≤ 0x1234 < 65536 →
   let t' := snd (set_word 10 0x1234 blank) in
   fst (set_word 10 0x1234 blank) = Ok tt
   ∧ get_word 10 t' = (Ok 0x1234, t')
   ∧ Py.len (data t') = Py.len (data blank)
   ∧ ∀ i, 0 ≤ i → i < 10 ∨ 10 + 2 ≤ i →
          Py.index (data t') i = Py.index (data blank) i)
  ∧ (¬ (0 ≤ 0x1234 < 65536) → set_word 10 0x1234 blank = (Raise Exception, blank)).
Proof.
  apply (set_word_get_word 10 0x1234 blank); [lia|].
  vm_compute. discriminate.
Defined.

(** ** set_bytes at a location counted from the start *)

Lemma slice_assign_len (l : list Z) (a : Z) (seq : list Z) :
  Py.len l ≤ Py.len (Py.slice_assign l a (a + Py.len seq) seq)
  ∧ (0 ≤ a →
     Py.len (Py.slice_assign l a (a + Py.len seq) seq)
     = Z.max (Py.len l) (Z.min a (Py.len l) + Py.len seq)).
Proof.
  unfold Py.slice_assign, Py.clamp, Py.len.
  rewrite !length_app, !length_take, !length_drop.
  destruct (Z.ltb_spec a 0), (Z.ltb_spec (a + Z.of_nat (length seq)) 0); lia.
Qed.

(** X3: [set_bytes] with a sequence of bytes never raises and never
    shortens the buffer, wherever it writes.  At a location [0 ≤ loc] the
    length becomes [max(len, min(loc, len) + len(seq))]: a write that runs
    past the end extends the buffer, and one that starts past the end
    appends. *)
Theorem set_bytes_length (location : Z) (seq : list Z) (t : Track) :
  Forall (λ b, 0 ≤ b < 256) seq →
  let t' := snd (set_bytes location seq t) in
  fst (set_bytes location seq t) = Ok tt
  ∧ Py.len (data t) ≤ Py.len (data t')
  ∧ (0 ≤ location →
     Py.len (data t')
     = Z.max (Py.len (data t))
             (Z.min location (Py.len (data t)) + Py.len seq)).
Proof.
  intros _. rewrite set_bytes_run. cbn [fst snd data]. split; [done|].
  apply slice_assign_len.
Qed.

Lemma set_bytes_length_witness :
  let t' := snd (set_bytes 2045 [1; 2; 3; 4; 5; 6; 7] blank) in
  fst (set_bytes 2045 [1; 2; 3; 4; 5; 6; 7] blank) = Ok tt
  ∧ Py.len (data blank) ≤ Py.len (data t')
  ∧ (0 ≤ 2045 →
     Py.len (data t')
     = Z.max (Py.len (data blank))
             (Z.min 2045 (Py.len (data blank)) + Py.len [1; 2; 3; 4; 5; 6; 7])).
Proof.
  apply (set_bytes_length 2045 [1; 2; 3; 4; 5; 6; 7] blank).
  repeat constructor; lia.
Defined.

Example set_bytes_past_end :
  Py.len (data (snd (set_bytes 2045 [1; 2; 3; 4; 5; 6; 7] blank))) = 2052
  ∧ Py.len (data (snd (set_bytes 3000 [1; 2] blank))) = 2050.
Proof. vm_compute. done. Qed.

(** X4: at a location [0 ≤ loc] with [loc + len(seq)] within the buffer,
    [set_bytes] stores [seq] at the positions [loc, loc + len(seq)) and
    changes nothing else; reading the slice back gives [seq]. *)
Theorem set_bytes_from_start (loc : Z) (seq : list Z) (t : Track) :
  0 ≤ loc → loc + Py.len seq ≤ Py.len (data t) →
  let t' := snd (set_bytes loc seq t) in
  Py.len (data t') = Py.len (data t)
  ∧ Py.slice (data t') loc (loc + Py.len seq) = seq
  ∧ (∀ i, 0 ≤ i < Py.len seq →
          Py.index (data t') (loc + i) = Py.index seq i)
  ∧ (∀ j, 0 ≤ j → j < loc ∨ loc + Py.len seq ≤ j →
          Py.index (data t') j = Py.index (data t) j).
Proof.
  intros Hloc Hfit. rewrite set_bytes_within by done. cbn [snd data].
  split; [by apply len_patch|]. split; [by apply slice_patch_in|]. split.
  - intros i Hi. by apply index_patch_in.
  - intros j Hj Hout. by apply index_patch_out.
Qed.

Lemma set_bytes_from_start_witness :
  let t' := snd (set_bytes 5 [1; 2] blank) in
  Py.len (data t') = Py.len (data blank)
  ∧ Py.slice (data t') 5 (5 + Py.len [1; 2]) = [1; 2]
  ∧ (∀ i, 0 ≤ i < Py.len [1; 2] →
          Py.index (data t') (5 + i) = Py.index [1; 2] i)
  ∧ (∀ j, 0 ≤ j → j < 5 ∨ 5 + Py.len [1; 2] ≤ j →
          Py.index (data t') j = Py.index (data blank) j).
Proof.
  apply (set_bytes_from_start 5 [1; 2] blank); [lia|].
  vm_compute. discriminate.
Defined.

(** ** set_selector *)

Lemma free_mem_word t t' :
  word (data t') pgm_info_end_loc = word (data t) pgm_info_end_loc →
  word (data t') available_loc = word (data t) available_loc →
  fst (free_mem t') = fst (free_mem t).
Proof. intros HP HA. rewrite !free_mem_run. cbn [fst]. by rewrite HP, HA. Qed.

(** X5: for selector 1 or 2, on a 2048-byte buffer, [set_selector] stores
    the selector in the high nibble of byte 0x7EA and zero in the other
    three nibbles of bytes 0x7EA and 0x7EB, whatever [position] and
    [copies] are; every other byte, and with them [free_mem()], stay as
    they were.  Any other selector raises [Exception] and leaves the Track
    unchanged. *)
Theorem set_selector_spec (selector position copies : Z) (t : Track) :
  Py.len (data t) = size →
  (selector = 1 ∨ selector = 2 →
   let t' := snd (set_selector selector position copies t) in
   fst (set_selector selector position copies t) = Ok tt
   ∧ Py.len (data t') = size
   ∧ Py.index (data t') 0x7EA = Ok (16 * selector)
   ∧ Py.index (data t') 0x7EB = Ok 0
   ∧ (∀ i, 0 ≤ i → i < 0x7EA ∨ 0x7EC ≤ i →
           Py.index (data t') i = Py.index (data t) i)
   ∧ fst (free_mem t') = fst (free_mem t))
  ∧ (selector ≠ 1 → selector ≠ 2 →
     set_selector selector position copies t = (Raise Exception, t)).
Proof.
  unfold size. intros Hlen. split.
  - intros Hsel.
    assert (Hpack : pack_nibbles ([selector] ++ to_bcd 0 3)
                    = Ok [16 * selector; 0]).
    { destruct Hsel as [-> | ->]; reflexivity. }
    assert (Hrun : set_selector selector position copies t
                   = (Ok tt, {| data := patch 0x7EA [16 * selector; 0] (data t) |})).
    { unfold set_selector.
      replace ((selector =? 1) || (selector =? 2)) with true
        by (destruct Hsel as [-> | ->]; reflexivity).
      cbv beta iota delta [negb].
      assert (Hl : lift (pack_nibbles ([selector] ++ to_bcd 0 3)) t
                   = (Ok [16 * selector; 0], t)) by (unfold lift; by rewrite Hpack).
      step Hl.
      rewrite (bind_ok _ _ _ _ _
                 (set_bytes_within t 0x7EA [16 * selector; 0] ltac:(lia)
                    ltac:(rewrite Hlen; unfold Py.len; simpl; lia))).
      reflexivity. }
    rewrite Hrun. cbn [fst snd data].
    assert (Hfit : 0x7EA + Py.len [16 * selector; 0] ≤ Py.len (data t)).
    { rewrite Hlen. unfold Py.len. simpl. lia. }
    split; [done|]. split; [rewrite len_patch; lia|].
    split.
    { rewrite <- (Z.add_0_r 0x7EA) at 2.
      rewrite index_patch_in by (done || unfold Py.len; simpl; lia). done. }
    split.
    { change 0x7EB with (0x7EA + 1).
      rewrite index_patch_in by (done || unfold Py.len; simpl; lia). done. }
    split.
    { intros i Hi Hout.
      apply index_patch_out; try done; unfold Py.len; simpl length; lia. }
    apply free_mem_word; cbn [data];
      apply word_patch_out; try done;
      unfold pgm_info_end_loc, available_loc, Py.len; simpl length; lia.
  - intros H1 H2. unfold set_selector.
    destruct (Z.eqb_spec selector 1); [done|].
    destruct (Z.eqb_spec selector 2); [done|]. reflexivity.
Qed.

Lemma set_selector_spec_witness :
  (2 = 1 ∨ 2 = 2 →
   let t' := snd (set_selector 2 100 1 new_Track) in
   fst (set_selector 2 100 1 new_Track) = Ok tt
   ∧ Py.len (data t') = size
   ∧ Py.index (data t') 0x7EA = Ok (16 * 2)
   ∧ Py.index (data t') 0x7EB = Ok 0
   ∧ (∀ i, 0 ≤ i → i < 0x7EA ∨ 0x7EC ≤ i →
           Py.index (data t') i = Py.index (data new_Track) i)
   ∧ fst (free_mem t') = fst (free_mem new_Track))
  ∧ (2 ≠ 1 → 2 ≠ 2 →
     set_selector 2 100 1 new_Track = (Raise Exception, new_Track)).
Proof.
  apply (set_selector_spec 2 100 1 new_Track). vm_compute. reflexivity.
Defined.


(** ** What pat_num can do *)

Lemma len_slice {A} (l : list A) (a b : Z) :
  0 ≤ a ≤ b →
  Py.len (Py.slice l a b) = Z.min b (Py.len l) - Z.min a (Py.len l).
Proof.
  intros Hab. unfold Py.slice, Py.clamp.
  destruct (Z.ltb_spec a 0); [lia|]. destruct (Z.ltb_spec b 0); [lia|].
  unfold Py.len. rewrite length_take, length_drop. lia.
Qed.

Lemma Forall_slice {A} (P : A → Prop) (l : list A) (a b : Z) :
  Forall P l → Forall P (Py.slice l a b).
Proof. intros Hl. unfold Py.slice. by apply Forall_take, Forall_drop. Qed.

Lemma char_digit_hex d :
  10 ≤ d ≤ 15 → Py.char_digit 10 (Py.digit_char d) = None.
Proof. intros Hd. enum_digit d; try lia; reflexivity. Qed.

Lemma nibble_range b :
  0 ≤ b < 256 → 0 ≤ hi_nibble b ≤ 15 ∧ 0 ≤ lo_nibble b ≤ 15.
Proof.
  intros Hb. destruct (nibbles_div_mod b) as [-> ->]; [lia|]. div_lia.
Qed.

(** The decimal reading of three hexadecimal digits. *)
Lemma int_three_nibbles d1 d2 d3 :
  0 ≤ d1 ≤ 15 → 0 ≤ d2 ≤ 15 → 0 ≤ d3 ≤ 15 →
  Py.int [Py.digit_char d1; Py.digit_char d2; Py.digit_char d3] 10
  = if (d1 <=? 9) && (d2 <=? 9) && (d3 <=? 9)
    then Ok (d1 * 100 + d2 * 10 + d3)
    else Raise ValueError.
Proof.
  intros H1 H2 H3. unfold Py.int, Py.parse_digits.
  destruct (Z.leb_spec d1 9); [|by rewrite char_digit_hex by lia].
  rewrite (char_digit_digit_char 10 d1) by lia.
  destruct (Z.leb_spec d2 9); [|by rewrite char_digit_hex by lia].
  rewrite (char_digit_digit_char 10 d2) by lia.
  destruct (Z.leb_spec d3 9); [|by rewrite char_digit_hex by lia].
  rewrite (char_digit_digit_char 10 d3) by lia.
  simpl. f_equal. lia.
Qed.

(** X6: on a buffer of bytes, [pat_num(loc)] for [loc ≥ 0] raises
    [TypeError] when fewer than 7 bytes are left from [loc] on; otherwise
    it looks at the low nibble of byte [loc + 5] and the two nibbles of byte
    [loc + 6] only: it returns their decimal reading when all three are
    decimal digits and raises [ValueError] when one of them is a
    hexadecimal digit A to F.  It never changes the buffer. *)
Theorem pat_num_outcomes (loc : Z) (t : Track) :
  Forall (λ b, 0 ≤ b < 256) (data t) → 0 ≤ loc →
  snd (pat_num loc t) = t
  ∧ (Py.len (data t) < loc + pgm_info_size →
     fst (pat_num loc t) = Raise TypeError)
  ∧ (loc + pgm_info_size ≤ Py.len (data t) →
     ∃ b5 b6,
       Py.index (data t) (loc + 5) = Ok b5
       ∧ Py.index (data t) (loc + 6) = Ok b6
       ∧ fst (pat_num loc t)
         = if (lo_nibble b5 <=? 9) && (hi_nibble b6 <=? 9)
              && (lo_nibble b6 <=? 9)
           then Ok (lo_nibble b5 * 100 + hi_nibble b6 * 10 + lo_nibble b6)
           else Raise ValueError).
Proof.
  intros Hbytes Hloc. rewrite pat_num_run. cbn [fst snd].
  unfold pgm_info_size.
  pose proof (len_slice (data t) loc (loc + 7) ltac:(lia)) as Hlen.
  pose proof (len_nonneg (data t)) as Hn.
  split; [done|]. split.
  - intros Hshort. unfold entry_pat_num, format_hex, pgm_info_size.
    destruct (Z.eqb_spec (Py.len (Py.slice (data t) loc (loc + 7))) 7); [lia|].
    done.
  - intros Hfit.
    assert (Hlen7 : Py.len (Py.slice (data t) loc (loc + 7)) = 7) by lia.
    pose proof (Forall_slice _ (data t) loc (loc + 7) Hbytes) as Hsl.
    pose proof (index_slice (data t) loc (loc + 7) 5 Hloc Hfit ltac:(lia)) as H5.
    pose proof (index_slice (data t) loc (loc + 7) 6 Hloc Hfit ltac:(lia)) as H6.
    destruct (list_len7 _ Hlen7) as (b0 & b1 & b2 & b3 & b4 & b5 & b6 & Heq).
    rewrite Heq in *. exists b5, b6.
    split; [by rewrite <- H5|]. split; [by rewrite <- H6|].
    assert (Hb5 : 0 ≤ b5 < 256 ∧ 0 ≤ b6 < 256).
    { rewrite !Forall_cons in Hsl. tauto. }
    destruct (nibble_range b5) as [_ R5]; [lia|].
    destruct (nibble_range b6) as [R6h R6l]; [lia|].
    unfold entry_pat_num. rewrite format_hex_entry by done. cbn [rbind].
    change (Py.int [Py.digit_char (lo_nibble b5); Py.digit_char (hi_nibble b6);
                    Py.digit_char (lo_nibble b6)] 10 = 
            if (lo_nibble b5 <=? 9) && (hi_nibble b6 <=? 9)
               && (lo_nibble b6 <=? 9)
            then Ok (lo_nibble b5 * 100 + hi_nibble b6 * 10 + lo_nibble b6)
            else Raise ValueError).
    by apply int_three_nibbles.
Qed.

Lemma pat_num_outcomes_witness :
  snd (pat_num 0 new_Track) = new_Track
  ∧ (Py.len (data new_Track) < 0 + pgm_info_size →
     fst (pat_num 0 new_Track) = Raise TypeError)
  ∧ (0 + pgm_info_size ≤ Py.len (data new_Track) →
     ∃ b5 b6,
       Py.index (data new_Track) (0 + 5) = Ok b5
       ∧ Py.index (data new_Track) (0 + 6) = Ok b6
       ∧ fst (pat_num 0 new_Track)
         = if (lo_nibble b5 <=? 9) && (hi_nibble b6 <=? 9)
              && (lo_nibble b6 <=? 9)
           then Ok (lo_nibble b5 * 100 + hi_nibble b6 * 10 + lo_nibble b6)
           else Raise ValueError).
Proof.
  apply (pat_num_outcomes 0 new_Track); [|lia].
  apply Forall_forall. intros b Hb. apply list_elem_of_In in Hb.
  assert (Hall : forallb Py.is_byte (data new_Track) = true)
    by (vm_compute; reflexivity).
  rewrite forallb_forall in Hall. specialize (Hall b Hb).
  unfold Py.is_byte in Hall. lia.
Defined.

Example pat_num_hex_nibble :
  entry_pat_num [0; 0; 0; 0; 0; 0x09; 0x0A] = Raise ValueError
  ∧ structured_pat_num [0; 0; 0; 0; 0; 0x09; 0x0A] = Ok 910.
Proof. vm_compute. done. Qed.

(** ** Track.write: the data files, and track numbers that do not fit *)

(** X7: whatever the track number, [Track.write] first writes [N.dat] and
    [(N+1).dat], [N = (T-1)*2]; the two contents put together are the
    buffer, and each is 1024 bytes long when the buffer has its 2048
    bytes. *)
Theorem write_dat_files
    (path_join : list ascii → list ascii → list ascii)
    (sector_path : list ascii) (T : Z) (t : Track) :
  let N := (T - 1) * 2 in
  ∃ half0 half1 rest,
    snd (write path_join sector_path T t)
    = (path_join sector_path (Py.format_0 10 2 N) ++ str ".dat", half0)
      :: (path_join sector_path (Py.format_0 10 2 (N + 1)) ++ str ".dat", half1)
      :: rest
    ∧ half0 ++ half1 = data t
    ∧ (Py.len (data t) = size → Py.len half0 = 1024 ∧ Py.len half1 = 1024).
Proof.
  intros N.
  exists (Py.slice_to (data t) (size / 2)), (Py.slice_from (data t) (size / 2)).
  unfold write. fold N.
  destruct (pack_nibbles (to_bcd T 2)) as [packed|e]; eexists;
    (split; [reflexivity|]);
    (split; [apply take_drop|]);
    intros Hlen; unfold Py.slice_to, Py.slice_from, Py.clamp;
    rewrite Hlen; change (size / 2) with 1024; change (1024 <? 0) with false;
    cbv iota; unfold size in *; unfold Py.len in *;
    rewrite length_take, length_drop; lia.
Qed.

Lemma digitcount_le_iff n w :
  1 ≤ w → 0 ≤ n → (digitcount n ≤ w ↔ n < 10 ^ w).
Proof.
  intros Hw Hn. split.
  - intros Hle. destruct (Z.eq_dec n 0) as [->|Hne].
    + apply Z.pow_pos_nonneg; lia.
    + pose proof (digitcount_spec n ltac:(lia)) as [_ Hhi].
      assert (10 ^ digitcount n ≤ 10 ^ w) by (apply Z.pow_le_mono_r; lia).
      lia.
  - intros Hlt. apply digitcount_le; lia.
Qed.

Lemma undigits_to_bcd n w : 0 ≤ n → 0 ≤ w → undigits 10 (to_bcd n w) = n.
Proof.
  intros Hn Hw. destruct (to_bcd_props n w Hn Hw) as (Hlen & Hds & Hint).
  rewrite int_digits in Hint.
  - by injection Hint.
  - lia.
  - intros Hnil. rewrite Hnil in Hlen.
    pose proof (digitcount_fuel_pos (Z.to_nat (Z.log2 n)) n).
    unfold digitcount, Py.len in *. simpl in Hlen. lia.
  - eapply Forall_impl; [exact Hds|]. simpl. lia.
Qed.

(** X8: for a track number of three or four digits the identifier files
    have 13 bytes: the digits of the number, packed behind a zero nibble if
    they are three, take two bytes, and the 11 zero bytes follow. *)
Theorem write_wide_track_number
    (path_join : list ascii → list ascii → list ascii)
    (sector_path : list ascii) (T : Z) (t : Track) :
  100 ≤ T ≤ 9999 →
  ∃ dat0 dat1 name0 name1 packed,
    write path_join sector_path T t
    = (Ok tt, [dat0; dat1; (name0, packed ++ replicate 11 0);
               (name1, packed ++ replicate 11 0)])
    ∧ Py.len packed = 2
    ∧ Py.len (packed ++ replicate 11 0) = 13
    ∧ undigits 10 (nibbles_of packed) = T.
Proof.
  intros HT.
  destruct (to_bcd_props T 2) as (Hlen & Hds & _); [lia..|].
  assert (Hdc : 3 ≤ digitcount T ≤ 4).
  { pose proof (digitcount_le_iff T 2 ltac:(lia) ltac:(lia)) as H2.
    pose proof (digitcount_le_iff T 4 ltac:(lia) ltac:(lia)) as H4.
    change (10 ^ 2) with 100 in H2. change (10 ^ 4) with 10000 in H4. lia. }
  destruct (pack_nibbles_ok (to_bcd T 2)) as (packed & Hpack & Hplen & _ & Hnib).
  { eapply Forall_impl; [exact Hds|]. simpl. lia. }
  unfold write. rewrite Hpack.
  do 5 eexists. split; [reflexivity|].
  assert (Hp2 : Py.len packed = 2).
  { rewrite Hplen, Hlen. unfold ceil_div. div_lia. }
  split; [done|]. split.
  - rewrite len_app, Hp2. reflexivity.
  - rewrite Hnib. unfold Py.repeat. rewrite undigits_zeros.
    apply undigits_to_bcd; lia.
Qed.

Lemma write_wide_track_number_witness :
  ∃ dat0 dat1 name0 name1 packed,
    write (λ dir name, dir ++ str "/" ++ name) (str "disc") 123 new_Track
    = (Ok tt, [dat0; dat1; (name0, packed ++ replicate 11 0);
               (name1, packed ++ replicate 11 0)])
    ∧ Py.len packed = 2
    ∧ Py.len (packed ++ replicate 11 0) = 13
    ∧ undigits 10 (nibbles_of packed) = 123.
Proof.
  apply (write_wide_track_number (λ dir name, dir ++ str "/" ++ name)
           (str "disc") 123 new_Track).
  lia.
Defined.

Lemma to_bcd_negative_2 T :
  T < 0 → ∃ d ds, to_bcd T 2 = -3 :: d :: ds ∧ 0 ≤ d ≤ 9.
Proof.
  intros HT. unfold to_bcd, Py.format_0.
  destruct (Z.ltb_spec T 0); [|lia].
  destruct (Z.ltb_spec 2 0); [lia|].
  pose proof (digits_range 10 ltac:(lia) (Z.abs T) ltac:(lia)) as Hds.
  pose proof (digits_nonempty 10 (Z.abs T)) as Hne.
  destruct (Py.digits 10 (Z.abs T)) as [|d ds]; [done|].
  apply Forall_cons in Hds as [Hd Hds].
  replace (Z.abs 2 - Py.len ["-"%char] - Py.len (map Py.digit_char (d :: ds)))
    with (- Z.of_nat (length ds)).
  2:{ unfold Py.len. rewrite length_map. simpl length. lia. }
  unfold Py.repeat. replace (Z.to_nat (- Z.of_nat (length ds))) with 0%nat by lia.
  cbn [replicate app map].
  exists d, (map (λ c, Py.ord c - Py.ord "0"%char) (map Py.digit_char ds)).
  split; [|lia]. f_equal. f_equal. apply ord_digit_char. lia.
Qed.

(** X9: a negative track number makes [Track.write] raise [ValueError]
    (the sign turns into a nibble of -3, which [bytearray] refuses), and
    this after the two data files have been written: they are all that is
    written. *)
Theorem write_negative_track_number
    (path_join : list ascii → list ascii → list ascii)
    (sector_path : list ascii) (T : Z) (t : Track) :
  T < 0 →
  ∃ dat0 dat1,
    write path_join sector_path T t = (Raise ValueError, [dat0; dat1]).
Proof.
  intros HT. destruct (to_bcd_negative_2 T HT) as (d & ds & Hbcd & Hd).
  assert (Hpack : pack_nibbles (to_bcd T 2) = Raise ValueError).
  { rewrite pack_nibbles_eq, Hbcd. unfold Py.bytearray, Py.repeat.
    destruct (Z.to_nat (Py.len (-3 :: d :: ds) mod 2)) as [|[|k]] eqn:Hpar.
    - cbn [replicate app pairs_spec forallb].
      replace (Py.is_byte (Z.shiftl (-3) 4 + d)) with false; [done|].
      change (Z.shiftl (-3) 4) with (-48). unfold Py.is_byte.
      destruct (Z.leb_spec 0 (-48 + d)); [lia|done].
    - cbn [replicate app pairs_spec forallb]. done.
    - exfalso. pose proof (Z.mod_pos_bound (Py.len (-3 :: d :: ds)) 2 ltac:(lia)).
      lia. }
  unfold write. rewrite Hpack. by do 2 eexists.
Qed.

Lemma write_negative_track_number_witness :
  ∃ dat0 dat1,
    write (λ dir name, dir ++ str "/" ++ name) (str "disc") (-12) new_Track
    = (Raise ValueError, [dat0; dat1]).
Proof.
  apply (write_negative_track_number (λ dir name, dir ++ str "/" ++ name)
           (str "disc") (-12) new_Track).
  lia.
Defined.

(** ** The length of a directory entry *)

(** X10: for a 16-bit offset and non-negative rows, stitches and pattern
    number, [program_info] succeeds; the entry starts with the offset,
    big-endian, and has [2 + ceil(digits / 2)] bytes, where [digits] counts
    at least 3 digits for the rows, 3 for the stitches and 4 for the
    pattern number.  It has the 7 bytes of a directory slot exactly when
    rows and stitches are below 1000 and the pattern number is below
    10000. *)
Theorem program_info_length (offset rows stitches pn : Z) :
  0 ≤ offset < 65536 → 0 ≤ rows → 0 ≤ stitches → 0 ≤ pn →
  ∃ info,
    program_info offset rows stitches pn = Ok info
    ∧ word info 0 = Ok offset
    ∧ Py.len info
      = 2 + ceil_div (Z.max 3 (digitcount rows) + Z.max 3 (digitcount stitches)
                      + Z.max 4 (digitcount pn)) 2
    ∧ (Py.len info = pgm_info_size
       ↔ rows < 1000 ∧ stitches < 1000 ∧ pn < 10000).
Proof.
  intros Ho Hr Hs Hp. unfold program_info.
  rewrite two_bytes_ok by done. cbn [rbind].
  destruct (to_bcd_props rows 3) as (Lr & Dr & _); [lia..|].
  destruct (to_bcd_props stitches 3) as (Ls & Ds & _); [lia..|].
  destruct (to_bcd_props pn 4) as (Lp & Dp & _); [lia..|].
  set (digits := to_bcd rows 3 ++ to_bcd stitches 3 ++ to_bcd pn 4).
  destruct (pack_nibbles_ok digits) as (packed & Hpack & Hplen & _ & _).
  { unfold digits. rewrite !Forall_app. repeat split;
      (eapply Forall_impl; [eassumption|]); simpl; lia. }
  rewrite Hpack. cbn [rbind]. eexists. split; [reflexivity|].
  split; [by apply word_be16|].
  assert (Hdl : Py.len digits
                = Z.max 3 (digitcount rows) + Z.max 3 (digitcount stitches)
                  + Z.max 4 (digitcount pn)).
  { unfold digits. rewrite !len_app. lia. }
  assert (Hlen : Py.len (be16 offset ++ packed) = 2 + ceil_div (Py.len digits) 2).
  { rewrite len_app, len_be16, Hplen. done. }
  split; [by rewrite Hlen, Hdl|].
  rewrite Hlen, Hdl. unfold pgm_info_size, ceil_div.
  pose proof (digitcount_le_iff rows 3 ltac:(lia) Hr) as Ir.
  pose proof (digitcount_le_iff stitches 3 ltac:(lia) Hs) as Is.
  pose proof (digitcount_le_iff pn 4 ltac:(lia) Hp) as Ip.
  change (10 ^ 3) with 1000 in *. change (10 ^ 4) with 10000 in *.
  split; intros H; div_lia.
Qed.

Lemma program_info_length_witness :
  ∃ info,
    program_info 288 1000 1 901 = Ok info
    ∧ word info 0 = Ok 288
    ∧ Py.len info
      = 2 + ceil_div (Z.max 3 (digitcount 1000) + Z.max 3 (digitcount 1)
                      + Z.max 4 (digitcount 901)) 2
    ∧ (Py.len info = pgm_info_size ↔ 1000 < 1000 ∧ 1 < 1000 ∧ 901 < 10000).
Proof. apply (program_info_length 288 1000 1 901); lia. Defined.

(** ** Appending an empty directory entry *)

(** X11: on a track with a sound layout and non-negative free memory,
    [add_pgm_entry] with a pattern number of at most four digits writes an
    empty entry (offset, rows and stitches 0, the pattern number) right
    behind the directory, moves [pgm_info_end] by 7, so that [free_mem()]
    drops by 7, and changes no byte of the directory that was there. *)
Theorem add_pgm_entry_appends (pn : Z) (t : Track) (A P : Z) :
  layout_ok t A P → A ≤ P → 0 ≤ pn < 10000 →
  let t' := snd (add_pgm_entry pn t) in
  fst (add_pgm_entry pn t) = Ok tt
  ∧ layout_ok t' A (P - pgm_info_size)
  ∧ fst (free_mem t') = Ok (P - A - pgm_info_size)
  ∧ decode_entry (Py.slice (data t') (size - P) (size - P + pgm_info_size))
    = (0, 0, 0, pn)
  ∧ fst (get_word (size - P) t') = Ok 0
  ∧ (∀ i, 0 ≤ i < size - P → Py.index (data t') i = Py.index (data t) i).
Proof.
  intros Hlay HAP Hpn.
  pose proof Hlay as (Hlen & HwA & HwP & HAlo & HPhi & Hmod).
  destruct (program_info_ok 0 0 0 pn) as (body & Hinfo & Hilen & _ & Hdec & _);
    [lia..|].
  set (info := be16 0 ++ body) in *.
  unfold size, pattern_offset, pgm_info_size, available_loc,
    pgm_info_end_loc in *.
  rewrite (add_pgm_entry_run t P pn info) by (done || unfold pgm_info_size, size; lia).
  unfold size, pgm_info_size, pgm_info_end_loc. cbn [fst snd].
  set (d1 := patch (0x800 - P) info (data t)).
  assert (Hd1 : Py.len d1 = 0x800) by (unfold d1; rewrite len_patch; lia).
  set (d2 := patch 0x710 (be16 (P - 7)) d1).
  assert (Hd2 : Py.len d2 = 0x800)
    by (unfold d2; rewrite len_patch; rewrite ?len_be16; lia).
  assert (HwP' : word d2 0x710 = Ok (P - 7)).
  { unfold d2. apply word_patch_in; lia. }
  assert (HwA' : word d2 0x700 = Ok A).
  { unfold d2. rewrite word_patch_out by (rewrite ?len_be16; lia).
    unfold d1. rewrite word_patch_out by lia. done. }
  assert (Hslot : Py.slice d2 (0x800 - P) (0x800 - P + 7) = info).
  { unfold d2. rewrite slice_patch_out by (rewrite ?len_be16; lia).
    unfold d1. rewrite <- Hilen at 1. apply slice_patch_in; lia. }
  split; [done|]. split; [|split; [|split; [|split]]].
  - unfold layout_ok, size, pattern_offset, pgm_info_size, available_loc,
      pgm_info_end_loc. cbn [data].
    repeat split; try done; try lia.
    replace (0x800 - (P - 7)) with (0x800 - P + 1 * 7) by lia.
    by rewrite Z.mod_add by lia.
  - rewrite free_mem_run. cbn [fst data].
    unfold pgm_info_end_loc, available_loc. rewrite HwP', HwA'. cbn [rbind].
    f_equal. lia.
  - cbn [data]. by rewrite Hslot.
  - rewrite get_word_run. cbn [fst data].
    rewrite <- (word_slice d2 (0x800 - P) (0x800 - P + 7)), Hslot by lia.
    reflexivity.
  - intros i Hi. cbn [data]. unfold d2.
    rewrite index_patch_out by (rewrite ?len_be16; lia).
    unfold d1. apply index_patch_out; lia.
Qed.

Lemma add_pgm_entry_appends_witness :
  let t' := snd (add_pgm_entry 902 new_Track) in
  fst (add_pgm_entry 902 new_Track) = Ok tt
  ∧ layout_ok t' 288 (2041 - pgm_info_size)
  ∧ fst (free_mem t') = Ok (2041 - 288 - pgm_info_size)
  ∧ decode_entry (Py.slice (data t') (size - 2041) (size - 2041 + pgm_info_size))
    = (0, 0, 0, 902)
  ∧ fst (get_word (size - 2041) t') = Ok 0
  ∧ (∀ i, 0 ≤ i < size - 2041 →
          Py.index (data t') i = Py.index (data new_Track) i).
Proof.
  apply (add_pgm_entry_appends 902 new_Track 288 2041); [|lia|lia].
  unfold layout_ok. repeat split; try (vm_compute; reflexivity).
  - unfold pattern_offset. lia.
  - unfold size. lia.
Defined.

(** ** What an accepted add_pattern keeps *)

(** The pattern in the buffer after an accepted call that left room for a
    directory entry. *)
Lemma stored_pattern_intact
    (pattern : list Z) (t : Track) (A P loc : Z) (info info0 : list Z) :
  layout_ok t A P →
  Py.len pattern + pgm_info_size ≤ P - A →
  0 ≤ loc → loc + pgm_info_size ≤ size - P →
  Py.len info = pgm_info_size → Py.len info0 = pgm_info_size →
  Py.slice (stored t A P pattern loc info info0)
           (size - A - Py.len pattern) (size - A)
  = pattern.
Proof.
  intros layout Hroom Hloc Hslot Hilen Hi0len.
  pose proof layout as (Hlen & HwA & HwP & HAlo & HPhi & Hmod).
  pose proof (len_nonneg pattern) as Hk.
  unfold stored, stored_pointer, stored_pattern, stored_entry.
  cbv zeta.
  unfold pattern_offset, size, pgm_info_size, available_loc,
    pgm_info_end_loc in *.
  set (d1 := patch loc info (data t)).
  assert (Hd1 : Py.len d1 = 2048) by (unfold d1; rewrite len_patch; lia).
  set (d2 := patch (2048 - (A + Py.len pattern)) pattern d1).
  assert (Hd2 : Py.len d2 = 2048) by (unfold d2; rewrite len_patch; lia).
  set (d3 := patch 1792 (be16 (A + Py.len pattern + 1)) d2).
  assert (Hd3 : Py.len d3 = 2048)
    by (unfold d3; rewrite len_patch; rewrite ?len_be16; lia).
  assert (H2 : Py.slice d2 (2048 - A - Py.len pattern) (2048 - A) = pattern).
  { unfold d2.
    replace (2048 - A - Py.len pattern) with (2048 - (A + Py.len pattern)) by lia.
    replace (2048 - A) with (2048 - (A + Py.len pattern) + Py.len pattern) by lia.
    apply slice_patch_in; lia. }
  assert (H3 : Py.slice d3 (2048 - A - Py.len pattern) (2048 - A) = pattern).
  { unfold d3. rewrite slice_patch_out by (rewrite ?len_be16; lia). done. }
  destruct (_ =? _); [|done].
  rewrite !slice_patch_out; rewrite ?len_patch, ?len_be16; try lia. done.
Qed.

Section Accepted.

Variables (pattern : list Z) (nrows nstitches : Z) (t : Track) (A P pn : Z)
          (t' : Track).

Hypothesis layout : layout_ok t A P.
Hypothesis rows_ok : 0 ≤ nrows < 1000.
Hypothesis stitches_ok : 0 ≤ nstitches < 1000.
Hypothesis accepted : add_pattern pattern nrows nstitches t = (Ok pn, t').

(** The facts about an accepted call that the properties below share. *)
Lemma accepted_stored :
  ∃ loc info info0,
    t' = {| data := stored t A P pattern loc info info0 |}
    ∧ Py.len pattern ≤ P - A
    ∧ 0 ≤ loc ∧ loc + pgm_info_size ≤ size - P
    ∧ Py.len info = pgm_info_size ∧ Py.len info0 = pgm_info_size.
Proof using layout rows_ok stitches_ok accepted.
  pose proof (free_mem_layout t A P layout) as Hfree.
  assert (Hfits : Py.len pattern ≤ P - A).
  { destruct (add_pattern_guard pattern nrows nstitches t) as (body & _ & Hg).
    rewrite Hfree in Hg. simpl in Hg.
    destruct (Z.gtb_spec (Py.len pattern) (P - A)) as [Hgt|]; [|lia].
    rewrite Hg in accepted. discriminate accepted. }
  destruct (add_pattern_fits pattern nrows nstitches t A P layout rows_ok
              stitches_ok Hfits)
    as (locs & Hrange & [(e & _ & Hraise)|Hok]).
  { rewrite Hraise in accepted. discriminate accepted. }
  destruct Hok as (loc & pn' & info & info0 & Hfind & Hloc & Hslot & Hpn
                   & Hinfo & Hinfo0 & Hrun').
  rewrite Hrun' in accepted. injection accepted as -> <-.
  assert (HA : 0 ≤ A < 65536).
  { destruct layout as (_ & _ & _ & HAlo & HPhi & _).
    pose proof (len_nonneg pattern). unfold pattern_offset, size in *. lia. }
  destruct (program_info_ok A nrows nstitches pn) as
    (body & Hinfo' & Hlen & _); [lia..|].
  rewrite Hinfo in Hinfo'. injection Hinfo' as ->.
  destruct (program_info_ok 0 0 0 (pn + 1)) as (body0 & Hinfo0' & Hlen0 & _);
    [lia..|].
  rewrite Hinfo0 in Hinfo0'. injection Hinfo0' as ->.
  exists loc, (be16 A ++ body), (be16 0 ++ body0). repeat split; try done; lia.
Qed.

(** X12: an accepted [add_pattern], for row and stitch counts of at most
    three digits, keeps the layout of the track sound: the buffer keeps its
    2048 bytes, [available_offset] moves by the length of the pattern plus
    one, and [pgm_info_end] stays or moves by one entry. *)
Theorem add_pattern_keeps_layout :
  ∃ P', layout_ok t' (A + Py.len pattern + 1) P'
        ∧ (P' = P ∨ P' = P - pgm_info_size).
Proof using layout rows_ok stitches_ok accepted.
  destruct accepted_stored as (loc & info & info0 & -> & Hfits & Hloc & Hslot
                               & Hilen & Hi0len).
  pose proof layout as (Hlen & HwA & HwP & HAlo & HPhi & Hmod).
  pose proof (len_nonneg pattern) as Hk.
  exists (if loc + pgm_info_size =? size - P then P - pgm_info_size else P).
  split.
  - unfold layout_ok. cbn [data].
    split; [by apply stored_len|]. split; [by apply stored_available|].
    split; [by apply stored_pgm_info_end|].
    unfold pattern_offset, size, pgm_info_size in *.
    split; [lia|]. destruct (_ =? _); [|split; [lia|done]].
    split; [lia|].
    replace (2048 - (P - 7)) with (2048 - P + 1 * 7) by lia.
    by rewrite Z.mod_add by lia.
  - destruct (_ =? _); auto.
Qed.

(** X13: when the pattern leaves room for a directory entry
    ([len(pattern) + 7 ≤ free_mem()]), the pattern is in the buffer after
    the call, whole: it ends [A] bytes before the end of the buffer, [A]
    being the offset that the directory entry of the pattern records. *)
Theorem add_pattern_stores_pattern :
  Py.len pattern + pgm_info_size ≤ P - A →
  Py.slice (data t') (size - A - Py.len pattern) (size - A) = pattern.
Proof using layout rows_ok stitches_ok accepted.
  intros Hroom.
  destruct accepted_stored as (loc & info & info0 & -> & Hfits & Hloc & Hslot
                               & Hilen & Hi0len).
  cbn [data]. by apply stored_pattern_intact.
Qed.

End Accepted.

Lemma add_pattern_keeps_layout_witness :
  ∃ P', layout_ok (snd (add_pattern [1; 2; 3] 2 4 new_Track))
          (288 + Py.len [1; 2; 3] + 1) P'
        ∧ (P' = 2041 ∨ P' = 2041 - pgm_info_size).
Proof.
  apply (add_pattern_keeps_layout [1; 2; 3] 2 4 new_Track 288 2041 901
           (snd (add_pattern [1; 2; 3] 2 4 new_Track))).
  - unfold layout_ok. repeat split; try (vm_compute; reflexivity).
    + unfold pattern_offset. lia.
    + unfold size. lia.
  - lia.
  - lia.
  - vm_compute. reflexivity.
Defined.

Lemma add_pattern_stores_pattern_witness :
  Py.slice (data (snd (add_pattern [1; 2; 3] 2 4 new_Track)))
           (size - 288 - Py.len [1; 2; 3]) (size - 288)
  = [1; 2; 3].
Proof.
  apply (add_pattern_stores_pattern [1; 2; 3] 2 4 new_Track 288 2041 901
           (snd (add_pattern [1; 2; 3] 2 4 new_Track))).
  - unfold layout_ok. repeat split; try (vm_compute; reflexivity).
    + unfold pattern_offset. lia.
    + unfold size. lia.
  - lia.
  - lia.
  - vm_compute. reflexivity.
  - vm_compute. discriminate.
Defined.

(** ** Failed calls of add_pattern *)

(** X14: on a track with a sound layout, for a pattern of bytes and row
    and stitch counts of at most three digits, an [add_pattern] that raises
    leaves the buffer as it was, whatever the exception; the exception is
    [Error] exactly when the pattern is longer than the free memory. *)
Theorem add_pattern_failure_atomic
    (pattern : list Z) (nrows nstitches : Z) (t : Track) (A P : Z)
    (e : exn) (t' : Track) :
  layout_ok t A P → Forall (λ b, 0 ≤ b < 256) pattern →
  0 ≤ nrows < 1000 → 0 ≤ nstitches < 1000 →
  add_pattern pattern nrows nstitches t = (Raise e, t') →
  t' = t ∧ (e = Error ↔ Py.len pattern > P - A).
Proof.
  intros Hlay _ Hr Hs Hrun.
  pose proof (free_mem_layout t A P Hlay) as Hfree.
  destruct (Z.gtb_spec (Py.len pattern) (P - A)) as [Hgt|Hfits].
  - destruct (add_pattern_guard pattern nrows nstitches t) as (body & _ & Hg).
    rewrite Hfree in Hg. cbn [fst] in Hg.
    destruct (Z.gtb_spec (Py.len pattern) (P - A)); [|lia].
    rewrite Hg in Hrun. injection Hrun as <- <-. split; [done|]. split; [lia|done].
  - destruct (add_pattern_fits pattern nrows nstitches t A P Hlay Hr Hs Hfits)
      as (locs & _ & [(e0 & Hfind & Hraise)|Hok]).
    + rewrite Hraise in Hrun. injection Hrun as <- <-. split; [done|].
      split; [|lia]. intros ->.
      pose proof (find_empty_no_Error locs initial_pattern_number t) as Hne.
      rewrite Hfind in Hne. by destruct Hne.
    + destruct Hok as (loc & pn & info & info0 & _ & _ & _ & _ & _ & _ & Hrun').
      rewrite Hrun' in Hrun. discriminate Hrun.
Qed.

Lemma add_pattern_failure_atomic_witness :
  snd (add_pattern (Py.repeat 1754 0) 2 4 new_Track) = new_Track
  ∧ (Error = Error ↔ Py.len (Py.repeat 1754 0) > 2041 - 288).
Proof.
  apply (add_pattern_failure_atomic (Py.repeat 1754 0) 2 4 new_Track 288 2041
           Error (snd (add_pattern (Py.repeat 1754 0) 2 4 new_Track))).
  - unfold layout_ok. repeat split; try (vm_compute; reflexivity).
    + unfold pattern_offset. lia.
    + unfold size. lia.
  - apply Forall_replicate. lia.
  - lia.
  - lia.
  - vm_compute. reflexivity.
Defined.

(** ** The capacity of the directory *)

(** Once the directory holds 99 patterns, the entry that should be empty
    carries pattern number 1000, of which [pat_num] reads the last three
    digits: the scan of [add_pattern] takes it for a gap in the sequence. *)
Lemma add_pattern_full_directory
    (pattern : list Z) (nrows nstitches : Z) (t : Track) :
  directory_ok t 99 →
  ∃ e, add_pattern pattern nrows nstitches t = (Raise e, t)
       ∧ (e = Error ∨ e = BadError).
Proof.
  intros Hdir.
  pose proof Hdir as (_ & (A & Hlay) & _ & _).
  set (P := size - pgm_info_size * (99 + 1)) in *.
  pose proof (free_mem_layout t A P Hlay) as Hfree.
  pose proof Hlay as (_ & _ & HP & _).
  destruct (range_7 (size - P)) as (locs & Hrange & _).
  assert (Hrange' : Py.range 0 (pgm_info_size * (99 + 1)) pgm_info_size = Ok locs).
  { rewrite <- Hrange. reflexivity. }
  pose proof (find_empty_directory t 99 locs Hdir Hrange') as Hscan.
  change (99 <? 99) with false in Hscan. cbv iota in Hscan.
  unfold add_pattern. step Hfree.
  destruct (Py.len pattern >? P - A).
  { exists Error. split; [reflexivity|]. by left. }
  assert (HgetP : pgm_info_end t = (Ok P, t)).
  { unfold pgm_info_end. rewrite get_word_run. by rewrite HP. }
  step HgetP.
  assert (Hl : lift (Py.range 0 (size - P) pgm_info_size) t = (Ok locs, t)).
  { unfold lift. by rewrite Hrange. }
  step Hl.
  exists BadError. split; [|by right].
  by apply bind_raise.
Qed.

(** X15: a Track holds at most 99 patterns.  After 99 accepted calls of
    [add_pattern] on a fresh Track, each with row and stitch counts of at
    most three digits, every further call raises [Error] or [BadError] and
    leaves the buffer as it is, whatever its arguments. *)
Theorem add_pattern_capacity
    (calls : list (list Z * Z * Z)) (pns : list Z) (t' : Track)
    (pattern : list Z) (nrows nstitches : Z) :
  Forall (λ '(_, nrows, nstitches), 0 ≤ nrows < 1000 ∧ 0 ≤ nstitches < 1000)
         calls →
  Py.len calls = 99 →
  add_patterns calls new_Track = (Ok pns, t') →
  ∃ e, add_pattern pattern nrows nstitches t' = (Raise e, t')
       ∧ (e = Error ∨ e = BadError).
Proof.
  intros Hcalls Hlen Hrun.
  destruct (add_patterns_sequential calls Hcalls _ 0 _ _ new_Track_directory Hrun)
    as [_ Hdir].
  rewrite Hlen in Hdir. by apply add_pattern_full_directory.
Qed.

Lemma add_pattern_capacity_witness :
  ∃ e, add_pattern [7; 7; 7] 3 1
         (snd (add_patterns (replicate 99 ([1; 2], 1, 4)) new_Track))
       = (Raise e, snd (add_patterns (replicate 99 ([1; 2], 1, 4)) new_Track))
       ∧ (e = Error ∨ e = BadError).
Proof.
  apply (add_pattern_capacity (replicate 99 ([1; 2], 1, 4))
           (map (λ i : nat, 901 + Z.of_nat i) (seq 0 99))
           (snd (add_patterns (replicate 99 ([1; 2], 1, 4)) new_Track))
           [7; 7; 7] 3 1).
  - apply Forall_replicate. lia.
  - vm_compute. reflexivity.
  - vm_compute. reflexivity.
Defined.

(** ** The encoder on any pixel sequence *)

Lemma len_map {A B} (f : A → B) (l : list A) : Py.len (map f l) = Py.len l.
Proof. unfold Py.len. by rewrite length_map. Qed.

Lemma slice_map {A B} (f : A → B) (l : list A) (a b : Z) :
  Py.slice (map f l) a b = map f (Py.slice l a b).
Proof. unfold Py.slice. by rewrite len_map, skipn_map, firstn_map. Qed.

(** Whatever the row indices, the row loop of [encode_image] builds a
    string of bit characters. *)
Lemma fold_bit_chars (imgdata : list Z) (s pad : Z) (irows : list Z) :
  ∀ acc : list bool,
    ∃ bs : list bool,
      fold_left (λ bits irow,
                   bits ++ Py.repeat pad "0"%char
                        ++ Py.slice (map (λ pixel : Z,
                                            if pixel >? 0 then "0"%char
                                            else "1"%char) imgdata)
                                    irow (irow + s))
                irows (map bit_char acc)
      = map bit_char bs.
Proof.
  induction irows as [|irow irows IH]; intros acc; cbn [fold_left].
  - by exists acc.
  - destruct (IH (acc ++ replicate (Z.to_nat pad) false
                      ++ map bit_of_pixel (Py.slice imgdata irow (irow + s))))
      as (bs & Hbs).
    exists bs. rewrite <- Hbs. f_equal.
    rewrite !map_app, map_bit_char_replicate, slice_map, map_map.
    do 2 f_equal. apply map_ext. intros pixel.
    unfold bit_of_pixel. by destruct (pixel >? 0).
Qed.

(** From the bit string on, [encode_image] pads, packs and appends the
    memo. *)
Lemma encode_bitmap_packs (imgdata : list Z) (nrows nstitches : Z)
    (irows : list Z) (bs : list bool) :
  Py.range 0 (Py.len imgdata) nstitches = Ok irows →
  fold_left (λ bits irow,
               bits ++ Py.repeat ((- nstitches) mod 4) "0"%char
                    ++ Py.slice (map (λ pixel : Z,
                                        if pixel >? 0 then "0"%char
                                        else "1"%char) imgdata)
                                irow (irow + nstitches))
            irows []
  = map bit_char bs →
  encode_bitmap imgdata nrows nstitches
  = Ok (pack_bits (replicate (Z.to_nat ((- Py.len bs) mod 8)) false ++ bs)
        ++ replicate (Z.to_nat ((nrows + 1) / 2)) 0, nrows, nstitches)
  ∧ Py.len (pack_bits (replicate (Z.to_nat ((- Py.len bs) mod 8)) false ++ bs))
    = ceil_div (Py.len bs) 8
  ∧ Forall (λ b, 0 ≤ b < 256)
      (pack_bits (replicate (Z.to_nat ((- Py.len bs) mod 8)) false ++ bs)).
Proof.
  intros Hrange Hfold.
  set (lead := (- Py.len bs) mod 8).
  set (total := replicate (Z.to_nat lead) false ++ bs).
  assert (Hlead : 0 ≤ lead < 8) by (apply Z.mod_pos_bound; lia).
  assert (Htotal : Py.len total = Py.len bs + lead).
  { unfold total. rewrite len_app. unfold Py.len.
    rewrite length_replicate. lia. }
  set (m := (Py.len bs + lead) / 8).
  assert (Hm : Py.len total = m * 8 ∧ 0 ≤ m ∧ m = ceil_div (Py.len bs) 8).
  { rewrite Htotal. pose proof (len_nonneg bs).
    unfold m, lead, ceil_div in *. div_lia. }
  destruct Hm as (Hm & Hm0 & Hceil).
  destruct (pack_bits_spec (Z.to_nat m) total) as [Hplen Hpbytes].
  { unfold Py.len in Hm. lia. }
  split; [|split; [|exact Hpbytes]].
  - unfold encode_bitmap. rewrite len_map, Hrange. cbn [rbind].
    rewrite Hfold, len_map. fold lead.
    assert (Hbits' : Py.repeat lead "0"%char ++ map bit_char bs
                     = map bit_char total).
    { unfold total, Py.repeat. by rewrite map_app, map_bit_char_replicate. }
    rewrite Hbits', len_map, Hm, range_multiple by lia. cbn [rbind].
    pose proof (rmap_chunks (Z.to_nat m) total []) as Hchunks.
    cbn [app] in Hchunks. change (Py.len []) with 0 in Hchunks.
    rewrite Hchunks by (unfold Py.len in Hm; lia). cbn [rbind].
    unfold Py.repeat. rewrite bytearray_bytes; [done|].
    apply Forall_app. split; [exact Hpbytes|].
    apply Forall_replicate. lia.
  - unfold Py.len at 1. rewrite Hplen. lia.
Qed.

(** X16: [encode_image] from the pixel sequence on.  It raises
    ([ValueError], from [range]) exactly when the stitch count is 0.  For
    any other stitch count and any pixel sequence, whether or not it is
    made of whole rows, it returns a bytearray (every element a byte)
    together with the row and stitch counts it was given; for a negative
    stitch count that bytearray is the memo alone. *)
Theorem encode_bitmap_total (imgdata : list Z) (nrows nstitches : Z) :
  (nstitches = 0 → encode_bitmap imgdata nrows nstitches = Raise ValueError)
  ∧ (nstitches ≠ 0 →
     ∃ pattern,
       encode_bitmap imgdata nrows nstitches = Ok (pattern, nrows, nstitches)
       ∧ Forall (λ b, 0 ≤ b < 256) pattern
       ∧ Z.max 0 ((nrows + 1) / 2) ≤ Py.len pattern
       ∧ (nstitches < 0 → pattern = Py.repeat ((nrows + 1) / 2) 0)).
Proof.
  split.
  - intros ->. reflexivity.
  - intros Hne.
    destruct (Py.range 0 (Py.len imgdata) nstitches) as [irows|e] eqn:Hrange.
    2:{ unfold Py.range in Hrange. destruct (Z.eqb_spec nstitches 0); done. }
    destruct (fold_bit_chars imgdata nstitches ((- nstitches) mod 4) irows [])
      as (bs & Hbs).
    cbn [map] in Hbs.
    destruct (encode_bitmap_packs imgdata nrows nstitches irows bs Hrange Hbs)
      as (Hrun & Hlen & Hbytes).
    eexists. split; [exact Hrun|]. split; [|split].
    + apply Forall_app. split; [exact Hbytes|]. apply Forall_replicate. lia.
    + rewrite len_app, Hlen.
      assert (0 ≤ ceil_div (Py.len bs) 8).
      { pose proof (len_nonneg bs). unfold ceil_div. apply Z.div_pos; lia. }
      unfold Py.len at 2. rewrite length_replicate. lia.
    + intros Hneg.
      assert (Hirows : irows = []).
      { unfold Py.range, Py.range_len in Hrange.
        destruct (Z.eqb_spec nstitches 0); [done|].
        destruct (Z.ltb_spec 0 nstitches); [lia|].
        injection Hrange as <-.
        replace (Z.to_nat _) with 0%nat; [done|].
        pose proof (len_nonneg imgdata).
        assert ((0 - Py.len imgdata - nstitches - 1) / - nstitches < 1);
          [|lia].
        apply Z.div_lt_upper_bound; lia. }
      subst irows. cbn [fold_left] in Hbs.
      destruct bs; [|discriminate Hbs]. reflexivity.
Qed.

Example encode_bitmap_ragged :
  encode_bitmap [0; 255; 0; 0; 255] 2 3 = Ok ([0x2A; 0], 2, 3).
Proof. vm_compute. reflexivity. Qed.

(** ** Reading an encoded bitmap back *)

Lemma bits_of_byte_of_bits b7 b6 b5 b4 b3 b2 b1 b0 :
  bits_of_byte (byte_of_bits [b7; b6; b5; b4; b3; b2; b1; b0])
  = [b7; b6; b5; b4; b3; b2; b1; b0].
Proof. destruct b7, b6, b5, b4, b3, b2, b1, b0; vm_compute; reflexivity. Qed.

Lemma unpack_pack_bits (m : nat) :
  ∀ bs, length bs = (8 * m)%nat → unpack_bits (pack_bits bs) = bs.
Proof.
  induction m as [|m IH]; intros bs Hlen.
  - by destruct bs.
  - do 8 (destruct bs as [|? bs]; [simpl in Hlen; lia|]).
    cbn [pack_bits]. unfold unpack_bits. cbn [map concat].
    rewrite bits_of_byte_of_bits. fold (unpack_bits (pack_bits bs)).
    rewrite IH by (simpl in Hlen; lia). reflexivity.
Qed.

Lemma chunks_concat {A} (n : nat) (rows : list (list A)) :
  Forall (λ r, length r = n) rows →
  chunks n (length rows) (concat rows) = rows.
Proof.
  induction 1 as [|r rs Hr _ IH]; [done|].
  cbn [length chunks concat].
  rewrite take_app_length', drop_app_length' by done. by rewrite IH.
Qed.

(** X17: the encoding loses nothing of the bitmap.  For rows of
    [stitches > 0] pixels each, the encoder succeeds and [decode_bitmap],
    given the bytes and the two counts it returns, gives back every pixel
    as the bit the encoder made of it (intensity 0 is 1, any higher
    intensity is 0), row by row. *)
Theorem encode_bitmap_decodes (rows : list (list Z)) (stitches : Z) :
  0 < stitches →
  Forall (λ row, Py.len row = stitches) rows →
  ∃ pattern,
    encode_bitmap (concat rows) (Py.len rows) stitches
    = Ok (pattern, Py.len rows, stitches)
    ∧ decode_bitmap pattern (Py.len rows) stitches
      = map (map bit_of_pixel) rows.
Proof.
  intros Hst Hrows.
  pose proof (len_nonneg rows) as Hnrows.
  assert (Hpad : 0 ≤ row_padding stitches).
  { unfold row_padding. apply Z.mod_pos_bound. lia. }
  destruct (encode_rows_bits rows stitches Hrows) as [Himg Hbits].
  rewrite len_map in Himg.
  pose proof (padded_rows_len rows stitches Hrows) as HL.
  pose proof (range_multiple (Py.len rows) stitches Hst Hnrows) as Hrange.
  rewrite <- Himg in Hrange.
  destruct (encode_bitmap_packs (concat rows) (Py.len rows) stitches _
              (padded_rows rows stitches) Hrange Hbits)
    as (Hrun & Hlen & _).
  set (padded := padded_rows rows stitches) in *.
  set (lead := (- Py.len padded) mod 8) in *.
  set (total := replicate (Z.to_nat lead) false ++ padded) in *.
  eexists. split; [exact Hrun|].
  assert (Hlead : 0 ≤ lead < 8) by (apply Z.mod_pos_bound; lia).
  pose proof (len_nonneg padded) as Hpl.
  unfold decode_bitmap.
  replace (Py.len rows * (row_padding stitches + stitches))
    with (Py.len padded) by lia.
  set (nbytes := ceil_div (Py.len padded) 8) in *.
  assert (Hnb : 0 ≤ nbytes ∧ nbytes * 8 - Py.len padded = lead
                ∧ nbytes * 8 = Py.len padded + lead).
  { unfold nbytes, ceil_div, lead. div_lia. }
  destruct Hnb as (Hnb0 & Hnblead & Hnb8).
  rewrite take_app_length' by (unfold Py.len in Hlen; lia).
  rewrite (unpack_pack_bits (Z.to_nat nbytes)).
  2:{ unfold total. rewrite length_app, length_replicate.
      unfold Py.len in *. lia. }
  rewrite Hnblead. unfold total.
  rewrite drop_app_length' by (by rewrite length_replicate).
  unfold padded, padded_rows.
  replace (Z.to_nat (Py.len rows))
    with (length (map (λ row, replicate (Z.to_nat (row_padding stitches)) false
                              ++ map bit_of_pixel row) rows))
    by (rewrite length_map; unfold Py.len; lia).
  rewrite chunks_concat.
  - rewrite map_map. apply map_ext. intros row.
    apply drop_app_length'. by rewrite length_replicate.
  - apply Forall_forall. intros r Hr.
    apply list_elem_of_In, in_map_iff in Hr as (row & <- & Hin).
    rewrite Forall_forall in Hrows.
    specialize (Hrows row ltac:(by apply list_elem_of_In)).
    rewrite length_app, length_replicate, length_map.
    unfold Py.len in Hrows. lia.
Qed.

Lemma encode_bitmap_decodes_witness :
  ∃ pattern,
    encode_bitmap (concat [[0; 255; 0]; [0; 0; 255]])
                  (Py.len [[0; 255; 0]; [0; 0; 255]]) 3
    = Ok (pattern, Py.len [[0; 255; 0]; [0; 0; 255]], 3)
    ∧ decode_bitmap pattern (Py.len [[0; 255; 0]; [0; 0; 255]]) 3
      = map (map bit_of_pixel) [[0; 255; 0]; [0; 0; 255]].
Proof.
  apply (encode_bitmap_decodes [[0; 255; 0]; [0; 0; 255]] 3); [lia|].
  repeat constructor.
Defined.

Example decode_bitmap_3x2 :
  decode_bitmap [0x56; 0] 2 3 = [[true; false; true]; [true; true; false]].
Proof. vm_compute. reflexivity. Qed.

(** ** image2track *)

Lemma Track_init_run : Track_init blank = (Ok tt, new_Track).
Proof. vm_compute. reflexivity. Qed.

Lemma set_selector_run (position copies : Z) (t : Track) :
  Py.len (data t) = size →
  set_selector 2 position copies t
  = (Ok tt, {| data := patch 0x7EA [32; 0] (data t) |}).
Proof.
  unfold size. intros Hlen. unfold set_selector.
  change (negb ((2 =? 1) || (2 =? 2))) with false. cbv iota.
  assert (Hl : lift (pack_nibbles ([2] ++ to_bcd 0 3)) t = (Ok [32; 0], t))
    by reflexivity.
  step Hl.
  rewrite (bind_ok _ _ _ _ _
             (set_bytes_within t 0x7EA [32; 0] ltac:(lia)
                ltac:(rewrite Hlen; unfold Py.len; simpl; lia))).
  reflexivity.
Qed.

Section Image2trackProperties.

Variable path_join : list ascii → list ascii → list ascii.
Variable Stretch : Type.
Variable encode_image :
  list ascii → Stretch → Z → Z → result (list Z * Z * Z).

(** The four sector files of track 1. *)
Lemma write_track_1 (sector_path : list ascii) (t : Track) :
  Py.len (data t) = size →
  write path_join sector_path 1 t
  = (Ok tt,
     [ (path_join sector_path (str "00") ++ str ".dat", take 1024 (data t));
       (path_join sector_path (str "01") ++ str ".dat", drop 1024 (data t));
       (path_join sector_path (str "00") ++ str ".id", 1 :: replicate 11 0);
       (path_join sector_path (str "01") ++ str ".id", 1 :: replicate 11 0) ]).
Proof.
  intros Hlen. unfold write, Py.slice_to, Py.slice_from. rewrite Hlen.
  reflexivity.
Qed.

(** X18: [image2track] end to end.  The encoder is asked for at most 1752
    bytes.  When it returns a bytearray of at most 1753 bytes with row and
    stitch counts of at most three digits, [image2track] returns pattern
    number 901 with the stitch count before the row count, and writes the
    four sector files of track 1 and nothing else: [00.dat] and [01.dat]
    are the two halves of a 2048-byte buffer, the identifier files hold
    byte 1 and 11 zero bytes.  In that buffer the first directory entry
    records the pattern (offset 0x120, rows, stitches, 901), the second is
    the empty entry of pattern 902, the two pointers are advanced, byte
    0x7EA holds selector 2, and the pattern lies whole in front of offset
    0x120 from the end when it left room for a directory entry. *)
Theorem image2track_stores
    (img_path sector_path : list ascii) (stretch : Stretch) (max_width : Z)
    (pattern : list Z) (nrows nstitches : Z) :
  encode_image img_path stretch 1752 max_width = Ok (pattern, nrows, nstitches) →
  Forall (λ b, 0 ≤ b < 256) pattern → Py.len pattern ≤ 1753 →
  0 ≤ nrows < 1000 → 0 ≤ nstitches < 1000 →
  ∃ d,
    image2track path_join Stretch encode_image img_path sector_path stretch
                max_width
    = (Ok (901, nstitches, nrows),
       [ (path_join sector_path (str "00") ++ str ".dat", take 1024 d);
         (path_join sector_path (str "01") ++ str ".dat", drop 1024 d);
         (path_join sector_path (str "00") ++ str ".id", 1 :: replicate 11 0);
         (path_join sector_path (str "01") ++ str ".id", 1 :: replicate 11 0) ])
    ∧ Py.len d = size
    ∧ decode_entry (Py.slice d 0 7) = (pattern_offset, nrows, nstitches, 901)
    ∧ decode_entry (Py.slice d 7 14) = (0, 0, 0, 902)
    ∧ word d available_loc = Ok (pattern_offset + Py.len pattern + 1)
    ∧ word d pgm_info_end_loc = Ok (size - 14)
    ∧ Py.index d 0x7EA = Ok 32
    ∧ (Py.len pattern + 7 ≤ 1753 →
       Py.slice d (size - pattern_offset - Py.len pattern)
                (size - pattern_offset)
       = pattern).
Proof.
  intros Henc _ Hfit Hr Hs.
  pose proof new_Track_layout as Hlay.
  pose proof (len_nonneg pattern) as Hk.
  assert (Hfits : Py.len pattern ≤ size - pgm_info_size - pattern_offset)
    by (unfold size, pgm_info_size, pattern_offset; lia).
  destruct (add_pattern_fits pattern nrows nstitches new_Track _ _ Hlay Hr Hs
              Hfits) as (locs & Hrange & Hcases).
  pose proof (find_empty_directory new_Track 0 locs new_Track_directory Hrange)
    as Hscan.
  change (0 <? 99) with true in Hscan. cbv iota in Hscan.
  destruct Hcases as [(e & Hfind & _)|Hok].
  { rewrite Hfind in Hscan. discriminate Hscan. }
  destruct Hok as (loc & pn & info & info0 & Hfind & Hloc & Hslot & Hpn
                   & Hinfo & Hinfo0 & Hrun).
  rewrite Hfind in Hscan. apply (f_equal fst) in Hscan. cbn [fst] in Hscan.
  injection Hscan as Hl Hp.
  change (loc = 0) in Hl. change (pn = 901) in Hp. subst loc pn.
  destruct (program_info_ok pattern_offset nrows nstitches 901)
    as (body & Hinfo' & Hilen & _ & Hdec & _);
    [unfold pattern_offset; lia|lia..|].
  rewrite Hinfo in Hinfo'. injection Hinfo' as ->.
  destruct (program_info_ok 0 0 0 902) as (body0 & Hinfo0' & Hi0len & _ & Hdec0 & _);
    [lia..|].
  change (901 + 1) with 902 in Hinfo0.
  rewrite Hinfo0 in Hinfo0'. injection Hinfo0' as ->.
  set (info := be16 pattern_offset ++ body) in *.
  set (info0 := be16 0 ++ body0) in *.
  set (st := stored new_Track pattern_offset (size - pgm_info_size) pattern 0
               info info0) in *.
  assert (Hst : Py.len st = size) by (by apply stored_len).
  assert (HstA : word st available_loc = Ok (pattern_offset + Py.len pattern + 1))
    by (by apply stored_available).
  assert (HstP : word st pgm_info_end_loc = Ok (size - 14)).
  { unfold st. rewrite stored_pgm_info_end by done. reflexivity. }
  assert (Hst0 : Py.slice st 0 7 = info).
  { change 7 with (0 + pgm_info_size). by apply stored_slot. }
  assert (Hst1 : Py.slice st 7 14 = info0).
  { change 7 with (size - (size - pgm_info_size)).
    change 14 with (size - (size - pgm_info_size) + pgm_info_size).
    by apply stored_new_entry. }
  exists (patch 0x7EA [32; 0] st).
  assert (Hsel : 0x7EA + Py.len [32; 0] ≤ Py.len st).
  { rewrite Hst. unfold size, Py.len. simpl. lia. }
  assert (Hd : Py.len (patch 0x7EA [32; 0] st) = size).
  { rewrite len_patch; [done|lia|done]. }
  split; [|split; [done|]].
  - unfold image2track. rewrite Track_init_run.
    rewrite (free_mem_layout _ _ _ Hlay).
    change (size - pgm_info_size - pattern_offset - 1) with 1752.
    rewrite Henc, Hrun. cbv beta iota zeta.
    rewrite set_selector_run by exact Hst. cbv beta iota zeta.
    rewrite write_track_1 by exact Hd. reflexivity.
  - unfold size, pgm_info_size, pattern_offset, available_loc,
      pgm_info_end_loc in *.
    split; [|split; [|split; [|split; [|split]]]].
    + rewrite slice_patch_out by (unfold Py.len in *; simpl length; lia).
      by rewrite Hst0.
    + rewrite slice_patch_out by (unfold Py.len in *; simpl length; lia).
      by rewrite Hst1.
    + rewrite word_patch_out by (unfold Py.len in *; simpl length; lia). done.
    + rewrite word_patch_out by (unfold Py.len in *; simpl length; lia). done.
    + rewrite <- (Z.add_0_r 0x7EA) at 2.
      rewrite index_patch_in by (unfold Py.len in *; simpl length; lia). done.
    + intros Hroom.
      rewrite slice_patch_out by (unfold Py.len in *; simpl length; lia).
      apply (stored_pattern_intact pattern new_Track 288 2041 0 info info0);
        try done; unfold pgm_info_size, size; lia.
Qed.


End Image2trackProperties.

Lemma image2track_stores_witness :
  ∃ d,
    image2track (λ a b, a ++ str "/" ++ b) unit
                (λ _ _ _ _, encode_bitmap [0; 255; 0; 0; 0; 255] 2 3)
                (str "img.png") (str "disc") tt 200
    = (Ok (901, 3, 2),
       [ (str "disc/00.dat", take 1024 d);
         (str "disc/01.dat", drop 1024 d);
         (str "disc/00.id", 1 :: replicate 11 0);
         (str "disc/01.id", 1 :: replicate 11 0) ])
    ∧ Py.len d = size
    ∧ decode_entry (Py.slice d 0 7) = (pattern_offset, 2, 3, 901)
    ∧ decode_entry (Py.slice d 7 14) = (0, 0, 0, 902)
    ∧ word d available_loc = Ok (pattern_offset + Py.len [0x56; 0] + 1)
    ∧ word d pgm_info_end_loc = Ok (size - 14)
    ∧ Py.index d 0x7EA = Ok 32
    ∧ (Py.len [0x56; 0] + 7 ≤ 1753 →
       Py.slice d (size - pattern_offset - Py.len [0x56; 0])
                (size - pattern_offset)
       = [0x56; 0]).
Proof.
  apply (image2track_stores (λ a b, a ++ str "/" ++ b) unit
           (λ _ _ _ _, encode_bitmap [0; 255; 0; 0; 0; 255] 2 3)
           (str "img.png") (str "disc") tt 200 [0x56; 0] 2 3).
  - vm_compute. reflexivity.
  - repeat constructor; lia.
  - vm_compute. discriminate.
  - lia.
  - lia.
Defined.

(** ** The hex dump *)

Lemma format_percent_outcome (fmt : list directive) :
  ∀ args,
    (length args ≠ directives fmt → format_percent fmt args = Raise TypeError)
    ∧ (length args = directives fmt →
       ∃ out, format_percent fmt args = Ok out
              ∧ (fits_width fmt args → Py.len out = format_width fmt)).
Proof.
  induction fmt as [|[s|width] fmt IH]; intros args.
  - destruct args as [|a args]; cbn [format_percent directives length].
    + split; [done|]. intros _. by exists [].
    + split; [done|]. intros Hlen. discriminate Hlen.
  - cbn [format_percent directives fits_width format_width].
    destruct (IH args) as [Hbad Hok]. split.
    + intros Hne. by rewrite Hbad.
    + intros Hlen. destruct (Hok Hlen) as (out & -> & Hout).
      exists (s ++ out). split; [done|]. intros Hfit.
      by rewrite len_app, Hout.
  - destruct args as [|a args];
      cbn [format_percent directives fits_width format_width length].
    + split; [done|]. intros Hlen. discriminate Hlen.
    + destruct (IH args) as [Hbad Hok]. split.
      * intros Hne. rewrite Hbad; [done|]. intros Heq. apply Hne. by rewrite Heq.
      * intros Hlen. injection Hlen as Hlen.
        destruct (Hok Hlen) as (out & -> & Hout).
        eexists. split; [done|]. intros [Hw Hfit].
        by rewrite len_app, Hw, Hout.
Qed.

Lemma fits_width_bytes (fmt : list directive) :
  (∀ width, In (Hex width) fmt → width = 2) →
  ∀ args, Forall (λ b, 0 ≤ b < 256) args → fits_width fmt args.
Proof.
  induction fmt as [|[s|width] fmt IH]; intros Hfmt args Hargs.
  - by destruct args.
  - cbn [fits_width]. apply IH; [|done].
    intros w Hw. apply Hfmt. by right.
  - destruct args as [|a args]; cbn [fits_width]; [done|].
    apply Forall_cons in Hargs as [Ha Hargs].
    assert (width = 2) as -> by (apply Hfmt; by left).
    split; [by rewrite format_hex_byte|].
    apply IH; [|done]. intros w Hw. apply Hfmt. by right.
Qed.

Lemma format_index_width i :
  0 ≤ i < 4096 → Py.len (Py.format_0 16 3 i) = 3.
Proof.
  intros Hi.
  assert (Hall : forallb (λ n : nat, Py.len (Py.format_0 16 3 (Z.of_nat n)) =? 3)
                         (seq 0 4096) = true) by (vm_compute; reflexivity).
  rewrite forallb_forall in Hall.
  specialize (Hall (Z.to_nat i)). rewrite Z2Nat.id in Hall by lia.
  apply Z.eqb_eq, Hall, in_seq. lia.
Qed.

Lemma rmap_ok {A B} (f : A → result B) (Q : B → Prop) (l : list A) :
  (∀ x, In x l → ∃ y, f x = Ok y ∧ Q y) →
  ∃ ys, rmap f l = Ok ys ∧ length ys = length l ∧ Forall Q ys.
Proof.
  induction l as [|x l IH]; intros Hl.
  - exists []. by repeat split.
  - destruct (Hl x ltac:(by left)) as (y & Hy & HQ).
    destruct IH as (ys & Hys & Hlen & HQs).
    { intros x' Hx'. apply Hl. by right. }
    exists (y :: ys). cbn [rmap]. rewrite Hy, Hys. cbn [rbind length].
    split; [done|]. split; [by rewrite Hlen|by constructor].
Qed.

Lemma rmap_raise {A B} (f : A → result B) (e : exn) (l : list A) :
  (∀ x, In x l → f x = Raise e ∨ ∃ y, f x = Ok y) →
  (∃ x, In x l ∧ f x = Raise e) →
  rmap f l = Raise e.
Proof.
  induction l as [|x l IH]; intros Hl (x0 & Hin & Hx0); [done|].
  cbn [rmap].
  destruct (Hl x ltac:(by left)) as [->|(y & Hy)]; [done|].
  rewrite Hy. cbn [rbind]. rewrite IH; [done| |].
  - intros x' Hx'. apply Hl. by right.
  - destruct Hin as [->|Hin]; [congruence|]. by exists x0.
Qed.

(** X20: [print_data] raises [TypeError] exactly when the length of the
    data is not a multiple of 16 (the last line is short of arguments).
    Otherwise it returns one line for every 16 elements, joined by
    newlines; for at most 4096 bytes (the index of a line then has three
    hexadecimal digits) every line is 58 characters long. *)
Theorem print_data_outcomes (data : list Z) :
  (Py.len data mod 16 ≠ 0 → print_data data = Raise TypeError)
  ∧ (Py.len data mod 16 = 0 →
     ∃ lines,
       print_data data = Ok (str_join [newline] lines)
       ∧ Py.len lines = Py.len data / 16
       ∧ (Forall (λ b, 0 ≤ b < 256) data → Py.len data ≤ 4096 →
          Forall (λ line, Py.len line = 58) lines)).
Proof.
  pose proof (len_nonneg data) as HL.
  set (n := Z.to_nat ((Py.len data + 15) / 16)).
  assert (Hrange : Py.range 0 (Py.len data) 16
                   = Ok (map (λ i : nat, 0 + Z.of_nat i * 16) (seq 0 n))).
  { unfold Py.range, Py.range_len. change (16 =? 0) with false.
    change (0 <? 16) with true. cbv iota.
    replace (Py.len data - 0 + 16 - 1) with (Py.len data + 15) by lia.
    reflexivity. }
  assert (Hslice : ∀ i, 0 ≤ i →
            Py.len (Py.slice data i (i + 16))
            = Z.min (i + 16) (Py.len data) - Z.min i (Py.len data)).
  { intros i Hi. apply len_slice. lia. }
  assert (Hargs : ∀ i : Z, length (i :: Py.slice data i (i + 16))
                           = S (Z.to_nat (Py.len (Py.slice data i (i + 16))))).
  { intros i. unfold Py.len. cbn [length]. lia. }
  pose proof (format_percent_outcome line_format) as Hfmt.
  change (directives line_format) with 17%nat in Hfmt.
  split.
  - intros Hmod. unfold print_data. rewrite Hrange. cbn [rbind].
    rewrite (rmap_raise _ TypeError); [done| |].
    + intros i Hin. apply in_map_iff in Hin as (k & <- & Hk).
      set (i := 0 + Z.of_nat k * 16).
      destruct (Hfmt (i :: Py.slice data i (i + 16))) as [Hbad Hok].
      destruct (Nat.eq_dec (length (i :: Py.slice data i (i + 16))) 17%nat)
        as [Heq|Hne].
      * right. destruct (Hok Heq) as (out & Hout & _). by exists out.
      * left. by apply Hbad.
    + exists (0 + Z.of_nat (n - 1) * 16). split.
      * apply in_map_iff. exists (n - 1)%nat. split; [done|].
        apply in_seq. unfold n. div_lia.
      * destruct (Hfmt (0 + Z.of_nat (n - 1) * 16
                        :: Py.slice data (0 + Z.of_nat (n - 1) * 16)
                                    (0 + Z.of_nat (n - 1) * 16 + 16)))
          as [Hbad _].
        apply Hbad. rewrite Hargs, Hslice by lia. unfold n. div_lia.
  - intros Hmod. unfold print_data. rewrite Hrange. cbn [rbind].
    destruct (rmap_ok
                (λ i, format_percent line_format
                        (i :: Py.slice data i (i + 16)))
                (λ line, Forall (λ b, 0 ≤ b < 256) data →
                         Py.len data ≤ 4096 → Py.len line = 58)
                (map (λ i : nat, 0 + Z.of_nat i * 16) (seq 0 n)))
      as (lines & Hlines & Hlen & HQ).
    { intros i Hin. apply in_map_iff in Hin as (k & <- & Hk).
      apply in_seq in Hk.
      set (i := 0 + Z.of_nat k * 16).
      assert (Hi : 0 ≤ i ∧ i + 16 ≤ Py.len data).
      { unfold i, n in *. div_lia. }
      destruct (Hfmt (i :: Py.slice data i (i + 16))) as [_ Hok].
      destruct Hok as (out & Hout & Hwidth).
      { rewrite Hargs, Hslice by lia. lia. }
      exists out. split; [done|]. intros Hbytes Hmax.
      change 58 with (format_width line_format). apply Hwidth.
      change line_format
        with (Hex 3 :: Lit (str ":  ")
              :: concat (replicate 4 (concat (replicate 4 [Hex 2; Lit (str " ")])
                                      ++ [Lit (str " ")]))).
      cbn [fits_width]. split; [apply format_index_width; lia|].
      apply fits_width_bytes; [|by apply Forall_slice].
      intros w Hw. vm_compute in Hw.
      repeat (destruct Hw as [Hw|Hw];
              [by (discriminate Hw || injection Hw as <-)|]).
      destruct Hw. }
    exists lines. rewrite Hlines. cbn [rbind]. split; [done|]. split.
    + unfold Py.len at 1. rewrite Hlen, length_map, length_seq.
      unfold n. div_lia.
    + intros Hbytes Hmax. eapply Forall_impl; [exact HQ|].
      intros line Hline. by apply Hline.
Qed.

Example print_data_line :
  print_data (map Z.of_nat (seq 240 16))
  = Ok (str "000:  F0 F1 F2 F3  F4 F5 F6 F7  F8 F9 FA FB  FC FD FE FF  ").
Proof. vm_compute. reflexivity. Qed.
